(** * SAPDEMO retrieval engine: chunker, vector stores and ingestion

    A shallow embedding of the chunking-and-retrieval core of the repository
    ([src/document_processor/processor.py], [src/vector_store/faiss_store.py],
    [src/vector_store/chroma_store.py], [src/rag_engine/rag_system.py] and the
    part of [src/embeddings/embeddings_generator.py] they call), followed by
    the properties of the specification stated over it.

    Conventions of the embedding:
    - a Python [int] is a [Z]; [len] is [Z.of_nat (length _)];
    - a Python [str] is a [string], each character standing for one code
      point below 256;
    - a [numpy.float32] is the rational it denotes. The vectors a store is
      given hold binary32 values, as the embeddings generator returns them,
      so that [astype('float32')] leaves them as they are; the distances of
      the flat index are the exact squared distances; the score the FAISS
      store computes from a distance is rounded as binary32 arithmetic
      rounds it ([Float32]). A Python [float] of the Chroma store is an
      exact rational;
    - a raised exception is the [Raise] case of [result]; a method that
      mutates [self] returns the new object next to its result, also when it
      raises (Python keeps the mutations done before the exception);
    - a [while] loop takes fuel: [None] means the fuel ran out. *)

From Stdlib Require Import ZArith QArith Qround Qpower String Ascii List Lia Lqa.
From Stdlib Require Import DecimalString DecimalPos DecimalZ.
From stdpp Require Import gmap strings list sorting.

Local Open Scope string_scope.
Local Open Scope Z_scope.

(** ** Python values, exceptions and built-ins *)

Inductive exception : Type :=
| AssertionError
| IndexError
| KeyError
| ValueError
| FileNotFoundError
| AttributeError
| DuplicateIDError
| InvalidDimensionException.

Inductive result (A : Type) : Type :=
| Ok (a : A)
| Raise (e : exception).
Arguments Ok {A} a.
Arguments Raise {A} e.

(** Exceptions propagate: [x ← r; k] runs [k] on the value of [r], or
    re-raises. *)
#[global] Instance result_ret : MRet result := fun A a => Ok a.
#[global] Instance result_bind : MBind result := fun A B k r =>
  match r with
  | Ok a => k a
  | Raise e => Raise e
  end.

(** A metadata value: the loaders store paths, names and counters. *)
Inductive pyval : Type :=
| VStr (s : string)
| VInt (z : Z).

#[global] Instance pyval_eq_dec : EqDecision pyval.
Proof. solve_decision. Defined.

Module Py.

Definition len {A : Type} (l : list A) : Z := Z.of_nat (length l).

Definition str_len (s : string) : Z := Z.of_nat (String.length s).

(** [str(i)] for an [int]. *)
Definition str (i : Z) : string := NilZero.string_of_int (Z.to_int i).

(** Index adjustment of a slice bound (CPython's [PySlice_AdjustIndices],
    step 1). *)
Definition adjust (n i : Z) : Z :=
  if i <? 0 then Z.max 0 (i + n) else Z.min i n.

(** [l[start:stop]] on a list. *)
Definition slice {A : Type} (l : list A) (start stop : Z) : list A :=
  let a := adjust (len l) start in
  let b := adjust (len l) stop in
  take (Z.to_nat (b - a)) (drop (Z.to_nat a) l).

(** [s[start:stop]] on a string. *)
Definition str_slice (s : string) (start stop : Z) : string :=
  let a := adjust (str_len s) start in
  let b := adjust (str_len s) stop in
  substring (Z.to_nat a) (Z.to_nat (b - a)) s.

(** [l[i]]: a negative index counts from the end, out of range raises. *)
Definition getitem {A : Type} (l : list A) (i : Z) : result A :=
  let j := if i <? 0 then i + len l else i in
  if (0 <=? j) && (j <? len l) then
    match l !! Z.to_nat j with
    | Some x => Ok x
    | None => Raise IndexError
    end
  else Raise IndexError.

(** [str.isspace] on one code point below 256. *)
Definition isspace (c : ascii) : bool :=
  let n := Z.of_nat (nat_of_ascii c) in
  ((9 <=? n) && (n <=? 13)) || ((28 <=? n) && (n <=? 32))
  || (n =? 133) || (n =? 160).

Fixpoint lstrip (s : string) : string :=
  match s with
  | EmptyString => EmptyString
  | String c r => if isspace c then lstrip r else s
  end.

Fixpoint rstrip (s : string) : string :=
  match s with
  | EmptyString => EmptyString
  | String c r =>
      match rstrip r with
      | EmptyString => if isspace c then EmptyString else String c EmptyString
      | r' => String c r'
      end
  end.

(** [s.strip()]. *)
Definition strip (s : string) : string := rstrip (lstrip s).

(** Candidates [lo + n - 1], ..., [lo] of a backward search, highest first. *)
Fixpoint rfind_down (s sub : string) (lo : Z) (n : nat) : Z :=
  match n with
  | O => -1
  | S m =>
      let i := lo + Z.of_nat m in
      if String.eqb (substring (Z.to_nat i) (String.length sub) s) sub
      then i
      else rfind_down s sub lo m
  end.

(** [s.rfind(sub, start, stop)]: the highest index [i] with
    [start <= i <= stop - len(sub)] (bounds adjusted as CPython's
    [ADJUST_INDICES] does) at which [sub] occurs, or [-1]. *)
Definition rfind (s sub : string) (start stop : Z) : Z :=
  let n := str_len s in
  let stop' := if n <? stop then n
               else if stop <? 0 then Z.max 0 (stop + n) else stop in
  let start' := if start <? 0 then Z.max 0 (start + n) else start in
  if stop' - start' <? str_len sub then -1
  else rfind_down s sub start' (Z.to_nat (stop' - str_len sub - start' + 1)).

(** [sep.join(parts)]. *)
Definition join (sep : string) (parts : list string) : string :=
  String.concat sep parts.

(** [list(range(start, stop, step))] for a positive step, by the number of
    elements still to produce. *)
Fixpoint range_from (start step : Z) (n : nat) : list Z :=
  match n with
  | O => []
  | S m => start :: range_from (start + step) step m
  end.

Definition range (start stop step : Z) : list Z :=
  range_from start step (Z.to_nat ((stop - start + step - 1) / step)).

(** [enumerate(l, start)]. *)
Fixpoint enumerate {A : Type} (start : Z) (l : list A) : list (Z * A) :=
  match l with
  | [] => []
  | x :: r => (start, x) :: enumerate (start + 1) r
  end.

End Py.

Definition NL : string := String "010"%char EmptyString.

(** ** Chunks and loaded documents *)

(** A chunk is the dictionary [{'text': ..., 'metadata': {...}}] as
    [process_document] builds it, with both keys. *)
Module Chunk.

Record t : Type := mk {
  text : string;
  metadata : gmap string pyval
}.

End Chunk.

(** What a loader's [load()] returns: the ['metadata'] dictionary and, by
    file type, the texts under ['pages'] (PDF) or under ['paragraphs']
    (DOCX); [None] is an absent key. *)
Record DocData : Type := mkDocData {
  doc_metadata : gmap string pyval;
  pages : option (list string);
  paragraphs : option (list string)
}.

(** ** [DocumentProcessor] (document_processor/processor.py) *)

Module DocumentProcessor.

Record t : Type := mk {
  chunk_size : Z;
  chunk_overlap : Z
}.

(** [DocumentProcessor(chunk_size, chunk_overlap)]: the constructor stores
    both arguments. *)
Definition __init__ (chunk_size chunk_overlap : Z) : result t :=
  Ok (mk chunk_size chunk_overlap).

Definition separators : list string :=
  [NL +:+ NL; NL; ". "; "! "; "? "].

(** The [for separator in ...] loop of [_split_text]: the first separator
    that occurs in [text[start:end]] moves [end] just after its last
    occurrence; [end] is kept when none occurs. *)
Fixpoint find_break (text : string) (start end_ : Z) (seps : list string) : Z :=
  match seps with
  | [] => end_
  | separator :: rest =>
      let last_break := Py.rfind text separator start end_ in
      if last_break =? -1 then find_break text start end_ rest
      else last_break + Py.str_len separator
  end.

(** One iteration of the [while] loop: from the cursor [start] and the
    chunks so far to the next cursor and chunks. *)
Definition split_step (self : t) (text : string) (start : Z)
    (chunks : list string) : Z * list string :=
  let end0 := start + chunk_size self in
  let end_ := if end0 <? Py.str_len text
              then find_break text start end0 separators
              else end0 in
  let chunk := Py.strip (Py.str_slice text start end_) in
  let chunks' := if String.eqb chunk "" then chunks else (chunks ++ [chunk])%list in
  let start' := if end_ <? Py.str_len text
                then end_ - chunk_overlap self
                else end_ in
  (start', chunks').

Fixpoint split_loop (fuel : nat) (self : t) (text : string) (start : Z)
    (chunks : list string) : option (list string) :=
  match fuel with
  | O => None
  | S fuel' =>
      if start <? Py.str_len text then
        let '(start', chunks') := split_step self text start chunks in
        split_loop fuel' self text start' chunks'
      else Some chunks
  end.

Definition _split_text (fuel : nat) (self : t) (text : string)
    : option (list string) :=
  split_loop fuel self text 0 [].

Definition _extract_full_text (doc_data : DocData) : result string :=
  match pages doc_data with
  | Some ps => Ok (Py.join (NL +:+ NL) ps)
  | None =>
      match paragraphs doc_data with
      | Some ps => Ok (Py.join (NL +:+ NL) ps)
      | None => Raise ValueError
      end
  end.

(** The stamping loop of [process_document]: chunk [i] of the document gets
    the document's metadata with ['chunk_index'] and ['total_chunks'] set. *)
Definition stamp (doc_data : DocData) (chunks : list string) : list Chunk.t :=
  map (fun '(i, chunk) =>
         Chunk.mk chunk
           (<["total_chunks" := VInt (Py.len chunks)]>
              (<["chunk_index" := VInt i]> (doc_metadata doc_data))))
      (Py.enumerate 0 chunks).

Section Loading.

(** [LoaderFactory.get_loader(file_path).load()]: the document parsers are
    outside the engine. *)
Variable load : string -> result DocData.

(** [process_document]: [None] when the split runs out of fuel. *)
Definition process_document (fuel : nat) (self : t) (file_path : string)
    : option (result (list Chunk.t)) :=
  match load file_path with
  | Raise e => Some (Raise e)
  | Ok doc_data =>
      match _extract_full_text doc_data with
      | Raise e => Some (Raise e)
      | Ok full_text =>
          match _split_text fuel self full_text with
          | None => None
          | Some chunks => Some (Ok (stamp doc_data chunks))
          end
      end
  end.

(** [directory.glob("*" + ext)]: the files of a directory with a given
    extension, in the order the file system lists them. *)
Variable glob : string -> string -> list string.

(** The inner [for file_path in ...] loop with its [try]/[except]: a file
    that raises is logged and skipped. *)
Fixpoint process_files (fuel : nat) (self : t) (files : list string)
    (all_chunks : list Chunk.t) : option (list Chunk.t) :=
  match files with
  | [] => Some all_chunks
  | file_path :: rest =>
      match process_document fuel self file_path with
      | None => None
      | Some (Ok chunks) => process_files fuel self rest (all_chunks ++ chunks)%list
      | Some (Raise _) => process_files fuel self rest all_chunks
      end
  end.

Fixpoint process_extensions (fuel : nat) (self : t) (directory_path : string)
    (exts : list string) (all_chunks : list Chunk.t) : option (list Chunk.t) :=
  match exts with
  | [] => Some all_chunks
  | ext :: rest =>
      match process_files fuel self (glob directory_path ext) all_chunks with
      | None => None
      | Some all_chunks' =>
          process_extensions fuel self directory_path rest all_chunks'
      end
  end.

Definition supported_extensions : list string := [".pdf"; ".docx"].

Definition process_directory (fuel : nat) (self : t) (directory_path : string)
    : option (list Chunk.t) :=
  process_extensions fuel self directory_path supported_extensions [].

End Loading.

Record Stats : Type := mkStats {
  total_chunks : Z;
  total_characters : Z;
  avg_chunk_size : Z;
  unique_sources : Z
}.

(** [get_document_stats]; the ['sources'] list, whose order Python leaves
    open, is not part of the model. *)
Definition get_document_stats (chunks : list Chunk.t) : result Stats :=
  match chunks with
  | [] => Ok (mkStats 0 0 0 0)
  | _ =>
      let total_chars := foldr Z.add 0 (map (fun c => Py.str_len (Chunk.text c)) chunks) in
      sources ← mapM (fun c => match Chunk.metadata c !! "source" with
                               | Some v => Ok v
                               | None => Raise KeyError
                               end) chunks;
      Ok (mkStats (Py.len chunks) total_chars (total_chars / Py.len chunks)
                  (Py.len (remove_dups sources)))
  end.

End DocumentProcessor.

(** ** Arrays ([numpy.ndarray]) *)

(** The arrays the engine handles have one or two dimensions: [Array1 v] has
    shape [(len v,)], [Array2 ncols rows] has shape [(len rows, ncols)], each
    row holding [ncols] numbers. *)
Inductive ndarray : Type :=
| Array1 (v : list Q)
| Array2 (ncols : Z) (rows : list (list Q)).

Module Np.

(** [len(a)]: the size of the first dimension. *)
Definition len (a : ndarray) : Z :=
  match a with
  | Array1 v => Py.len v
  | Array2 _ rows => Py.len rows
  end.

(** [a.size]: the number of elements the shape announces. *)
Definition size (a : ndarray) : Z :=
  match a with
  | Array1 v => Py.len v
  | Array2 ncols rows => Py.len rows * ncols
  end.

(** [a.reshape(1, -1)]: one row holding all the elements. *)
Definition reshape_row (a : ndarray) : ndarray :=
  match a with
  | Array1 v => Array2 (size a) [v]
  | Array2 _ rows => Array2 (size a) [concat rows]
  end.

(** Every row of a two-dimensional array has the declared width. *)
Definition well_shaped (a : ndarray) : Prop :=
  match a with
  | Array1 _ => True
  | Array2 ncols rows => Forall (fun row => Py.len row = ncols) rows
  end.

End Np.

(** ** [numpy.float32] arithmetic

    The finite binary32 numbers as the rationals they denote. An operation
    on binary32 values returns the exact result rounded to the nearest
    binary32 number, ties to the even significand: 24 bits of precision,
    subnormal numbers down to [2^-149]. Overflow to infinity is left out:
    the values the stores round stay below [2^128]. *)
Module Float32.

(** [floor(log2 q)] of a positive [q]. *)
Definition ilog2 (q : Q) : Z :=
  let k := Z.log2 (Qnum q) - Z.log2 (Zpos (Qden q)) in
  if Qle_bool (2 ^ k) q then k else k - 1.

(** The nearest integer, ties to even. *)
Definition rint (q : Q) : Z :=
  let f := Qfloor q in
  match (q - inject_Z f ?= 1 # 2)%Q with
  | Lt => f
  | Gt => f + 1
  | Eq => if Z.even f then f else f + 1
  end.

(** The exponent of the last place of the binary32 numbers around a
    positive [q]. *)
Definition cexp (q : Q) : Z := Z.max (ilog2 q - 23) (-149).

Definition round_pos (q : Q) : Q :=
  let c := cexp q in (inject_Z (rint (q / 2 ^ c)) * 2 ^ c)%Q.

(** Rounding to binary32, as a fraction in lowest terms. *)
Definition round (q : Q) : Q :=
  Qred (match Qnum q with
        | Z0 => 0
        | Zpos _ => round_pos q
        | Zneg _ => - round_pos (- q)
        end)%Q.

Definition add (x y : Q) : Q := round (x + y).

Definition div (x y : Q) : Q := round (x / y).

End Float32.

(** ** The flat L2 index of the faiss library

    [faiss.IndexFlatL2] is not part of the repository; this is its documented
    behaviour. The index stores the added vectors in order; [search] compares
    the query with every stored vector by squared Euclidean distance (the
    distance faiss reports for its L2 metric) and returns, for each query row,
    exactly [k] distances and labels, nearest first. A row enters the result
    only if its distance is below the initial heap value [FLT_MAX]; when
    fewer than [k] rows qualify, the missing places hold the label [-1] and
    the distance [FLT_MAX]. *)
Module Faiss.

Record IndexFlatL2 : Type := mk {
  d : Z;
  xb : list (list Q)
}.

Definition new (dim : Z) : IndexFlatL2 := mk dim [].

Definition ntotal (index : IndexFlatL2) : Z := Py.len (xb index).

(** The largest finite binary32 number, [(2 - 2^-23) * 2^127]. *)
Definition FLT_MAX : Q := inject_Z ((2 ^ 24 - 1) * 2 ^ 104).

(** [index.add(x)]: [n, d = x.shape], [assert d == self.d], then the rows are
    appended. *)
Definition add (index : IndexFlatL2) (x : ndarray) : result IndexFlatL2 :=
  match x with
  | Array1 _ => Raise ValueError
  | Array2 ncols rows =>
      if ncols =? d index then Ok (mk (d index) (xb index ++ rows))
      else Raise AssertionError
  end.

Definition fvec_L2sqr (x y : list Q) : Q :=
  foldr Qplus 0%Q (zip_with (fun a b => ((a - b) * (a - b))%Q) x y).

Definition Qltb (a b : Q) : bool := negb (Qle_bool b a).

(** Insertion of a hit into a list ordered by distance, before the hits that
    are not nearer. *)
Fixpoint insert_hit (h : Q * Z) (l : list (Q * Z)) : list (Q * Z) :=
  match l with
  | [] => [h]
  | h' :: r => if Qle_bool (fst h) (fst h') then h :: l else h' :: insert_hit h r
  end.

(** Hits by increasing distance; rows at the same distance keep their order. *)
Definition sort_hits (l : list (Q * Z)) : list (Q * Z) :=
  foldr insert_hit [] l.

(** The distance of the query to each stored row, with the row number. *)
Definition hits (index : IndexFlatL2) (q : list Q) : list (Q * Z) :=
  map (fun '(i, v) => (fvec_L2sqr q v, i)) (Py.enumerate 0 (xb index)).

Definition search_row (index : IndexFlatL2) (k : Z) (q : list Q) : list (Q * Z) :=
  let found := take (Z.to_nat k)
    (sort_hits (filter (fun h => Is_true (Qltb (fst h) FLT_MAX)) (hits index q))) in
  found ++ replicate (Z.to_nat k - length found) (FLT_MAX, -1).

(** [index.search(x, k)]: the distances and the labels, one row per query. *)
Definition search (index : IndexFlatL2) (x : ndarray) (k : Z)
    : result (list (list Q) * list (list Z)) :=
  match x with
  | Array1 _ => Raise ValueError
  | Array2 ncols rows =>
      if negb (ncols =? d index) then Raise AssertionError
      else if negb (0 <? k) then Raise AssertionError
      else
        let found := map (search_row index k) rows in
        Ok (map (map fst) found, map (map snd) found)
  end.

End Faiss.

(** ** [FAISSVectorStore] (vector_store/faiss_store.py) *)

Module FAISSVectorStore.

Record t : Type := mk {
  embedding_dim : Z;
  index : Faiss.IndexFlatL2;
  documents : list string;
  metadatas : list (gmap string pyval)
}.

(** The two files of the persist directory, [faiss_index.bin] and
    [metadata.pkl]: [None] when the file does not exist. What
    [faiss.write_index] and [pickle.dump] write is what [faiss.read_index]
    and [pickle.load] read back. *)
Record Disk : Type := mkDisk {
  index_path : option Faiss.IndexFlatL2;
  metadata_path : option (list string * list (gmap string pyval))
}.

Record QueryResult : Type := mkResult {
  id : string;
  text : string;
  metadata : gmap string pyval;
  distance : Q;
  score : Q
}.

Definition load_index (self : t) (disk : Disk) : result unit * t :=
  match index_path disk with
  | None => (Raise FileNotFoundError, self)
  | Some index' =>
      let self' := mk (embedding_dim self) index' (documents self) (metadatas self) in
      match metadata_path disk with
      | None => (Raise FileNotFoundError, self')
      | Some (documents', metadatas') =>
          (Ok (), mk (embedding_dim self) index' documents' metadatas')
      end
  end.

(** [FAISSVectorStore(embedding_dim, persist_directory)] over the files of
    the persist directory. *)
Definition __init__ (embedding_dim : Z) (disk : Disk) : result t :=
  match index_path disk with
  | Some _ =>
      let '(r, self) := load_index (mk embedding_dim (Faiss.new embedding_dim) [] []) disk in
      _ ← r; Ok self
  | None => Ok (mk embedding_dim (Faiss.new embedding_dim) [] [])
  end.

(** [add_documents]: [embeddings] holds binary32 values, which
    [astype('float32')] leaves as they are; [index.add] comes first, then the
    texts and the metadatas of the chunks are appended. *)
Definition add_documents (self : t) (chunks : list Chunk.t) (embeddings : ndarray)
    : result unit * t :=
  match Faiss.add (index self) embeddings with
  | Raise e => (Raise e, self)
  | Ok index' =>
      (Ok (), mk (embedding_dim self) index'
                 (documents self ++ map Chunk.text chunks)
                 (metadatas self ++ map Chunk.metadata chunks))
  end.

(** The formatting loop of [query] over the zipped distances and labels.
    [distance] is a [numpy.float32], so [1 / (1 + distance)] is computed in
    binary32. *)
Fixpoint format_results (self : t) (found : list (Q * Z))
    (results : list QueryResult) : result (list QueryResult) :=
  match found with
  | [] => Ok results
  | (distance, idx) :: rest =>
      if idx <? Py.len (documents self) then
        let score := Float32.div 1 (Float32.add 1 distance) in
        text ← Py.getitem (documents self) idx;
        metadata ← Py.getitem (metadatas self) idx;
        format_results self rest
          (results ++ [mkResult ("doc_" +:+ Py.str idx) text metadata distance score])
      else format_results self rest results
  end.

Definition query (self : t) (query_embedding : ndarray) (top_k : Z)
    : result (list QueryResult) :=
  if Faiss.ntotal (index self) =? 0 then Ok []
  else
    let query_normalized := Np.reshape_row query_embedding in
    found ← Faiss.search (index self) query_normalized top_k;
    distances0 ← Py.getitem (fst found) 0;
    indices0 ← Py.getitem (snd found) 0;
    format_results self (zip distances0 indices0) [].

Definition save_index (self : t) (disk : Disk) : result unit * Disk :=
  (Ok (), mkDisk (Some (index self)) (Some (documents self, metadatas self))).

Record Stats : Type := mkStats {
  document_count : Z;
  embedding_dimension : Z
}.

Definition get_stats (self : t) : Stats :=
  mkStats (Faiss.ntotal (index self)) (embedding_dim self).

Definition reset (self : t) : t :=
  mk (embedding_dim self) (Faiss.new (embedding_dim self)) [] [].

End FAISSVectorStore.

(** ** The collection of the chromadb library

    [chromadb] is not part of the repository; this is the part of a
    collection's documented behaviour that the store relies on. A collection
    holds records keyed by id, and its embeddings have one dimension, that
    of the first record it was given. [add] validates the batch in this
    order: the ids are not empty and none is repeated; the embeddings are
    not empty, and none is an empty vector; no metadata is an empty
    dictionary; ids, embeddings, documents and metadatas agree in number;
    every embedding has the dimension of the collection. A record whose id
    the collection already holds is left out, the stored one stays (the
    releases that have the [PersistentClient] the store opens ignore such a
    record; older ones rejected the batch). The values of the metadata
    (strings and integers here) are of the types the library accepts. *)
Module Chroma.

Record Row : Type := mkRow {
  row_id : string;
  row_embedding : list Q;
  row_document : string;
  row_metadata : gmap string pyval
}.

Definition has_id (rows : list Row) (i : string) : bool :=
  existsb (fun r => String.eqb i (row_id r)) rows.

Fixpoint insert_rows (rows new : list Row) : list Row :=
  match new with
  | [] => rows
  | r :: rest =>
      insert_rows (if has_id rows (row_id r) then rows else rows ++ [r]) rest
  end.

Fixpoint zip_rows (ids : list string) (embeddings : list (list Q))
    (documents : list string) (metadatas : list (gmap string pyval)) : list Row :=
  match ids, embeddings, documents, metadatas with
  | i :: ids', e :: embeddings', doc :: documents', m :: metadatas' =>
      mkRow i e doc m :: zip_rows ids' embeddings' documents' metadatas'
  | _, _, _, _ => []
  end.

(** The dimension of the collection: none before the first record. *)
Definition dimension (rows : list Row) : option Z :=
  match rows with
  | [] => None
  | r :: _ => Some (Py.len (row_embedding r))
  end.

(** [collection.add(ids=..., embeddings=..., documents=..., metadatas=...)]. *)
Definition add (rows : list Row) (ids : list string) (embeddings : list (list Q))
    (documents : list string) (metadatas : list (gmap string pyval))
    : result (list Row) :=
  if Py.len ids =? 0 then Raise ValueError
  else if negb (bool_decide (NoDup ids)) then Raise DuplicateIDError
  else if (Py.len embeddings =? 0) || existsb (fun e => Py.len e =? 0) embeddings
  then Raise ValueError
  else if existsb (fun m => Z.of_nat (size m) =? 0) metadatas then Raise ValueError
  else if negb ((Py.len embeddings =? Py.len ids)
                && (Py.len documents =? Py.len ids)
                && (Py.len metadatas =? Py.len ids)) then Raise ValueError
  else
    let dim := match dimension rows, embeddings with
               | Some dim, _ => dim
               | None, e :: _ => Py.len e
               | None, [] => 0
               end in
    if negb (forallb (fun e => Py.len e =? dim) embeddings)
    then Raise InvalidDimensionException
    else Ok (insert_rows rows (zip_rows ids embeddings documents metadatas)).

(** What [collection.query] returns: one inner list per query embedding;
    [distances] is [None] when the key is absent. *)
Record QueryResult : Type := mkQueryResult {
  ids : list (list string);
  documents : list (list string);
  metadatas : list (list (gmap string pyval));
  distances : option (list (list Q))
}.

End Chroma.

(** ** [ChromaVectorStore] (vector_store/chroma_store.py) *)

Module ChromaVectorStore.

Record t : Type := mk {
  collection_name : string;
  collection : list Chroma.Row
}.

Record Document : Type := mkDocument {
  id : string;
  text : string;
  metadata : gmap string pyval;
  distance : option Q;
  score : option Q
}.

(** The ids of one [add_documents] call: ["doc_" + str(i)] for [i] in
    [range(len(chunks))]. *)
Definition new_ids (chunks : list Chunk.t) : list string :=
  map (fun i => "doc_" +:+ Py.str i) (Py.range 0 (Py.len chunks) 1).

(** [embeddings.tolist()[i:end_idx]] as the collection reads it: a slice of
    rows, or, for a one-dimensional array, the sliced numbers as one
    embedding. *)
Definition embeddings_slice (embeddings : ndarray) (i end_idx : Z) : list (list Q) :=
  match embeddings with
  | Array2 _ rows => Py.slice rows i end_idx
  | Array1 v =>
      match Py.slice v i end_idx with
      | [] => []
      | w => [w]
      end
  end.

(** The batch loop of [add_documents] over the batch starts still to do. *)
Fixpoint add_batches (rows : list Chroma.Row) (chunks : list Chunk.t)
    (embeddings : ndarray) (starts : list Z) : result unit * list Chroma.Row :=
  match starts with
  | [] => (Ok (), rows)
  | i :: rest =>
      let end_idx := Z.min (i + 100) (Py.len chunks) in
      match Chroma.add rows
              (Py.slice (new_ids chunks) i end_idx)
              (embeddings_slice embeddings i end_idx)
              (Py.slice (map Chunk.text chunks) i end_idx)
              (Py.slice (map Chunk.metadata chunks) i end_idx) with
      | Raise e => (Raise e, rows)
      | Ok rows' => add_batches rows' chunks embeddings rest
      end
  end.

Definition add_documents (self : t) (chunks : list Chunk.t) (embeddings : ndarray)
    : result unit * t :=
  let batch_size := 100 in
  let '(r, rows) := add_batches (collection self) chunks embeddings
                      (Py.range 0 (Py.len chunks) batch_size) in
  (r, mk (collection_name self) rows).

Definition get_stats (self : t) : Z := Py.len (collection self).

(** [reset]: the collection is deleted and created again. *)
Definition reset (self : t) : t := mk (collection_name self) [].

Section Query.

(** [collection.query(query_embeddings=..., n_results=..., where=...)]: the
    approximate nearest-neighbour search of the library. *)
Variable collection_query :
  list Chroma.Row -> list (list Q) -> Z -> option (gmap string pyval)
  -> result Chroma.QueryResult.

(** The value of [results[key][0][i] if 'distances' in results else None],
    through [f]. *)
Definition distance_at (results : Chroma.QueryResult) (f : Q -> Q) (i : Z)
    : result (option Q) :=
  match Chroma.distances results with
  | None => Ok None
  | Some ds => d0 ← Py.getitem ds 0; x ← Py.getitem d0 i; Ok (Some (f x))
  end.

(** The formatting loop of [query] over [range(len(results['ids'][0]))]. *)
Fixpoint format_documents (results : Chroma.QueryResult) (indices : list Z)
    (documents : list Document) : result (list Document) :=
  match indices with
  | [] => Ok documents
  | i :: rest =>
      ids0 ← Py.getitem (Chroma.ids results) 0;
      id ← Py.getitem ids0 i;
      documents0 ← Py.getitem (Chroma.documents results) 0;
      text ← Py.getitem documents0 i;
      metadatas0 ← Py.getitem (Chroma.metadatas results) 0;
      metadata ← Py.getitem metadatas0 i;
      distance ← distance_at results (fun x => x) i;
      score ← distance_at results (fun x => (1 - x)%Q) i;
      format_documents results rest
        (documents ++ [mkDocument id text metadata distance score])
  end.

Definition query (self : t) (query_embedding : ndarray) (top_k : Z)
    (filter_metadata : option (gmap string pyval)) : result (list Document) :=
  let query_embeddings :=
    match Np.reshape_row query_embedding with
    | Array2 _ rows => rows
    | Array1 v => [v]
    end in
  results ← collection_query (collection self) query_embeddings top_k filter_metadata;
  ids0 ← Py.getitem (Chroma.ids results) 0;
  format_documents results (Py.range 0 (Py.len ids0) 1) [].

End Query.

End ChromaVectorStore.

(** ** [EmbeddingsGenerator] (embeddings/embeddings_generator.py) *)

Module EmbeddingsGenerator.

Section Model.

(** [self.model.encode(texts, ...)]: the sentence-embedding model is outside
    the engine. *)
Variable encode : list string -> result ndarray.

(** [generate_embeddings]: an empty list gives [np.array([])] without
    running the model. *)
Definition generate_embeddings (texts : list string) : result ndarray :=
  match texts with
  | [] => Ok (Array1 [])
  | _ => encode texts
  end.

End Model.

End EmbeddingsGenerator.

(** ** [SAPRAGSystem] (rag_engine/rag_system.py) *)

Module SAPRAGSystem.

Inductive VectorStore : Type :=
| ChromaStore (store : ChromaVectorStore.t)
| FaissStore (store : FAISSVectorStore.t).

Inductive StoreStats : Type :=
| ChromaStats (document_count : Z)
| FaissStats (stats : FAISSVectorStore.Stats).

(** The system with the part of its environment that ingestion touches: the
    files of the FAISS persist directory, and the argument of every call the
    embeddings generator received, oldest first. *)
Record t : Type := mk {
  document_processor : DocumentProcessor.t;
  vector_store : VectorStore;
  vector_store_type : string;
  disk : FAISSVectorStore.Disk;
  embeddings_calls : list (list string)
}.

(** The dictionary an ingestion returns: [{'status': 'error', 'message': m}]
    or [{'status': 'success', 'stats': stats}], where the directory ingestion
    adds ['vector_store_stats'] to the statistics. *)
Inductive IngestReturn : Type :=
| StatusError (message : string)
| StatusSuccess (stats : DocumentProcessor.Stats) (vector_store_stats : option StoreStats).

(** [SAPRAGSystem(...)]: [stored] is what the Chroma collection holds when
    it is opened, [disk] the files of the FAISS persist directory, and
    [embedding_dim] the dimension the embeddings generator reports. *)
Definition __init__ (vector_store_type : string) (chunk_size chunk_overlap : Z)
    (embedding_dim : Z) (stored : list Chroma.Row) (disk : FAISSVectorStore.Disk)
    : result t :=
  document_processor ← DocumentProcessor.__init__ chunk_size chunk_overlap;
  vector_store ← (if String.eqb vector_store_type "chroma"
                  then Ok (ChromaStore (ChromaVectorStore.mk "sap_documents" stored))
                  else store ← FAISSVectorStore.__init__ embedding_dim disk;
                       Ok (FaissStore store));
  Ok (mk document_processor vector_store vector_store_type disk []).

Definition store_add_documents (vector_store : VectorStore) (chunks : list Chunk.t)
    (embeddings : ndarray) : result unit * VectorStore :=
  match vector_store with
  | ChromaStore store =>
      let '(r, store') := ChromaVectorStore.add_documents store chunks embeddings in
      (r, ChromaStore store')
  | FaissStore store =>
      let '(r, store') := FAISSVectorStore.add_documents store chunks embeddings in
      (r, FaissStore store')
  end.

Definition store_get_stats (vector_store : VectorStore) : StoreStats :=
  match vector_store with
  | ChromaStore store => ChromaStats (ChromaVectorStore.get_stats store)
  | FaissStore store => FaissStats (FAISSVectorStore.get_stats store)
  end.

(** [self.vector_store.save_index()]: only the FAISS store has the method. *)
Definition store_save_index (vector_store : VectorStore) (disk : FAISSVectorStore.Disk)
    : result unit * FAISSVectorStore.Disk :=
  match vector_store with
  | ChromaStore _ => (Raise AttributeError, disk)
  | FaissStore store => FAISSVectorStore.save_index store disk
  end.

Section Collaborators.

Variable load : string -> result DocData.
Variable glob : string -> string -> list string.
Variable encode : list string -> result ndarray.

(** [self.embeddings_generator.generate_embeddings(texts)]: the call is
    recorded, then answered. *)
Definition generate_embeddings (self : t) (texts : list string)
    : result ndarray * t :=
  (EmbeddingsGenerator.generate_embeddings encode texts,
   mk (document_processor self) (vector_store self) (vector_store_type self)
      (disk self) (embeddings_calls self ++ [texts])).

(** [self.vector_store.add_documents(chunks, embeddings)]. *)
Definition add_documents (self : t) (chunks : list Chunk.t) (embeddings : ndarray)
    : result unit * t :=
  let '(r, vector_store') := store_add_documents (vector_store self) chunks embeddings in
  (r, mk (document_processor self) vector_store' (vector_store_type self)
         (disk self) (embeddings_calls self)).

(** [self.vector_store.save_index()]. *)
Definition save_index (self : t) : result unit * t :=
  let '(r, disk') := store_save_index (vector_store self) (disk self) in
  (r, mk (document_processor self) (vector_store self) (vector_store_type self)
         disk' (embeddings_calls self)).

Definition ingest_documents (fuel : nat) (self : t) (directory_path : string)
    : option (result IngestReturn * t) :=
  match DocumentProcessor.process_directory load glob fuel
          (document_processor self) directory_path with
  | None => None
  | Some [] => Some (Ok (StatusError "Nenhum documento encontrado"), self)
  | Some chunks =>
      Some (let texts := map Chunk.text chunks in
            match generate_embeddings self texts with
            | (Raise e, self) => (Raise e, self)
            | (Ok embeddings, self) =>
            match add_documents self chunks embeddings with
            | (Raise e, self) => (Raise e, self)
            | (Ok _, self) =>
            match (if String.eqb (vector_store_type self) "faiss"
                   then save_index self else (Ok (), self)) with
            | (Raise e, self) => (Raise e, self)
            | (Ok _, self) =>
            match DocumentProcessor.get_document_stats chunks with
            | Raise e => (Raise e, self)
            | Ok stats =>
                (Ok (StatusSuccess stats (Some (store_get_stats (vector_store self)))),
                 self)
            end end end end)
  end.

Definition ingest_single_document (fuel : nat) (self : t) (file_path : string)
    : option (result IngestReturn * t) :=
  match DocumentProcessor.process_document load fuel
          (document_processor self) file_path with
  | None => None
  | Some (Raise e) => Some (Raise e, self)
  | Some (Ok chunks) =>
      Some (let texts := map Chunk.text chunks in
            match generate_embeddings self texts with
            | (Raise e, self) => (Raise e, self)
            | (Ok embeddings, self) =>
            match add_documents self chunks embeddings with
            | (Raise e, self) => (Raise e, self)
            | (Ok _, self) =>
            match (if String.eqb (vector_store_type self) "faiss"
                   then save_index self else (Ok (), self)) with
            | (Raise e, self) => (Raise e, self)
            | (Ok _, self) =>
            match DocumentProcessor.get_document_stats chunks with
            | Raise e => (Raise e, self)
            | Ok stats => (Ok (StatusSuccess stats None), self)
            end end end end)
  end.

End Collaborators.

End SAPRAGSystem.

(** ** What the properties observe *)

(** The stamped fields of a chunk's metadata. *)
Definition chunk_index_of (c : Chunk.t) : option pyval :=
  Chunk.metadata c !! "chunk_index".

Definition total_chunks_of (c : Chunk.t) : option pyval :=
  Chunk.metadata c !! "total_chunks".

(** What a chunk of the split looks like: not empty, no white space at
    either end, at most [chunk_size] characters. *)
Definition well_formed_chunk (chunk_size : Z) (c : string) : Prop :=
  c <> "" /\ Py.strip c = c /\ Py.str_len c <= chunk_size.

(** The chunks a file contributes to a directory run: those of its
    [process_document], none when it raises. *)
Definition chunks_of_file (load : string -> result DocData) (fuel : nat)
    (self : DocumentProcessor.t) (file_path : string) : list Chunk.t :=
  match DocumentProcessor.process_document load fuel self file_path with
  | Some (Ok chunks) => chunks
  | _ => []
  end.

(** The order of a ranked list: each score is at least every later one. *)
Definition nonincreasing (scores : list Q) : Prop :=
  forall (i j : nat) (a b : Q),
    (i < j)%nat -> scores !! i = Some a -> scores !! j = Some b -> (b <= a)%Q.


(** The elements of a query embedding, as [reshape(1, -1)] lays them out. *)
Definition flat (a : ndarray) : list Q :=
  match a with
  | Array1 v => v
  | Array2 _ rows => concat rows
  end.

(** Hits compared by their distance. *)
Definition by_distance (a b : Q * Z) : Prop := (fst a <= fst b)%Q.

(** A result of the FAISS store built from the hit [h]: the loop body of
    [query] for a hit that passes its guard. *)
Definition describes (self : FAISSVectorStore.t)
    (r : FAISSVectorStore.QueryResult) (h : Q * Z) : Prop :=
  FAISSVectorStore.id r = "doc_" +:+ Py.str (snd h)
  /\ Py.getitem (FAISSVectorStore.documents self) (snd h) = Ok (FAISSVectorStore.text r)
  /\ Py.getitem (FAISSVectorStore.metadatas self) (snd h) = Ok (FAISSVectorStore.metadata r)
  /\ FAISSVectorStore.distance r = fst h
  /\ FAISSVectorStore.score r = Float32.div 1 (Float32.add 1 (fst h))
  /\ snd h < Py.len (FAISSVectorStore.documents self).

(** The result [r] of a query for [q] presents row [j] of the store: its
    id, text and metadata, at its distance from [q]. *)
Definition presents (self : FAISSVectorStore.t) (q : list Q)
    (r : FAISSVectorStore.QueryResult) (j : nat) : Prop :=
  exists v,
    Faiss.xb (FAISSVectorStore.index self) !! j = Some v
    /\ FAISSVectorStore.id r = "doc_" +:+ Py.str (Z.of_nat j)
    /\ FAISSVectorStore.documents self !! j = Some (FAISSVectorStore.text r)
    /\ FAISSVectorStore.metadatas self !! j = Some (FAISSVectorStore.metadata r)
    /\ FAISSVectorStore.distance r = Faiss.fvec_L2sqr q v.

(** The parallelism of the FAISS store: one text and one metadata per index
    row, and every row of the index dimension. *)
Definition consistent (self : FAISSVectorStore.t) : Prop :=
  Py.len (FAISSVectorStore.documents self) = Faiss.ntotal (FAISSVectorStore.index self)
  /\ Py.len (FAISSVectorStore.metadatas self) = Faiss.ntotal (FAISSVectorStore.index self)
  /\ Forall (fun row => Py.len row = Faiss.d (FAISSVectorStore.index self))
            (Faiss.xb (FAISSVectorStore.index self)).

(** Each side table of the FAISS store has one entry per index row. *)
Definition paired (self : FAISSVectorStore.t) : Prop :=
  Py.len (FAISSVectorStore.documents self) = Faiss.ntotal (FAISSVectorStore.index self)
  /\ Py.len (FAISSVectorStore.metadatas self) = Faiss.ntotal (FAISSVectorStore.index self).

(** The records one [add_documents] call hands to the Chroma collection:
    chunk [i] under the id ["doc_i"] with vector [i]. *)
Definition chroma_rows (chunks : list Chunk.t) (rows : list (list Q))
    : list Chroma.Row :=
  Chroma.zip_rows (ChromaVectorStore.new_ids chunks) rows
    (map Chunk.text chunks) (map Chunk.metadata chunks).

(** The documents the Chroma store makes of the first inner lists of a
    query result that carries distances. *)
Fixpoint chroma_documents (ids texts : list string)
    (metadatas : list (gmap string pyval)) (distances : list Q)
    : list ChromaVectorStore.Document :=
  match ids, texts, metadatas, distances with
  | i :: ids', t :: texts', m :: metadatas', d :: distances' =>
      ChromaVectorStore.mkDocument i t m (Some d) (Some (1 - d)%Q)
      :: chroma_documents ids' texts' metadatas' distances'
  | _, _, _, _ => []
  end.

(** The query embeddings the Chroma store hands to the collection:
    [query_embedding.reshape(1, -1).tolist()]. *)
Definition query_rows (query_embedding : ndarray) : list (list Q) :=
  match Np.reshape_row query_embedding with
  | Array2 _ rows => rows
  | Array1 v => [v]
  end.




(** The contract of the Chroma collection the engine relies on: a query
    returns its distances, each query's neighbours nearest first. *)
Definition chroma_distances_ascending
    (collection_query : list Chroma.Row -> list (list Q) -> Z
                        -> option (gmap string pyval) -> result Chroma.QueryResult)
    : Prop :=
  forall rows query_embeddings n_results where_ results,
    collection_query rows query_embeddings n_results where_ = Ok results ->
    exists ds,
      Chroma.distances results = Some ds
      /\ forall d0, ds !! 0%nat = Some d0 -> StronglySorted Qle d0.

(** ** Sample data *)

Definition stuck_text : string := "abc. efghijklmnop".

Definition sample_doc : DocData :=
  mkDocData (<["filename" := VStr "a.pdf"]> ∅) (Some ["AAAA. BBBB."; "CCCC."]) None.

Definition chunkA : Chunk.t := Chunk.mk "chunkA" (<["chunk_index" := VInt 0]> ∅).
Definition chunkB : Chunk.t := Chunk.mk "chunkB" (<["chunk_index" := VInt 1]> ∅).

Definition e1 : list Q := [1; 0; 0; 0]%Q.
Definition e2 : list Q := [0; 1; 0; 0]%Q.

(** The index of the specification's example: [FlatIndex(embedding_dim=4)]
    after [add([chunkA, chunkB], [[1,0,0,0],[0,1,0,0]])]. *)
Definition sample_store : FAISSVectorStore.t :=
  snd (FAISSVectorStore.add_documents
         (FAISSVectorStore.mk 4 (Faiss.new 4) [] [])
         [chunkA; chunkB] (Array2 4 [e1; e2])).



(** A PDF whose only page is blank, and a system over an empty Chroma
    collection with the default chunking configuration. *)
Definition blank_doc : DocData := mkDocData ∅ (Some ["  "]) None.

Definition sample_system : SAPRAGSystem.t :=
  SAPRAGSystem.mk (DocumentProcessor.mk 1000 200)
    (SAPRAGSystem.ChromaStore (ChromaVectorStore.mk "sap_documents" []))
    "chroma" (FAISSVectorStore.mkDisk None None) [].

Definition sample_faiss_system : SAPRAGSystem.t :=
  SAPRAGSystem.mk (DocumentProcessor.mk 1000 200)
    (SAPRAGSystem.FaissStore (FAISSVectorStore.mk 4 (Faiss.new 4) [] []))
    "faiss" (FAISSVectorStore.mkDisk None None) [].

(** A collection that answers every query with two neighbours, at the
    cosine distances 0 and 1/2. *)
Definition sample_collection_query (rows : list Chroma.Row)
    (query_embeddings : list (list Q)) (n_results : Z)
    (where_ : option (gmap string pyval)) : result Chroma.QueryResult :=
  Ok (Chroma.mkQueryResult [["doc_0"; "doc_1"]] [["chunkA"; "chunkB"]]
        [[Chunk.metadata chunkA; Chunk.metadata chunkB]]
        (Some [[0; 1 # 2]%Q])).

(** A collection whose answer holds one text fewer than ids. *)
Definition short_collection_query (rows : list Chroma.Row)
    (query_embeddings : list (list Q)) (n_results : Z)
    (where_ : option (gmap string pyval)) : result Chroma.QueryResult :=
  Ok (Chroma.mkQueryResult [["doc_0"; "doc_1"]] [["chunkA"]]
        [[Chunk.metadata chunkA; Chunk.metadata chunkB]] None).

(** A directory with two PDF files, one of which does not load, and one
    DOCX file; the loader names the source of what it loads. *)
Definition sourced_doc (path : string) : DocData :=
  mkDocData (<["source" := VStr path]> (<["filename" := VStr "a.pdf"]> ∅))
    (Some ["AAAA. BBBB."; "CCCC."]) None.

Definition sample_load (path : string) : result DocData :=
  if String.eqb path "docs/bad.pdf" then Raise ValueError else Ok (sourced_doc path).

Definition sample_glob (directory extension : string) : list string :=
  if String.eqb extension ".pdf" then
    [directory +:+ "/a.pdf"; directory +:+ "/bad.pdf"]
  else [directory +:+ "/b.docx"].

(** An embeddings generator of dimension 4 that maps every text to [e1],
    a FAISS system with chunks of at most ten characters, and what the run of
    its directory ingestion over the sample directory gives. *)
Definition sample_encode (texts : list string) : result ndarray :=
  Ok (Array2 4 (map (fun _ => e1) texts)).

Definition small_faiss_system (vector_store_type : string) : SAPRAGSystem.t :=
  SAPRAGSystem.mk (DocumentProcessor.mk 10 2)
    (SAPRAGSystem.FaissStore (FAISSVectorStore.mk 4 (Faiss.new 4) [] []))
    vector_store_type (FAISSVectorStore.mkDisk None None) [].

Definition sample_chunks : list Chunk.t :=
  match DocumentProcessor.process_directory sample_load sample_glob 9
          (DocumentProcessor.mk 10 2) "docs" with
  | Some chunks => chunks
  | None => []
  end.

Definition sample_ingestion : option (result SAPRAGSystem.IngestReturn * SAPRAGSystem.t) :=
  SAPRAGSystem.ingest_documents sample_load sample_glob sample_encode 9
    (small_faiss_system "faiss") "docs".

Definition sample_ingested : SAPRAGSystem.t :=
  match sample_ingestion with
  | Some (_, self) => self
  | None => small_faiss_system "faiss"
  end.

Definition sample_ingest_stats : DocumentProcessor.Stats :=
  match DocumentProcessor.get_document_stats sample_chunks with
  | Ok stats => stats
  | Raise _ => DocumentProcessor.mkStats 0 0 0 0
  end.

(** * Properties *)

(** ** Python built-ins *)

Lemma substring_all (s : string) : substring 0 (String.length s) s = s.
Proof. induction s as [|c s IH]; simpl; [reflexivity | now rewrite IH]. Qed.

Lemma str_len_nonneg (s : string) : 0 <= Py.str_len s.
Proof. unfold Py.str_len. lia. Qed.

Lemma str_slice_whole (s : string) (stop : Z) :
  Py.str_len s <= stop -> Py.str_slice s 0 stop = s.
Proof.
  intros Hstop. pose proof (str_len_nonneg s) as Hn.
  unfold Py.str_slice, Py.adjust.
  replace (0 <? 0) with false by reflexivity.
  destruct (stop <? 0) eqn:Hneg; [apply Z.ltb_lt in Hneg; lia |].
  rewrite (Z.min_r stop) by lia. rewrite (Z.min_l 0) by lia.
  unfold Py.str_len. rewrite Z.sub_0_r, Nat2Z.id. apply substring_all.
Qed.

Lemma enumerate_fst {A : Type} (l : list A) (start : Z) :
  map fst (Py.enumerate start l) = Py.range_from start 1 (length l).
Proof.
  revert start. induction l as [|x l IH]; intros start; simpl; [reflexivity |].
  now rewrite IH.
Qed.

Lemma enumerate_snd {A : Type} (l : list A) (start : Z) :
  map snd (Py.enumerate start l) = l.
Proof.
  revert start. induction l as [|x l IH]; intros start; simpl; [reflexivity |].
  now rewrite IH.
Qed.

Lemma range_len {A : Type} (l : list A) :
  Py.range 0 (Py.len l) 1 = Py.range_from 0 1 (length l).
Proof.
  unfold Py.range, Py.len.
  replace (Z.of_nat (length l) - 0 + 1 - 1) with (Z.of_nat (length l)) by lia.
  now rewrite Z.div_1_r, Nat2Z.id.
Qed.

(** ** The chunker *)

Section Chunker.

Import DocumentProcessor.

(** The loop is deterministic in its fuel: more fuel does not change a
    result already reached. *)
Lemma split_loop_more_fuel (self : t) (text : string) (fuel fuel' : nat) :
  forall start chunks result,
    split_loop fuel self text start chunks = Some result ->
    (fuel <= fuel')%nat ->
    split_loop fuel' self text start chunks = Some result.
Proof.
  revert fuel'. induction fuel as [|fuel IH]; intros fuel' start chunks res Hrun Hle.
  - discriminate.
  - destruct fuel' as [|fuel']; [lia |]. simpl in *.
    destruct (start <? Py.str_len text); [| exact Hrun].
    destruct (split_step self text start chunks) as [start' chunks'].
    apply IH; [exact Hrun | lia].
Qed.

(** A text that fits in one chunk: the loop body runs at most once. *)
Lemma split_text_fits (self : t) (text : string) (fuel : nat) :
  Py.str_len text <= chunk_size self ->
  (2 <= fuel)%nat ->
  _split_text fuel self text =
    Some (if String.eqb (Py.strip text) "" then [] else [Py.strip text]).
Proof.
  intros Hfit Hfuel. pose proof (str_len_nonneg text) as Hn.
  destruct fuel as [|[|fuel]]; [lia | lia |].
  unfold _split_text. cbn [split_loop].
  destruct (0 <? Py.str_len text) eqn:Hpos.
  - assert ((chunk_size self <? Py.str_len text) = false) as Hlast
      by (apply Z.ltb_ge; lia).
    unfold split_step. rewrite Z.add_0_l. rewrite !Hlast.
    rewrite str_slice_whole by lia.
    destruct (String.eqb (Py.strip text) ""); reflexivity.
  - apply Z.ltb_ge in Hpos.
    assert (String.length text = 0%nat) as Hlen by (unfold Py.str_len in *; lia).
    destruct text; [reflexivity | discriminate].
Qed.

(** From cursor 0 the iteration snaps the end to 5, just after ". ", and
    moves the cursor back by the overlap 5, to 0 again. *)
Lemma stuck_step (chunks : list string) :
  split_step (mk 10 5) stuck_text 0 chunks = (0, (chunks ++ ["abc."])%list).
Proof. reflexivity. Qed.

Lemma stuck_loop (fuel : nat) :
  forall chunks, split_loop fuel (mk 10 5) stuck_text 0 chunks = None.
Proof.
  induction fuel as [|fuel IH]; intros chunks; [reflexivity |].
  cbn [split_loop].
  replace (0 <? Py.str_len stuck_text) with true by reflexivity.
  rewrite stuck_step. apply IH.
Qed.

Lemma stamp_texts (doc_data : DocData) (chunks : list string) :
  map Chunk.text (stamp doc_data chunks) = chunks.
Proof.
  unfold stamp. rewrite map_map.
  rewrite <- (enumerate_snd chunks 0) at 2.
  apply map_ext. now intros [i chunk].
Qed.

Lemma stamp_chunk_index (doc_data : DocData) (chunks : list string) :
  map chunk_index_of (stamp doc_data chunks)
  = map (fun i => Some (VInt i)) (Py.range 0 (Py.len chunks) 1).
Proof.
  unfold stamp. rewrite map_map, range_len, <- (enumerate_fst chunks 0), map_map.
  apply map_ext. intros [i chunk]. unfold chunk_index_of. cbn.
  rewrite lookup_insert_ne by discriminate. apply lookup_insert_eq.
Qed.

Lemma stamp_total_chunks (doc_data : DocData) (chunks : list string) :
  Forall (fun c => total_chunks_of c = Some (VInt (Py.len chunks)))
         (stamp doc_data chunks).
Proof.
  unfold stamp. apply Forall_map, Forall_forall. intros [i chunk] _.
  unfold total_chunks_of. cbn. apply lookup_insert_eq.
Qed.

End Chunker.

Section ChunkerClaims.

Import DocumentProcessor.

(** Claim C4, as the specification states it: a [DocumentProcessor] built
    with [overlap >= chunk_size], or its split under such a configuration,
    fails fast with a reported error. The code has no such guard: the
    constructor returns the processor with [chunk_size = 2] and
    [chunk_overlap = 5] unchanged, and its split of ["a"] returns the chunk
    ["a"] normally. *)
Lemma overlap_not_rejected :
  5 >= 2
  /\ __init__ 2 5 = Ok (mk 2 5)
  /\ _split_text 2 (mk 2 5) "a" = Some ["a"].
Proof. repeat split; [lia]. Qed.

(** Claim C4, amended: a [DocumentProcessor] is constructed from any
    [chunk_size] and [overlap], also with [overlap >= chunk_size], without
    error and with both values stored unchanged; its split does not fail
    either: on a text no longer than [chunk_size] it returns the trimmed text
    as the only chunk, and no chunk when the text is empty or blank. *)
Theorem overlap_config_accepted (chunk_size chunk_overlap : Z) (text : string)
    (fuel : nat) :
  chunk_overlap >= chunk_size ->
  Py.str_len text <= chunk_size ->
  (2 <= fuel)%nat ->
  __init__ chunk_size chunk_overlap = Ok (mk chunk_size chunk_overlap)
  /\ _split_text fuel (mk chunk_size chunk_overlap) text =
       Some (if String.eqb (Py.strip text) "" then [] else [Py.strip text]).
Proof.
  intros _ Hfit Hfuel. split; [reflexivity |].
  now apply split_text_fits.
Qed.

Lemma overlap_config_accepted_witness :
  __init__ 7 9 = Ok (mk 7 9)
  /\ _split_text 3 (mk 7 9) " ab cd " = Some ["ab cd"].
Proof.
  apply (overlap_config_accepted 7 9 " ab cd " 3); [lia | vm_compute; discriminate | lia].
Defined.

(** Claim C5: for every text and every configuration with [chunk_size > 0]
    and [0 <= overlap < chunk_size] the split loop terminates, its cursor
    advancing on every iteration. The code does not do so: under
    [chunk_size = 10] and [overlap = 5] the text ["abc. efghijklmnop"] snaps
    the first end to 5, just after [". "], the cursor goes back to
    [5 - 5 = 0], and the loop repeats from the same cursor for ever: no
    amount of fuel yields a result. *)
Theorem split_text_diverges :
  let self := mk 10 5 in
  0 < chunk_size self
  /\ 0 <= chunk_overlap self < chunk_size self
  /\ (forall chunks, fst (split_step self stuck_text 0 chunks) = 0)
  /\ forall fuel, _split_text fuel self stuck_text = None.
Proof.
  cbv zeta. split; [cbn; lia |]. split; [cbn; lia |]. split.
  - intros chunks. now rewrite stuck_step.
  - intros fuel. apply stuck_loop.
Qed.

(** Claim C9: for a document whose split produces [N] chunks,
    [process_document] returns [N] chunks carrying the split's texts in
    order, each stamped with [total_chunks = N], and their [chunk_index]
    values are [0, 1, ..., N-1] in emission order. *)
Theorem process_document_stamps (load : string -> result DocData) (fuel : nat)
    (self : t) (file_path : string) (doc_data : DocData) (full_text : string)
    (chunks : list string) :
  load file_path = Ok doc_data ->
  _extract_full_text doc_data = Ok full_text ->
  _split_text fuel self full_text = Some chunks ->
  exists processed,
    process_document load fuel self file_path = Some (Ok processed)
    /\ map Chunk.text processed = chunks
    /\ Forall (fun c => total_chunks_of c = Some (VInt (Py.len chunks))) processed
    /\ map chunk_index_of processed
       = map (fun i => Some (VInt i)) (Py.range 0 (Py.len chunks) 1).
Proof.
  intros Hload Htext Hsplit. exists (stamp doc_data chunks).
  unfold process_document. rewrite Hload, Htext, Hsplit.
  split; [reflexivity |]. split; [apply stamp_texts |].
  split; [apply stamp_total_chunks | apply stamp_chunk_index].
Qed.

Lemma process_document_stamps_witness :
  exists processed,
    process_document (fun _ => Ok sample_doc) 9 (mk 10 2) "a.pdf" = Some (Ok processed)
    /\ map Chunk.text processed = ["AAAA."; ". BBBB."; "CCCC."]
    /\ Forall (fun c => total_chunks_of c = Some (VInt 3)) processed
    /\ map chunk_index_of processed = [Some (VInt 0); Some (VInt 1); Some (VInt 2)].
Proof.
  apply (process_document_stamps (fun _ => Ok sample_doc) 9 (mk 10 2) "a.pdf"
           sample_doc (Py.join (NL +:+ NL) ["AAAA. BBBB."; "CCCC."])
           ["AAAA."; ". BBBB."; "CCCC."]); reflexivity.
Defined.

End ChunkerClaims.

(** ** Scores and distances *)

Section Binary32.

Import Float32.

Lemma rint_bounds (q : Q) : (Qfloor q <= rint q <= Qfloor q + 1)%Z.
Proof.
  unfold rint. destruct (_ ?= _)%Q; [destruct (Z.even _) | |]; lia.
Qed.

Lemma rint_mono (x y : Q) : (x <= y)%Q -> (rint x <= rint y)%Z.
Proof.
  intros Hxy. pose proof (Qfloor_resp_le x y Hxy) as Hf.
  destruct (Z.eq_dec (Qfloor x) (Qfloor y)) as [Heq | Hne].
  - unfold rint. rewrite <- Heq.
    destruct (Qcompare_spec (x - inject_Z (Qfloor x)) (1 # 2)) as [Hx | Hx | Hx];
      destruct (Qcompare_spec (y - inject_Z (Qfloor x)) (1 # 2)) as [Hy | Hy | Hy];
      try (destruct (Z.even (Qfloor x))); try lia; exfalso; lra.
  - pose proof (rint_bounds x). pose proof (rint_bounds y). lia.
Qed.

Lemma rint_Z (q : Q) (z : Z) : (q == inject_Z z)%Q -> rint q = z.
Proof.
  intros Hq. unfold rint. rewrite (Qfloor_comp _ _ Hq), Qfloor_Z.
  destruct (Qcompare_spec (q - inject_Z z) (1 # 2)) as [H | H | H]; try lra.
  reflexivity.
Qed.

Lemma pow2_pos (e : Z) : (0 < 2 ^ e)%Q.
Proof. apply Qpower_0_lt. reflexivity. Qed.

Lemma pow2_add (a b : Z) : (2 ^ (a + b) == 2 ^ a * 2 ^ b)%Q.
Proof. apply Qpower_plus. discriminate. Qed.

Lemma pow2_inject (a : Z) : 0 <= a -> (inject_Z (2 ^ a) == 2 ^ a)%Q.
Proof. intros Ha. now rewrite Zpower_Qpower. Qed.

Lemma pow2_le (a b : Z) : a <= b -> (2 ^ a <= 2 ^ b)%Q.
Proof. intros H. apply Qpower_le_compat_l; [exact H | discriminate]. Qed.

Lemma pow2_lt_inv (a b : Z) : (2 ^ a < 2 ^ b)%Q -> a < b.
Proof. intros H. apply (Qpower_lt_compat_l_inv 2); [exact H | reflexivity]. Qed.

Lemma log2_bounds (q : Q) :
  (0 < q)%Q ->
  let k := Z.log2 (Qnum q) - Z.log2 (Zpos (Qden q)) in
  (2 ^ (k - 1) < q)%Q /\ (q < 2 ^ (k + 1))%Q.
Proof.
  intros Hq. destruct q as [n d]. cbn [Qnum Qden].
  assert (0 < n) as Hn by (unfold Qlt in Hq; cbn in Hq; lia).
  set (a := Z.log2 n). set (b := Z.log2 (Zpos d)).
  pose proof (Z.log2_nonneg n) as Ha0. pose proof (Z.log2_nonneg (Zpos d)) as Hb0.
  fold a in Ha0. fold b in Hb0.
  destruct (Z.log2_spec n Hn) as [Hal Hau]. fold a in Hal, Hau.
  destruct (Z.log2_spec (Zpos d) ltac:(lia)) as [Hbl Hbu]. fold b in Hbl, Hbu.
  rewrite <- Z.add_1_r in Hau, Hbu.
  rewrite Zle_Qle in Hal, Hbl. rewrite Zlt_Qlt in Hau, Hbu.
  rewrite pow2_inject in Hal, Hbl, Hau, Hbu by lia.
  rewrite (Qmake_Qdiv n d).
  assert (0 < inject_Z (Zpos d))%Q as Hd by reflexivity.
  pose proof (pow2_pos (a - b - 1)) as Hp1. pose proof (pow2_pos (a - b + 1)) as Hp2.
  split.
  - apply Qlt_shift_div_l; [exact Hd |].
    apply Qlt_le_trans with (2 ^ (a - b - 1) * 2 ^ (b + 1))%Q.
    + apply Qmult_lt_l; assumption.
    + rewrite <- pow2_add. now replace (a - b - 1 + (b + 1)) with a by lia.
  - apply Qlt_shift_div_r; [exact Hd |].
    apply Qlt_le_trans with (2 ^ (a - b + 1) * 2 ^ b)%Q.
    + rewrite <- pow2_add. now replace (a - b + 1 + b) with (a + 1) by lia.
    + apply Qmult_le_l; assumption.
Qed.

Lemma ilog2_spec (q : Q) :
  (0 < q)%Q -> (2 ^ ilog2 q <= q)%Q /\ (q < 2 ^ (ilog2 q + 1))%Q.
Proof.
  intros Hq. destruct (log2_bounds q Hq) as [Hl Hu]. unfold ilog2.
  set (k := Z.log2 (Qnum q) - Z.log2 (Zpos (Qden q))) in *.
  destruct (Qle_bool (2 ^ k) q) eqn:Hle.
  - apply Qle_bool_iff in Hle. now split.
  - split; [now apply Qlt_le_weak |].
    replace (k - 1 + 1) with k by lia.
    apply Qnot_le_lt. intros H. apply Qle_bool_iff in H. congruence.
Qed.

Lemma ilog2_mono (x y : Q) : (0 < x)%Q -> (x <= y)%Q -> ilog2 x <= ilog2 y.
Proof.
  intros Hx Hxy. destruct (ilog2_spec x Hx) as [Hlx _].
  destruct (ilog2_spec y ltac:(lra)) as [_ Huy].
  assert (ilog2 x < ilog2 y + 1); [| lia].
  apply pow2_lt_inv. lra.
Qed.

Lemma cexp_mono (x y : Q) : (0 < x)%Q -> (x <= y)%Q -> cexp x <= cexp y.
Proof. intros Hx Hxy. pose proof (ilog2_mono x y Hx Hxy). unfold cexp. lia. Qed.

Lemma round_pos_mono (x y : Q) :
  (0 < x)%Q -> (x <= y)%Q -> (round_pos x <= round_pos y)%Q.
Proof.
  intros Hx Hxy. assert (0 < y)%Q as Hy by lra.
  pose proof (cexp_mono x y Hx Hxy) as Hc. unfold round_pos.
  destruct (Z.eq_dec (cexp x) (cexp y)) as [Heq | Hne].
  - rewrite Heq. pose proof (pow2_pos (cexp y)) as Hp.
    apply Qmult_le_compat_r; [| lra].
    rewrite <- Zle_Qle. apply rint_mono.
    apply Qmult_le_compat_r; [exact Hxy |]. apply Qlt_le_weak, Qinv_lt_0_compat, Hp.
  - set (L := ilog2 y).
    assert (cexp y = L - 23 /\ cexp x < L - 23 /\ ilog2 x + 1 <= L) as (Hcy & Hcx & HL)
      by (unfold cexp in *; subst L; lia).
    destruct (ilog2_spec x Hx) as [_ Hux]. destruct (ilog2_spec y Hy) as [Hly _].
    fold L in Hly. pose proof (pow2_le _ _ HL) as Hpl.
    pose proof (pow2_pos (cexp x)) as Hpx. pose proof (pow2_pos (cexp y)) as Hpy.
    apply Qle_trans with (2 ^ L)%Q.
    + assert (2 ^ L == inject_Z (2 ^ (L - cexp x)) * 2 ^ cexp x)%Q as ->.
      { rewrite pow2_inject by lia. rewrite <- pow2_add.
        now replace (L - cexp x + cexp x) with L by lia. }
      apply Qmult_le_compat_r; [| lra].
      rewrite <- Zle_Qle.
      rewrite <- (rint_Z (inject_Z (2 ^ (L - cexp x))) _ (Qeq_refl _)).
      apply rint_mono. apply Qle_shift_div_r; [exact Hpx |].
      rewrite pow2_inject by lia. rewrite <- pow2_add.
      replace (L - cexp x + cexp x) with L by lia. lra.
    + assert (2 ^ L == inject_Z (2 ^ 23) * 2 ^ cexp y)%Q as ->.
      { rewrite pow2_inject by lia. rewrite <- pow2_add.
        now replace (23 + cexp y) with L by lia. }
      apply Qmult_le_compat_r; [| lra].
      rewrite <- Zle_Qle.
      rewrite <- (rint_Z (inject_Z (2 ^ 23)) _ (Qeq_refl _)).
      apply rint_mono. apply Qle_shift_div_l; [exact Hpy |].
      rewrite pow2_inject by lia. rewrite <- pow2_add.
      replace (23 + cexp y) with L by lia. exact Hly.
Qed.

Lemma rint_nonneg (q : Q) : (0 <= q)%Q -> 0 <= rint q.
Proof.
  intros Hq. pose proof (rint_bounds q). pose proof (Qfloor_resp_le 0 q Hq) as Hf.
  change (Qfloor 0) with 0 in Hf. lia.
Qed.

Lemma round_pos_nonneg (q : Q) : (0 < q)%Q -> (0 <= round_pos q)%Q.
Proof.
  intros Hq. unfold round_pos. pose proof (pow2_pos (cexp q)) as Hp.
  apply Qmult_le_0_compat; [| lra].
  change 0%Q with (inject_Z 0). rewrite <- Zle_Qle. apply rint_nonneg.
  apply Qle_shift_div_l; [exact Hp | lra].
Qed.

Lemma Qnum_sign (q : Q) :
  match Qnum q with
  | Z0 => (q == 0)%Q
  | Zpos _ => (0 < q)%Q
  | Zneg _ => (q < 0)%Q
  end.
Proof. destruct q as [[|p|p] d]; unfold Qeq, Qlt; cbn; lia. Qed.

Lemma round_mono (x y : Q) : (x <= y)%Q -> (round x <= round y)%Q.
Proof.
  intros Hxy. unfold round. rewrite !Qred_correct.
  pose proof (Qnum_sign x) as Hx. pose proof (Qnum_sign y) as Hy.
  destruct (Qnum x), (Qnum y); try lra.
  - now apply round_pos_nonneg.
  - now apply round_pos_mono.
  - pose proof (round_pos_nonneg (- x)). lra.
  - pose proof (round_pos_nonneg (- x)). pose proof (round_pos_nonneg y). lra.
  - pose proof (round_pos_mono (- y) (- x)). lra.
Qed.


Lemma round_1 : round 1 = 1%Q.
Proof. vm_compute. reflexivity. Qed.



Lemma add_one_ge (d : Q) : (0 <= d)%Q -> (1 <= add 1 d)%Q.
Proof.
  intros Hd. unfold add. apply Qle_trans with (round 1).
  - rewrite round_1. apply Qle_refl.
  - apply round_mono. lra.
Qed.

(** The score of the FAISS store does not grow with the distance. *)
Lemma score_antitone (d1 d2 : Q) :
  (0 <= d1)%Q -> (d1 <= d2)%Q -> (div 1 (add 1 d2) <= div 1 (add 1 d1))%Q.
Proof.
  intros H1 H12. unfold div.
  pose proof (add_one_ge d1 H1) as Ha1. pose proof (add_one_ge d2 ltac:(lra)) as Ha2.
  assert (add 1 d1 <= add 1 d2)%Q as Hle by (apply round_mono; lra).
  apply round_mono. unfold Qdiv. rewrite !Qmult_1_l.
  apply Qle_shift_inv_l; [lra |].
  rewrite Qmult_comm. apply Qle_shift_div_r; [lra |]. lra.
Qed.





End Binary32.

Lemma square_nonneg (x : Q) : (0 <= x * x)%Q.
Proof. nra. Qed.

Lemma fvec_L2sqr_nonneg (x y : list Q) : (0 <= Faiss.fvec_L2sqr x y)%Q.
Proof.
  unfold Faiss.fvec_L2sqr. revert y.
  induction x as [|a x IH]; intros [|b y]; cbn; try apply Qle_refl.
  pose proof (IH y) as Hrest. pose proof (square_nonneg (a - b)) as Hsq. lra.
Qed.



Lemma FLT_MAX_pos : (0 < Faiss.FLT_MAX)%Q.
Proof. reflexivity. Qed.

(** ** Ranking by distance *)

Lemma StronglySorted_sublist {A : Type} (R : A -> A -> Prop) (l k : list A) :
  sublist l k -> StronglySorted R k -> StronglySorted R l.
Proof.
  induction 1 as [|x l k Hsub IH|x l k Hsub IH]; intros Hk.
  - constructor.
  - inversion Hk as [|? ? Hk' Hall]; subst. constructor; [now apply IH |].
    apply Forall_forall. intros y Hy.
    rewrite Forall_forall in Hall. apply Hall.
    now apply (elem_of_sublist l k).
  - inversion Hk; subst. now apply IH.
Qed.

Lemma StronglySorted_lookup {A : Type} (R : A -> A -> Prop) (l : list A) :
  StronglySorted R l ->
  forall (i j : nat) (a b : A),
    (i < j)%nat -> l !! i = Some a -> l !! j = Some b -> R a b.
Proof.
  induction 1 as [|x l _ IH Hall]; intros i j a b Hij Hi Hj.
  - discriminate.
  - destruct j as [|j]; [lia |]. cbn in Hj. destruct i as [|i].
    + cbn in Hi. injection Hi as <-.
      rewrite Forall_forall in Hall. apply Hall.
      eapply list_elem_of_lookup_2; eauto.
    + cbn in Hi. apply (IH i j); [lia | assumption | assumption].
Qed.

Lemma insert_hit_elem_of (h x : Q * Z) (l : list (Q * Z)) :
  x ∈ Faiss.insert_hit h l <-> x = h \/ x ∈ l.
Proof.
  induction l as [|h' l IH]; cbn.
  - rewrite list_elem_of_singleton. rewrite elem_of_nil. tauto.
  - destruct (Qle_bool (fst h) (fst h')).
    + rewrite elem_of_cons. tauto.
    + rewrite !elem_of_cons, IH. tauto.
Qed.

Lemma insert_hit_sorted (h : Q * Z) (l : list (Q * Z)) :
  StronglySorted by_distance l -> StronglySorted by_distance (Faiss.insert_hit h l).
Proof.
  induction 1 as [|h' l Hl IH Hall]; cbn.
  - repeat constructor.
  - destruct (Qle_bool (fst h) (fst h')) eqn:Hle.
    + apply Qle_bool_iff in Hle. constructor; [now constructor |].
      constructor; [exact Hle |].
      eapply Forall_impl; [exact Hall |].
      intros y Hy. unfold by_distance in *. lra.
    + assert (fst h' <= fst h)%Q as Hge.
      { destruct (Qlt_le_dec (fst h) (fst h')) as [Hlt | Hge]; [| exact Hge].
        apply Qlt_le_weak, Qle_bool_iff in Hlt. congruence. }
      constructor; [exact IH |].
      apply Forall_forall. intros y Hy. apply (proj1 (insert_hit_elem_of _ _ _)) in Hy.
      destruct Hy as [-> | Hy]; [exact Hge |].
      rewrite Forall_forall in Hall. now apply Hall.
Qed.

Lemma sort_hits_sorted (l : list (Q * Z)) :
  StronglySorted by_distance (Faiss.sort_hits l).
Proof.
  induction l as [|h l IH]; cbn; [constructor | now apply insert_hit_sorted].
Qed.

Lemma sort_hits_elem_of (x : Q * Z) (l : list (Q * Z)) :
  x ∈ Faiss.sort_hits l <-> x ∈ l.
Proof.
  induction l as [|h l IH]; cbn; [reflexivity |].
  rewrite insert_hit_elem_of, elem_of_cons, IH. tauto.
Qed.

Lemma insert_hit_length (h : Q * Z) (l : list (Q * Z)) :
  length (Faiss.insert_hit h l) = S (length l).
Proof.
  induction l as [|h' l IH]; cbn; [reflexivity |].
  destruct (Qle_bool (fst h) (fst h')); cbn; [reflexivity | now rewrite IH].
Qed.

Lemma sort_hits_length (l : list (Q * Z)) :
  length (Faiss.sort_hits l) = length l.
Proof.
  induction l as [|h l IH]; cbn; [reflexivity |].
  fold (Faiss.sort_hits l). now rewrite insert_hit_length, IH.
Qed.

(** The rows [search_row] keeps before the padding. *)
Lemma search_row_found (index : Faiss.IndexFlatL2) (k : Z) (q : list Q) :
  exists found,
    Faiss.search_row index k q
      = (found ++ replicate (Z.to_nat k - length found) (Faiss.FLT_MAX, -1))%list
    /\ (length found <= Z.to_nat k)%nat
    /\ StronglySorted by_distance found
    /\ forall h, h ∈ found ->
         (fst h < Faiss.FLT_MAX)%Q /\ h ∈ Faiss.hits index q.
Proof.
  unfold Faiss.search_row.
  set (qualified := filter _ (Faiss.hits index q)).
  exists (take (Z.to_nat k) (Faiss.sort_hits qualified)).
  split; [reflexivity |]. split; [rewrite length_take; lia |]. split.
  - eapply StronglySorted_sublist; [apply sublist_take | apply sort_hits_sorted].
  - intros h Hh.
    assert (h ∈ Faiss.sort_hits qualified) as Hh'
      by (eapply elem_of_sublist; [exact Hh | apply sublist_take]).
    apply (proj1 (sort_hits_elem_of _ _)) in Hh'. subst qualified.
    apply (proj1 (list_elem_of_filter _ _ _)) in Hh'. destruct Hh' as [Hlt Hin].
    split; [| exact Hin].
    unfold Faiss.Qltb in Hlt. apply Is_true_true in Hlt.
    apply negb_true_iff in Hlt.
    destruct (Qlt_le_dec (fst h) Faiss.FLT_MAX) as [Hok | Hbad]; [exact Hok |].
    apply Qle_bool_iff in Hbad. congruence.
Qed.

Lemma search_row_length (index : Faiss.IndexFlatL2) (k : Z) (q : list Q) :
  length (Faiss.search_row index k q) = Z.to_nat k.
Proof.
  destruct (search_row_found index k q) as (found & -> & Hlen & _).
  rewrite length_app, length_replicate. lia.
Qed.

Lemma hits_elem_of (index : Faiss.IndexFlatL2) (q : list Q) (h : Q * Z) :
  h ∈ Faiss.hits index q <->
  exists (i : nat) (v : list Q),
    Faiss.xb index !! i = Some v /\ h = (Faiss.fvec_L2sqr q v, Z.of_nat i).
Proof.
  unfold Faiss.hits.
  assert (forall (l : list (list Q)) (start : Z),
    h ∈ map (fun '(i, v) => (Faiss.fvec_L2sqr q v, i)) (Py.enumerate start l) <->
    exists (i : nat) (v : list Q),
      l !! i = Some v /\ h = (Faiss.fvec_L2sqr q v, start + Z.of_nat i)) as Hgen.
  { induction l as [|v l IH]; intros start; cbn.
    - rewrite elem_of_nil. split; [tauto |]. now intros (i & v & Hi & _).
    - rewrite elem_of_cons, IH. split.
      + intros [-> | (i & w & Hi & ->)].
        * exists 0%nat, v. split; [reflexivity | f_equal; lia].
        * exists (S i), w. split; [exact Hi | f_equal; lia].
      + intros ([|i] & w & Hi & ->); cbn in Hi.
        * left. injection Hi as <-. f_equal. lia.
        * right. exists i, w. split; [exact Hi | f_equal; lia]. }
  rewrite Hgen. split; intros (i & v & Hi & ->); exists i, v; split; auto.
Qed.

Lemma search_row_sorted (index : Faiss.IndexFlatL2) (k : Z) (q : list Q) :
  StronglySorted by_distance (Faiss.search_row index k q).
Proof.
  destruct (search_row_found index k q) as (found & -> & _ & Hsorted & Hfound).
  apply StronglySorted_app_2; [| exact Hsorted |].
  - intros h p Hh Hp. apply elem_of_replicate_inv in Hp as ->.
    apply Hfound in Hh as [Hlt _]. unfold by_distance. cbn. lra.
  - generalize (Z.to_nat k - length found)%nat. intros n.
    induction n as [|n IH]; cbn; constructor; [exact IH |].
    apply Forall_forall. intros p Hp. apply elem_of_replicate_inv in Hp as ->.
    unfold by_distance. apply Qle_refl.
Qed.

Lemma search_row_nonneg (index : Faiss.IndexFlatL2) (k : Z) (q : list Q) (h : Q * Z) :
  h ∈ Faiss.search_row index k q -> (0 <= fst h)%Q.
Proof.
  destruct (search_row_found index k q) as (found & -> & _ & _ & Hfound).
  rewrite elem_of_app. intros [Hh | Hh].
  - apply Hfound in Hh as [_ Hin]. apply (proj1 (hits_elem_of _ _ _)) in Hin as (i & v & _ & ->).
    apply fvec_L2sqr_nonneg.
  - apply elem_of_replicate_inv in Hh as ->. cbn.
    apply Qlt_le_weak, FLT_MAX_pos.
Qed.


(** A label returned by [search_row] is a row number or the padding [-1]. *)
Lemma search_row_label (index : Faiss.IndexFlatL2) (k : Z) (q : list Q) (h : Q * Z) :
  h ∈ Faiss.search_row index k q ->
  -1 <= snd h < Faiss.ntotal index.
Proof.
  destruct (search_row_found index k q) as (found & -> & _ & _ & Hfound).
  rewrite elem_of_app. intros [Hh | Hh].
  - apply Hfound in Hh as [_ Hin]. apply (proj1 (hits_elem_of _ _ _)) in Hin as (i & v & Hi & ->).
    apply lookup_lt_Some in Hi. unfold Faiss.ntotal, Py.len. cbn. lia.
  - apply elem_of_replicate_inv in Hh as ->. cbn.
    unfold Faiss.ntotal, Py.len. lia.
Qed.

(** ** The FAISS store *)

Section FaissStore.

Import FAISSVectorStore.

Lemma getitem_nonneg {A : Type} (l : list A) (i : nat) (x : A) :
  Py.getitem l (Z.of_nat i) = Ok x <-> l !! i = Some x.
Proof.
  unfold Py.getitem, Py.len.
  assert ((Z.of_nat i <? 0) = false) as -> by (apply Z.ltb_ge; lia).
  assert ((0 <=? Z.of_nat i) = true) as -> by (apply Z.leb_le; lia).
  rewrite Nat2Z.id. cbn [andb].
  destruct (Z.of_nat i <? Z.of_nat (length l)) eqn:Hlt.
  - destruct (l !! i); split; intros H; try discriminate; congruence.
  - apply Z.ltb_ge in Hlt. rewrite lookup_ge_None_2 by lia.
    split; discriminate.
Qed.

Lemma getitem_head {A : Type} (x : A) (l : list A) : Py.getitem (x :: l) 0 = Ok x.
Proof.
  unfold Py.getitem, Py.len. cbn [length].
  replace (0 <? 0) with false by reflexivity.
  replace (0 <=? 0) with true by reflexivity.
  assert ((0 <? Z.of_nat (S (length l))) = true) as -> by (apply Z.ltb_lt; lia).
  reflexivity.
Qed.

Lemma zip_map_fst_snd {A B : Type} (l : list (A * B)) :
  zip (map fst l) (map snd l) = l.
Proof. induction l as [|[a b] l IH]; cbn; [reflexivity | now rewrite IH]. Qed.

Lemma format_results_inv (self : t) (found : list (Q * Z)) :
  forall acc rs,
    format_results self found acc = Ok rs ->
    exists kept hs,
      rs = (acc ++ kept)%list /\ sublist hs found /\ Forall2 (describes self) kept hs.
Proof.
  induction found as [|[distance idx] found IH]; intros acc rs Hrun; cbn in Hrun.
  - injection Hrun as <-. exists [], []. rewrite app_nil_r.
    repeat split; constructor.
  - destruct (idx <? Py.len (documents self)) eqn:Hguard.
    + destruct (Py.getitem (documents self) idx) as [text|] eqn:Htext; [| discriminate].
      destruct (Py.getitem (metadatas self) idx) as [metadata|] eqn:Hmeta; [| discriminate].
      cbn in Hrun. apply IH in Hrun as (kept & hs & -> & Hsub & Hall).
      eexists (_ :: kept), ((distance, idx) :: hs).
      rewrite <- app_assoc. split; [reflexivity |].
      split; [now apply sublist_skip |].
      constructor; [| exact Hall].
      apply Z.ltb_lt in Hguard. repeat split; assumption.
    + apply IH in Hrun as (kept & hs & -> & Hsub & Hall).
      exists kept, hs. repeat split; [now apply sublist_cons | exact Hall].
Qed.

(** What [query] runs on an index that is not empty. *)
Lemma query_unfold (self : t) (query_embedding : ndarray) (top_k : Z) :
  Faiss.ntotal (index self) <> 0 ->
  query self query_embedding top_k =
    match Np.reshape_row query_embedding with
    | Array2 ncols _ =>
        if negb (ncols =? Faiss.d (index self)) then Raise AssertionError
        else if negb (0 <? top_k) then Raise AssertionError
        else format_results self
               (Faiss.search_row (index self) top_k (flat query_embedding)) []
    | Array1 _ => Raise ValueError
    end.
Proof.
  intros Hne. unfold query. apply Z.eqb_neq in Hne. rewrite Hne.
  assert (exists ncols, Np.reshape_row query_embedding
                        = Array2 ncols [flat query_embedding]) as [ncols ->]
    by (destruct query_embedding; eexists; reflexivity).
  unfold Faiss.search.
  destruct (negb (ncols =? Faiss.d (index self))); [reflexivity |].
  destruct (negb (0 <? top_k)); [reflexivity |].
  cbn. rewrite !getitem_head. cbn. now rewrite zip_map_fst_snd.
Qed.

Lemma query_inv (self : t) (query_embedding : ndarray) (top_k : Z)
    (rs : list QueryResult) :
  query self query_embedding top_k = Ok rs ->
  (Faiss.ntotal (index self) = 0 /\ rs = [])
  \/ (Faiss.ntotal (index self) <> 0 /\ 0 < top_k
      /\ format_results self
           (Faiss.search_row (index self) top_k (flat query_embedding)) [] = Ok rs).
Proof.
  intros Hq. destruct (Z.eq_dec (Faiss.ntotal (index self)) 0) as [Hz | Hne].
  - left. split; [exact Hz |]. unfold query in Hq.
    apply Z.eqb_eq in Hz. rewrite Hz in Hq. now injection Hq.
  - right. split; [exact Hne |]. rewrite query_unfold in Hq by exact Hne.
    destruct (Np.reshape_row query_embedding) as [|ncols rows]; [discriminate |].
    destruct (negb (ncols =? Faiss.d (index self))); [discriminate |].
    destruct (0 <? top_k) eqn:Hk; [| discriminate].
    apply Z.ltb_lt in Hk. split; assumption.
Qed.

(** Every result of [query] is built from a hit of the search, and the
    results follow the order of the hits. *)
Lemma query_results (self : t) (query_embedding : ndarray) (top_k : Z)
    (rs : list QueryResult) :
  query self query_embedding top_k = Ok rs ->
  exists hs,
    sublist hs (Faiss.search_row (index self) top_k (flat query_embedding))
    /\ Forall2 (describes self) rs hs.
Proof.
  intros Hq. apply query_inv in Hq as [[_ ->] | (_ & _ & Hrun)].
  - exists []. split; [apply sublist_nil_l | constructor].
  - apply format_results_inv in Hrun as (kept & hs & -> & Hsub & Hall).
    exists hs. split; assumption.
Qed.

End FaissStore.

Section FaissRanking.

Import FAISSVectorStore.

Lemma hits_labels_increasing (index : Faiss.IndexFlatL2) (q : list Q) :
  StronglySorted (fun a b : Q * Z => snd a < snd b) (Faiss.hits index q).
Proof.
  unfold Faiss.hits. generalize 0 as start. generalize (Faiss.xb index) as l.
  induction l as [|v l IH]; intros start; cbn; constructor; [apply IH |].
  apply Forall_forall. intros h Hh.
  assert (forall (l' : list (list Q)) s,
    h ∈ map (fun '(i, v) => (Faiss.fvec_L2sqr q v, i)) (Py.enumerate s l') ->
    s <= snd h) as Hlow.
  { induction l' as [|w l' IH']; intros s Hin; cbn in Hin.
    - now apply elem_of_nil in Hin.
    - apply elem_of_cons in Hin as [-> | Hin]; [cbn; lia |].
      apply IH' in Hin. lia. }
  apply Hlow in Hh. cbn. lia.
Qed.




End FaissRanking.

Section FaissPadding.

Import FAISSVectorStore.

Lemma getitem_in_range {A : Type} (l : list A) (i : Z) :
  - Py.len l <= i < Py.len l -> exists x, Py.getitem l i = Ok x.
Proof.
  intros Hi. unfold Py.getitem, Py.len in *.
  set (j := if i <? 0 then i + Z.of_nat (length l) else i).
  assert (0 <= j < Z.of_nat (length l)) as Hj
    by (subst j; destruct (i <? 0) eqn:Hneg;
        [apply Z.ltb_lt in Hneg | apply Z.ltb_ge in Hneg]; lia).
  assert ((0 <=? j) && (j <? Z.of_nat (length l)) = true) as ->
    by (apply andb_true_iff; split; [apply Z.leb_le | apply Z.ltb_lt]; lia).
  destruct (l !! Z.to_nat j) as [x|] eqn:Hx; [now exists x |].
  apply lookup_ge_None_1 in Hx. lia.
Qed.

(** When every hit passes the guard and indexes both side tables, the loop
    keeps every hit. *)
Lemma format_results_all (self : t) (found : list (Q * Z)) :
  Py.len (metadatas self) = Py.len (documents self) ->
  0 < Py.len (documents self) ->
  (forall h, h ∈ found -> -1 <= snd h < Py.len (documents self)) ->
  forall acc, exists kept,
    format_results self found acc = Ok (acc ++ kept)%list
    /\ Forall2 (describes self) kept found.
Proof.
  intros Hpar Hpos. induction found as [|[distance idx] found IH]; intros Hall acc.
  - exists []. rewrite app_nil_r. split; [reflexivity | constructor].
  - assert (-1 <= idx < Py.len (documents self)) as Hidx
      by (apply (Hall (distance, idx)); apply elem_of_cons; now left).
    destruct (getitem_in_range (documents self) idx) as [text Htext]; [lia |].
    destruct (getitem_in_range (metadatas self) idx) as [metadata Hmeta]; [lia |].
    cbn. assert ((idx <? Py.len (documents self)) = true) as ->
      by (apply Z.ltb_lt; lia).
    rewrite Htext, Hmeta. cbn.
    destruct (IH (fun h Hh => Hall h (proj2 (elem_of_cons _ _ _) (or_intror Hh)))
                 (acc ++ [mkResult ("doc_" +:+ Py.str idx) text metadata distance
                            (Float32.div 1 (Float32.add 1 distance))])%list)
      as (kept & Hrun & Hkept).
    eexists (_ :: kept). rewrite Hrun, <- app_assoc. split; [reflexivity |].
    constructor; [| exact Hkept].
    unfold describes. cbn. repeat split; try assumption; lia.
Qed.

Lemma enumerate_length {A : Type} (l : list A) (start : Z) :
  length (Py.enumerate start l) = length l.
Proof.
  revert start. induction l as [|x l IH]; intros start; cbn; [reflexivity |].
  now rewrite IH.
Qed.

(** Past the stored rows, [search_row] holds the padding. *)
Lemma search_row_padding (index : Faiss.IndexFlatL2) (k : Z) (q : list Q) (p : nat) :
  (length (Faiss.xb index) <= p < Z.to_nat k)%nat ->
  Faiss.search_row index k q !! p = Some (Faiss.FLT_MAX, -1).
Proof.
  intros Hp. unfold Faiss.search_row.
  set (qualified := filter _ (Faiss.hits index q)).
  assert (length (take (Z.to_nat k) (Faiss.sort_hits qualified))
          <= length (Faiss.xb index))%nat as Hlen.
  { rewrite length_take, sort_hits_length. subst qualified.
    pose proof (length_filter (fun h => Is_true (Faiss.Qltb (fst h) Faiss.FLT_MAX))
                  (Faiss.hits index q)) as Hf.
    unfold Faiss.hits in Hf at 2. rewrite length_map, enumerate_length in Hf. lia. }
  rewrite lookup_app_r by lia. apply lookup_replicate_2. lia.
Qed.

(** On a consistent store that is not empty, a query with a positive [k]
    and an embedding of the index dimension returns one result per hit of
    the search, padding included. *)
Lemma query_returns_every_hit (self : t) (query_embedding : ndarray) (top_k : Z) :
  consistent self ->
  Faiss.ntotal (index self) <> 0 ->
  0 < top_k ->
  Np.size query_embedding = Faiss.d (index self) ->
  exists rs,
    query self query_embedding top_k = Ok rs
    /\ Forall2 (describes self) rs
         (Faiss.search_row (index self) top_k (flat query_embedding)).
Proof.
  intros (Hdocs & Hmetas & _) Hne Hk Hdim.
  rewrite query_unfold by exact Hne.
  assert (exists rows, Np.reshape_row query_embedding
                       = Array2 (Np.size query_embedding) rows) as [rows ->]
    by (destruct query_embedding; eexists; reflexivity).
  apply Z.eqb_eq in Hdim. rewrite Hdim. apply Z.ltb_lt in Hk. rewrite Hk. cbn.
  assert (0 < Py.len (documents self)) as Hpos
    by (unfold Faiss.ntotal, Py.len in *; lia).
  destruct (format_results_all self
              (Faiss.search_row (index self) top_k (flat query_embedding))
              ltac:(lia) Hpos) with (acc := @nil QueryResult) as (kept & Hrun & Hall).
  - intros h Hh. apply search_row_label in Hh. lia.
  - exists kept. split; assumption.
Qed.

End FaissPadding.

(** ** Claims on the FAISS store *)

Section FaissClaims.

Import FAISSVectorStore.

Lemma map_lookup {A B : Type} (f : A -> B) (l : list A) (i : nat) :
  map f l !! i = f <$> l !! i.
Proof.
  revert i. induction l as [|x l IH]; intros [|i]; cbn; try reflexivity. apply IH.
Qed.

Lemma sample_store_consistent : consistent sample_store.
Proof.
  repeat split. cbn. repeat constructor.
Qed.

(** [query] reads the index and the two side tables only. *)
Lemma format_results_ext (self self' : t) :
  documents self' = documents self ->
  metadatas self' = metadatas self ->
  forall found acc, format_results self' found acc = format_results self found acc.
Proof.
  intros Hdocs Hmetas. induction found as [|[distance idx] found IH]; intros acc.
  - reflexivity.
  - cbn. rewrite Hdocs, Hmetas.
    destruct (idx <? Py.len (documents self)); [| apply IH].
    destruct (Py.getitem (documents self) idx); [| reflexivity].
    destruct (Py.getitem (metadatas self) idx); [| reflexivity].
    cbn. apply IH.
Qed.

Lemma query_ext (self self' : t) (query_embedding : ndarray) (top_k : Z) :
  index self' = index self ->
  documents self' = documents self ->
  metadatas self' = metadatas self ->
  query self' query_embedding top_k = query self query_embedding top_k.
Proof.
  intros Hindex Hdocs Hmetas. unfold query. rewrite Hindex.
  destruct (Faiss.ntotal (index self) =? 0); [reflexivity |].
  destruct (Faiss.search (index self) (Np.reshape_row query_embedding) top_k)
    as [found|]; [| reflexivity].
  cbn. destruct (Py.getitem (fst found) 0); [| reflexivity].
  cbn. destruct (Py.getitem (snd found) 0); [| reflexivity].
  cbn. now apply format_results_ext.
Qed.

(** Claim C3: saving a FAISS store and loading the saved files into a fresh
    instance over the same persist directory gives a store that holds the
    same index rows, texts and metadatas and answers every query, for every
    query vector and every [k], exactly as the store that was saved (ids,
    texts, metadatas, distances and scores). *)
Theorem save_load_round_trip (self : t) (disk : Disk) (embedding_dim : Z)
    (query_embedding : ndarray) (top_k : Z) :
  fst (save_index self disk) = Ok ()
  /\ exists self',
       __init__ embedding_dim (snd (save_index self disk)) = Ok self'
       /\ index self' = index self
       /\ documents self' = documents self
       /\ metadatas self' = metadatas self
       /\ query self' query_embedding top_k = query self query_embedding top_k.
Proof.
  split; [reflexivity |].
  exists (mk embedding_dim (index self) (documents self) (metadatas self)).
  split; [reflexivity |]. split; [reflexivity |].
  split; [reflexivity |]. split; [reflexivity |].
  now apply query_ext.
Qed.




(** Claim C10: a FAISS query with [k >= 1] returns at most
    [min(k, record_count)] results, each referring to a stored row. The code
    does not do so when [k] exceeds the number of rows: the search pads its
    answer with the label [-1], the guard [idx < len(self.documents)] lets
    [-1] through, and [self.documents[-1]] is the last text. On a consistent
    store that is not empty the query returns exactly [k] results, and each
    one past the stored rows has the id ["doc_-1"], the distance [FLT_MAX]
    and the text and metadata of the last row. *)
Theorem query_pads_beyond_index (self : t) (query_embedding : ndarray) (top_k : Z) :
  consistent self ->
  Faiss.ntotal (index self) <> 0 ->
  Faiss.ntotal (index self) < top_k ->
  Np.size query_embedding = Faiss.d (index self) ->
  exists rs,
    query self query_embedding top_k = Ok rs
    /\ Py.len rs = top_k
    /\ Z.min top_k (Faiss.ntotal (index self)) < Py.len rs
    /\ forall p : nat,
         Faiss.ntotal (index self) <= Z.of_nat p < top_k ->
         exists r,
           rs !! p = Some r
           /\ id r = "doc_-1"
           /\ distance r = Faiss.FLT_MAX
           /\ Py.getitem (documents self) (-1) = Ok (text r)
           /\ Py.getitem (metadatas self) (-1) = Ok (metadata r).
Proof.
  intros Hcons Hne Hk Hdim.
  assert (0 <= Faiss.ntotal (index self)) as Hn by (unfold Faiss.ntotal, Py.len; lia).
  destruct (query_returns_every_hit self query_embedding top_k Hcons Hne ltac:(lia) Hdim)
    as (rs & Hq & Hall).
  exists rs. split; [exact Hq |].
  assert (Py.len rs = top_k) as Hlen.
  { unfold Py.len. rewrite (Forall2_length _ _ _ Hall), search_row_length. lia. }
  split; [exact Hlen |]. split; [lia |].
  intros p Hp.
  pose proof (search_row_padding (index self) top_k (flat query_embedding) p) as Hpad.
  unfold Faiss.ntotal, Py.len in Hp.
  destruct (Forall2_lookup_r _ _ _ _ _ Hall (Hpad ltac:(lia)))
    as (r & Hr & Hid & Htext & Hmeta & Hd & _).
  exists r. repeat split; assumption.
Qed.

Lemma query_pads_beyond_index_witness :
  exists rs,
    query sample_store (Array1 e1) 4 = Ok rs
    /\ Py.len rs = 4
    /\ Z.min 4 (Faiss.ntotal (index sample_store)) < Py.len rs
    /\ forall p : nat,
         Faiss.ntotal (index sample_store) <= Z.of_nat p < 4 ->
         exists r,
           rs !! p = Some r
           /\ id r = "doc_-1"
           /\ distance r = Faiss.FLT_MAX
           /\ Py.getitem (documents sample_store) (-1) = Ok (text r)
           /\ Py.getitem (metadatas sample_store) (-1) = Ok (metadata r).
Proof.
  apply (query_pads_beyond_index sample_store (Array1 e1) 4).
  - exact sample_store_consistent.
  - discriminate.
  - reflexivity.
  - reflexivity.
Defined.

(** The answer of the example index to [query([1,0,0,0], k=4)]: two stored
    rows, then two results made from the padding. *)
Example query_beyond_index_ids :
  (rs ← query sample_store (Array1 e1) 4; Ok (map (fun r => (id r, text r)) rs))
  = Ok [("doc_0", "chunkA"); ("doc_1", "chunkB");
        ("doc_-1", "chunkB"); ("doc_-1", "chunkB")].
Proof. reflexivity. Qed.

(** An empty index answers with the empty list. *)
Lemma query_empty_index (self : t) (query_embedding : ndarray) (top_k : Z) :
  Faiss.ntotal (index self) = 0 -> query self query_embedding top_k = Ok [].
Proof. intros Hz. unfold query. now rewrite Hz. Qed.

End FaissClaims.

(** ** Rank order of the scores *)

Section RankOrder.

Lemma faiss_scores_nonincreasing (self : FAISSVectorStore.t)
    (query_embedding : ndarray) (top_k : Z)
    (rs : list FAISSVectorStore.QueryResult) :
  FAISSVectorStore.query self query_embedding top_k = Ok rs ->
  nonincreasing (map FAISSVectorStore.score rs).
Proof.
  intros Hq. destruct (query_results _ _ _ _ Hq) as (hs & Hsub & Hall).
  pose proof (StronglySorted_sublist _ _ _ Hsub
                (search_row_sorted _ _ _)) as Hsorted.
  intros i j a b Hij Ha Hb. rewrite map_lookup in Ha, Hb.
  destruct (rs !! i) as [ra|] eqn:Hra; [| discriminate]. injection Ha as <-.
  destruct (rs !! j) as [rb|] eqn:Hrb; [| discriminate]. injection Hb as <-.
  destruct (Forall2_lookup_l _ _ _ _ _ Hall Hra) as (ha & Hha & Hda).
  destruct (Forall2_lookup_l _ _ _ _ _ Hall Hrb) as (hb & Hhb & Hdb).
  destruct Hda as (_ & _ & _ & _ & -> & _). destruct Hdb as (_ & _ & _ & _ & -> & _).
  apply score_antitone.
  - eapply search_row_nonneg, elem_of_sublist; [| exact Hsub].
    eapply list_elem_of_lookup_2; eauto.
  - exact (StronglySorted_lookup _ _ Hsorted i j ha hb Hij Hha Hhb).
Qed.

Lemma ascending_scores_nonincreasing (ds : list Q) :
  StronglySorted Qle ds -> nonincreasing (map (fun x => (1 - x)%Q) ds).
Proof.
  intros Hsorted i j a b Hij Ha Hb. rewrite map_lookup in Ha, Hb.
  destruct (ds !! i) as [x|] eqn:Hx; [| discriminate]. injection Ha as <-.
  destruct (ds !! j) as [y|] eqn:Hy; [| discriminate]. injection Hb as <-.
  pose proof (StronglySorted_lookup _ _ Hsorted i j x y Hij Hx Hy). lra.
Qed.

Lemma getitem_first {A : Type} (l : list A) (x : A) :
  Py.getitem l 0 = Ok x <-> l !! 0%nat = Some x.
Proof. exact (getitem_nonneg l 0 x). Qed.

Context (collection_query : list Chroma.Row -> list (list Q) -> Z
                            -> option (gmap string pyval)
                            -> result Chroma.QueryResult).

(** The formatting loop of the Chroma store over the indexes [s], [s+1],
    ..., [s+m-1] appends one document per index, scored [1 - distance] with
    the distances [d0[s]], ..., [d0[s+m-1]]. *)
Lemma format_documents_scores (results : Chroma.QueryResult)
    (ds : list (list Q)) (d0 : list Q) :
  Chroma.distances results = Some ds ->
  ds !! 0%nat = Some d0 ->
  forall (m s : nat) acc docs,
    ChromaVectorStore.format_documents results
      (Py.range_from (Z.of_nat s) 1 m) acc = Ok docs ->
    exists new,
      docs = (acc ++ new)%list
      /\ map ChromaVectorStore.score new
         = map (fun x => Some (1 - x)%Q) (take m (drop s d0)).
Proof.
  intros Hds Hd0. induction m as [|m IH]; intros s acc docs Hrun; cbn in Hrun.
  - injection Hrun as <-. exists []. rewrite app_nil_r. split; reflexivity.
  - destruct (Py.getitem (Chroma.ids results) 0) as [ids0|]; [| discriminate].
    cbn in Hrun.
    destruct (Py.getitem ids0 (Z.of_nat s)) as [id|]; [| discriminate].
    cbn in Hrun.
    destruct (Py.getitem (Chroma.documents results) 0) as [documents0|];
      [| discriminate].
    cbn in Hrun.
    destruct (Py.getitem documents0 (Z.of_nat s)) as [text|]; [| discriminate].
    cbn in Hrun.
    destruct (Py.getitem (Chroma.metadatas results) 0) as [metadatas0|];
      [| discriminate].
    cbn in Hrun.
    destruct (Py.getitem metadatas0 (Z.of_nat s)) as [metadata|]; [| discriminate].
    cbn in Hrun.
    unfold ChromaVectorStore.distance_at in Hrun. rewrite Hds in Hrun.
    rewrite (proj2 (getitem_first ds d0) Hd0) in Hrun. cbn in Hrun.
    destruct (Py.getitem d0 (Z.of_nat s)) as [x|] eqn:Hx; [| discriminate].
    cbn in Hrun. apply getitem_nonneg in Hx.
    replace (Z.of_nat s + 1) with (Z.of_nat (S s)) in Hrun by lia.
    apply IH in Hrun as (new & -> & Hscores).
    eexists (_ :: new). rewrite <- app_assoc. split; [reflexivity |].
    cbn [map ChromaVectorStore.score]. rewrite Hscores.
    rewrite (drop_S _ _ _ Hx). reflexivity.
Qed.

(** An iteration of the loop reads [results['distances'][0]]. *)
Lemma format_documents_reads_distances (results : Chroma.QueryResult)
    (ds : list (list Q)) (i : Z) (rest : list Z) acc docs :
  Chroma.distances results = Some ds ->
  ChromaVectorStore.format_documents results (i :: rest) acc = Ok docs ->
  exists d0, Py.getitem ds 0 = Ok d0.
Proof.
  intros Hds Hrun. cbn in Hrun.
  destruct (Py.getitem (Chroma.ids results) 0) as [ids0|]; [| discriminate].
  cbn in Hrun. destruct (Py.getitem ids0 i); [| discriminate]. cbn in Hrun.
  destruct (Py.getitem (Chroma.documents results) 0) as [documents0|];
    [| discriminate].
  cbn in Hrun. destruct (Py.getitem documents0 i); [| discriminate]. cbn in Hrun.
  destruct (Py.getitem (Chroma.metadatas results) 0) as [metadatas0|];
    [| discriminate].
  cbn in Hrun. destruct (Py.getitem metadatas0 i); [| discriminate]. cbn in Hrun.
  unfold ChromaVectorStore.distance_at in Hrun. rewrite Hds in Hrun.
  destruct (Py.getitem ds 0) as [d0|]; [now exists d0 | discriminate].
Qed.

Lemma chroma_scores_nonincreasing (self : ChromaVectorStore.t)
    (query_embedding : ndarray) (top_k : Z)
    (filter_metadata : option (gmap string pyval))
    (docs : list ChromaVectorStore.Document) :
  chroma_distances_ascending collection_query ->
  ChromaVectorStore.query collection_query self query_embedding top_k
    filter_metadata = Ok docs ->
  exists scores,
    map ChromaVectorStore.score docs = map Some scores /\ nonincreasing scores.
Proof.
  intros Hcontract Hq. unfold ChromaVectorStore.query in Hq.
  destruct (collection_query _ _ _ _) as [results|] eqn:Hcq; [| discriminate].
  cbn in Hq. destruct (Hcontract _ _ _ _ _ Hcq) as (ds & Hds & Hsorted).
  destruct (Py.getitem (Chroma.ids results) 0) as [ids0|]; [| discriminate].
  cbn in Hq. rewrite range_len in Hq.
  destruct (length ids0) as [|n] eqn:Hn.
  - cbn in Hq. injection Hq as <-. exists []. split; [reflexivity |].
    intros i j a b _ Ha. discriminate.
  - destruct (ds !! 0%nat) as [d0|] eqn:Hd0.
    + change 0 with (Z.of_nat 0) in Hq.
      apply (format_documents_scores results ds d0 Hds Hd0) in Hq
        as (new & -> & Hscores).
      exists (map (fun x => (1 - x)%Q) (take (S n) d0)).
      cbn [app]. rewrite Hscores, drop_0, map_map. split; [reflexivity |].
      apply ascending_scores_nonincreasing.
      eapply StronglySorted_sublist; [apply sublist_take | now apply Hsorted].
    + exfalso. cbn [Py.range_from] in Hq.
      destruct (format_documents_reads_distances _ _ _ _ _ _ Hds Hq) as [d0 Hget].
      apply getitem_first in Hget. congruence.
Qed.

End RankOrder.

Lemma sample_collection_query_ascending :
  chroma_distances_ascending sample_collection_query.
Proof.
  intros rows qe n w results Hq. injection Hq as <-.
  eexists. split; [reflexivity |].
  intros d0 Hd0. injection Hd0 as <-.
  repeat constructor. cbn. lra.
Qed.

(** Claim C7: for both backends the list a query returns is ordered by
    score, each score at least every later one. For the Chroma store this
    rests on the collection returning its neighbours nearest first. *)
Theorem query_scores_nonincreasing
    (faiss_store : FAISSVectorStore.t) (faiss_embedding : ndarray) (faiss_k : Z)
    (faiss_results : list FAISSVectorStore.QueryResult)
    (collection_query : list Chroma.Row -> list (list Q) -> Z
                        -> option (gmap string pyval)
                        -> result Chroma.QueryResult)
    (chroma_store : ChromaVectorStore.t) (chroma_embedding : ndarray)
    (chroma_k : Z) (filter_metadata : option (gmap string pyval))
    (chroma_results : list ChromaVectorStore.Document) :
  FAISSVectorStore.query faiss_store faiss_embedding faiss_k = Ok faiss_results ->
  chroma_distances_ascending collection_query ->
  ChromaVectorStore.query collection_query chroma_store chroma_embedding
    chroma_k filter_metadata = Ok chroma_results ->
  nonincreasing (map FAISSVectorStore.score faiss_results)
  /\ exists scores,
       map ChromaVectorStore.score chroma_results = map Some scores
       /\ nonincreasing scores.
Proof.
  intros Hfaiss Hcontract Hchroma. split.
  - eapply faiss_scores_nonincreasing; eauto.
  - eapply chroma_scores_nonincreasing; eauto.
Qed.

Lemma query_scores_nonincreasing_witness :
  nonincreasing [1; 11184811 # 33554432]%Q
  /\ exists scores,
       [Some (1 - 0)%Q; Some (1 - (1 # 2))%Q] = map Some scores
       /\ nonincreasing scores.
Proof.
  apply (query_scores_nonincreasing sample_store (Array1 e1) 2
           [FAISSVectorStore.mkResult "doc_0" "chunkA" (Chunk.metadata chunkA) 0 1;
            FAISSVectorStore.mkResult "doc_1" "chunkB" (Chunk.metadata chunkB) 2
              (11184811 # 33554432)]
           sample_collection_query (ChromaVectorStore.mk "sap_documents" [])
           (Array1 e1) 2 None
           [ChromaVectorStore.mkDocument "doc_0" "chunkA" (Chunk.metadata chunkA)
              (Some 0%Q) (Some (1 - 0)%Q);
            ChromaVectorStore.mkDocument "doc_1" "chunkB" (Chunk.metadata chunkB)
              (Some (1 # 2)%Q) (Some (1 - (1 # 2))%Q)]).
  - reflexivity.
  - exact sample_collection_query_ascending.
  - reflexivity.
Defined.

(** ** Record ids *)

Section RecordIds.

Lemma str_inj (a b : Z) : Py.str a = Py.str b -> a = b.
Proof.
  unfold Py.str. intros Heq. apply to_int_inj.
  assert (forall z, NilZero.int_of_string (NilZero.string_of_int (Z.to_int z))
                    = Some (Z.to_int z)) as Hround.
  { intros z. apply NilZero.isi; destruct z; cbn; intros Hnil;
      try discriminate; injection Hnil as Hnil;
      now apply Unsigned.to_uint_nonnil in Hnil. }
  pose proof (Hround a) as Ha. rewrite Heq, Hround in Ha. now injection Ha.
Qed.

(** The id the FAISS store derives from a row number names that row only. *)
Lemma doc_id_inj (i j : Z) : "doc_" +:+ Py.str i = "doc_" +:+ Py.str j -> i = j.
Proof. intros Heq. apply String.app_inj in Heq. now apply str_inj. Qed.

Lemma new_ids_head (c : Chunk.t) (cs : list Chunk.t) :
  head (ChromaVectorStore.new_ids (c :: cs)) = Some "doc_0".
Proof. unfold ChromaVectorStore.new_ids. now rewrite range_len. Qed.

(** The FAISS store derives the id from the row number, which names one
    row. The Chroma store numbers the chunks of every [add_documents] call
    from ["doc_0"] again, so the first chunk of a second call is submitted
    under the id of the first chunk of the first call; the collection keeps
    the record it has, and the new chunk is not stored. *)
Lemma chroma_ids_restart :
  (forall i j : Z, "doc_" +:+ Py.str i = "doc_" +:+ Py.str j -> i = j)
  /\ (forall (c : Chunk.t) (cs : list Chunk.t),
        head (ChromaVectorStore.new_ids (c :: cs)) = Some "doc_0")
  /\ (let first := ChromaVectorStore.add_documents
                     (ChromaVectorStore.mk "sap_documents" []) [chunkA] (Array2 4 [e1]) in
      let second := ChromaVectorStore.add_documents (snd first) [chunkB] (Array2 4 [e2]) in
      fst first = Ok () /\ fst second = Ok ()
      /\ map (fun r => (Chroma.row_id r, Chroma.row_document r))
             (ChromaVectorStore.collection (snd second))
         = [("doc_0", "chunkA")]).
Proof.
  split; [exact doc_id_inj |]. split; [exact new_ids_head |].
  cbv zeta. repeat split.
Qed.

End RecordIds.

(** ** Ingestion *)

Section Ingestion.

Import SAPRAGSystem.

Context (load : string -> result DocData) (glob : string -> string -> list string)
        (encode : list string -> result ndarray).

(** The directory ingestion stops on an empty chunk list: it returns the
    error status and leaves the system, the embeddings generator and the
    index untouched. *)
Lemma ingest_documents_short_circuits (fuel : nat) (self : t)
    (directory_path : string) :
  DocumentProcessor.process_directory load glob fuel (document_processor self)
    directory_path = Some [] ->
  ingest_documents load glob encode fuel self directory_path
  = Some (Ok (StatusError "Nenhum documento encontrado"), self).
Proof. intros Hdir. unfold ingest_documents. now rewrite Hdir. Qed.

(** Claim C8: an ingestion whose chunking yields no chunk returns an error
    status without calling the embeddings generator or touching the index.
    [ingest_documents] does so; [ingest_single_document] has no such check:
    on the Chroma store it calls the embeddings generator with the empty
    list, adds nothing, and returns the status ['success'] with statistics
    of zero chunks. *)
Theorem ingest_single_document_reports_success (fuel : nat) (self : t)
    (file_path : string) (doc_data : DocData) (full_text : string)
    (store : ChromaVectorStore.t) :
  load file_path = Ok doc_data ->
  DocumentProcessor._extract_full_text doc_data = Ok full_text ->
  DocumentProcessor._split_text fuel (document_processor self) full_text = Some [] ->
  vector_store self = ChromaStore store ->
  vector_store_type self = "chroma" ->
  ingest_single_document load encode fuel self file_path
  = Some (Ok (StatusSuccess (DocumentProcessor.mkStats 0 0 0 0) None),
          mk (document_processor self) (vector_store self) (vector_store_type self)
             (disk self) (embeddings_calls self ++ [[]])).
Proof.
  intros Hload Htext Hsplit Hstore Htype.
  unfold ingest_single_document, DocumentProcessor.process_document.
  rewrite Hload, Htext, Hsplit. cbn.
  unfold add_documents. cbn. rewrite Hstore, Htype. cbn.
  destruct store. reflexivity.
Qed.

End Ingestion.

Lemma ingest_single_document_reports_success_witness :
  SAPRAGSystem.ingest_single_document
    (fun _ => Ok blank_doc) (fun _ => Raise ValueError) 5 sample_system "blank.pdf"
  = Some (Ok (SAPRAGSystem.StatusSuccess (DocumentProcessor.mkStats 0 0 0 0) None),
          SAPRAGSystem.mk (DocumentProcessor.mk 1000 200)
            (SAPRAGSystem.ChromaStore (ChromaVectorStore.mk "sap_documents" []))
            "chroma" (FAISSVectorStore.mkDisk None None) [[]]).
Proof.
  apply (ingest_single_document_reports_success
           (fun _ => Ok blank_doc) (fun _ => Raise ValueError)
           5 sample_system "blank.pdf" blank_doc "  "
           (ChromaVectorStore.mk "sap_documents" [])); reflexivity.
Defined.

(** ** Adding chunks and vectors of different numbers *)

Section AddMismatch.

Lemma slice_take {A : Type} (l : list A) (n : nat) (i e : Z) :
  0 <= i -> 0 <= e <= Z.of_nat n -> (n <= length l)%nat ->
  Py.slice (take n l) i e = Py.slice l i e.
Proof.
  intros Hi He Hn. unfold Py.slice, Py.adjust, Py.len.
  rewrite length_take.
  assert ((i <? 0) = false) as -> by (apply Z.ltb_ge; lia).
  assert ((e <? 0) = false) as -> by (apply Z.ltb_ge; lia).
  rewrite (Nat.min_l n (length l)) by lia.
  rewrite !(Z.min_l e) by lia.
  destruct (Z_le_gt_dec i (Z.of_nat n)) as [Hin | Hout].
  - rewrite !(Z.min_l i) by lia.
    rewrite skipn_firstn_comm, take_take. f_equal. lia.
  - rewrite (Z.min_r i (Z.of_nat n)) by lia.
    replace (Z.to_nat (e - Z.of_nat n)) with 0%nat by lia.
    replace (Z.to_nat (e - Z.min i (Z.of_nat (length l)))) with 0%nat by lia.
    reflexivity.
Qed.

Lemma slice_len {A : Type} (l : list A) (i e : Z) :
  0 <= i -> 0 <= e ->
  Py.len (Py.slice l i e) = Z.max 0 (Z.min e (Py.len l) - Z.min i (Py.len l)).
Proof.
  intros Hi He. unfold Py.slice, Py.adjust, Py.len.
  assert ((i <? 0) = false) as -> by (apply Z.ltb_ge; lia).
  assert ((e <? 0) = false) as -> by (apply Z.ltb_ge; lia).
  rewrite length_take, length_drop. lia.
Qed.

Lemma range_from_nonneg (start step : Z) (m : nat) :
  0 <= start -> 0 <= step -> Forall (fun i => 0 <= i) (Py.range_from start step m).
Proof.
  revert start. induction m as [|m IH]; intros start Hs Hstep; cbn; constructor.
  - exact Hs.
  - apply IH; lia.
Qed.

Lemma range_from_elem_of (start step : Z) (m k : nat) :
  (k < m)%nat -> (start + step * Z.of_nat k) ∈ Py.range_from start step m.
Proof.
  revert start k. induction m as [|m IH]; intros start k Hk; [lia |].
  cbn. destruct k as [|k].
  - replace (start + step * Z.of_nat 0) with start by lia. apply elem_of_cons. now left.
  - apply elem_of_cons. right.
    replace (start + step * Z.of_nat (S k)) with (start + step + step * Z.of_nat k) by lia.
    apply IH. lia.
Qed.

Lemma range_from_length (start step : Z) (m : nat) :
  length (Py.range_from start step m) = m.
Proof.
  revert start. induction m as [|m IH]; intros start; cbn; [reflexivity |].
  now rewrite IH.
Qed.

Lemma new_ids_len (chunks : list Chunk.t) :
  Py.len (ChromaVectorStore.new_ids chunks) = Py.len chunks.
Proof.
  unfold ChromaVectorStore.new_ids. rewrite range_len. unfold Py.len.
  now rewrite length_map, range_from_length.
Qed.

(** The Chroma store reads no vector beyond the number of chunks. *)
Lemma add_batches_truncate (chunks : list Chunk.t) (ncols : Z)
    (rows : list (list Q)) (starts : list Z) :
  Forall (fun i => 0 <= i) starts ->
  (length chunks <= length rows)%nat ->
  forall stored,
    ChromaVectorStore.add_batches stored chunks (Array2 ncols rows) starts
    = ChromaVectorStore.add_batches stored chunks
        (Array2 ncols (take (length chunks) rows)) starts.
Proof.
  intros Hstarts Hlen. induction Hstarts as [|i starts Hi _ IH]; intros stored.
  - reflexivity.
  - cbn [ChromaVectorStore.add_batches ChromaVectorStore.embeddings_slice].
    rewrite slice_take by (unfold Py.len; lia).
    destruct (Chroma.add _ _ _ _ _); [apply IH | reflexivity].
Qed.

Lemma chroma_add_mismatch (stored : list Chroma.Row) (ids : list string)
    (embeddings : list (list Q)) (documents : list string)
    (metadatas : list (gmap string pyval)) :
  Py.len embeddings <> Py.len ids ->
  exists e, Chroma.add stored ids embeddings documents metadatas = Raise e.
Proof.
  intros Hne. unfold Chroma.add.
  destruct (Py.len ids =? 0); [eauto |].
  destruct (negb (bool_decide (NoDup ids))); [eauto |].
  destruct (_ || _); [eauto |].
  destruct (existsb _ metadatas); [eauto |].
  apply Z.eqb_neq in Hne. rewrite Hne. cbn. eauto.
Qed.

(** A batch with fewer vectors than ids stops the loop with an exception,
    whatever the batches before it did. *)
Lemma add_batches_raises (chunks : list Chunk.t) (embeddings : ndarray)
    (starts : list Z) (i : Z) :
  i ∈ starts ->
  Py.len (ChromaVectorStore.embeddings_slice embeddings i
            (Z.min (i + 100) (Py.len chunks)))
  <> Py.len (Py.slice (ChromaVectorStore.new_ids chunks) i
               (Z.min (i + 100) (Py.len chunks))) ->
  forall stored,
    exists e, fst (ChromaVectorStore.add_batches stored chunks embeddings starts)
              = Raise e.
Proof.
  intros Hin Hbad. induction starts as [|i' starts IH]; intros stored.
  - now apply elem_of_nil in Hin.
  - cbn [ChromaVectorStore.add_batches].
    apply elem_of_cons in Hin as [<- | Hin].
    + destruct (chroma_add_mismatch stored _ _
                  (Py.slice (map Chunk.text chunks) i (Z.min (i + 100) (Py.len chunks)))
                  (Py.slice (map Chunk.metadata chunks) i (Z.min (i + 100) (Py.len chunks)))
                  Hbad) as [e ->].
      now exists e.
    + destruct (Chroma.add _ _ _ _ _) as [stored'|e]; [now apply IH | now exists e].
Qed.

Lemma chroma_add_fewer_vectors (self : ChromaVectorStore.t) (chunks : list Chunk.t)
    (ncols : Z) (rows : list (list Q)) :
  Py.len rows < Py.len chunks ->
  exists e, fst (ChromaVectorStore.add_documents self chunks (Array2 ncols rows))
            = Raise e.
Proof.
  intros Hfew. unfold ChromaVectorStore.add_documents.
  set (n := Py.len chunks) in *. set (q := (n - 1) / 100).
  assert (0 <= Py.len rows) as Hrows by (unfold Py.len; lia).
  assert (100 * q <= n - 1 < 100 * q + 100) as Hq.
  { subst q. pose proof (Z.div_mod (n - 1) 100 ltac:(lia)) as Hdm.
    pose proof (Z.mod_pos_bound (n - 1) 100 ltac:(lia)) as Hmod. lia. }
  assert (0 <= q) as Hq0 by (subst q; apply Z.div_pos; lia).
  destruct (add_batches_raises chunks (Array2 ncols rows)
              (Py.range 0 n 100) (100 * q)) with (stored := ChromaVectorStore.collection self)
    as [e He].
  - unfold Py.range.
    replace (100 * q) with (0 + 100 * Z.of_nat (Z.to_nat q)) by lia.
    apply range_from_elem_of.
    replace (n - 0 + 100 - 1) with (n - 1 + 1 * 100) by lia.
    rewrite Z.div_add by lia. fold q. lia.
  - cbn [ChromaVectorStore.embeddings_slice]. fold n.
    rewrite !slice_len by lia. rewrite new_ids_len. fold n. lia.
  - exists e. destruct (ChromaVectorStore.add_batches _ _ _ _). exact He.
Qed.

End AddMismatch.

Section AddClaims.

Lemma faiss_add_documents_appends (self : FAISSVectorStore.t)
    (chunks : list Chunk.t) (rows : list (list Q)) :
  FAISSVectorStore.add_documents self chunks
    (Array2 (Faiss.d (FAISSVectorStore.index self)) rows)
  = (Ok (),
     FAISSVectorStore.mk (FAISSVectorStore.embedding_dim self)
       (Faiss.mk (Faiss.d (FAISSVectorStore.index self))
                 (Faiss.xb (FAISSVectorStore.index self) ++ rows))
       (FAISSVectorStore.documents self ++ map Chunk.text chunks)
       (FAISSVectorStore.metadatas self ++ map Chunk.metadata chunks)).
Proof.
  unfold FAISSVectorStore.add_documents, Faiss.add. now rewrite Z.eqb_refl.
Qed.

Lemma faiss_add_documents_paired (self : FAISSVectorStore.t)
    (chunks : list Chunk.t) (rows : list (list Q)) :
  paired self ->
  paired (snd (FAISSVectorStore.add_documents self chunks
                 (Array2 (Faiss.d (FAISSVectorStore.index self)) rows)))
  <-> Py.len chunks = Py.len rows.
Proof.
  intros [Hdocs Hmetas]. rewrite faiss_add_documents_appends.
  unfold paired, Faiss.ntotal, Py.len in *. cbn.
  rewrite !length_app, !length_map. lia.
Qed.

(** Claim C1, as the specification states it: an [add] whose chunks and
    vectors differ in number fails with a reported error and leaves no row
    without its counterpart. Neither store compares the two numbers. With
    one chunk and two vectors the FAISS store returns normally, holding two
    index rows and one text; the Chroma store returns normally, having
    stored the chunk with the first vector and dropped the second. *)
Lemma add_length_mismatch_accepted :
  let faiss := FAISSVectorStore.add_documents
                 (FAISSVectorStore.mk 4 (Faiss.new 4) [] []) [chunkA] (Array2 4 [e1; e2]) in
  let chroma := ChromaVectorStore.add_documents
                  (ChromaVectorStore.mk "sap_documents" []) [chunkA] (Array2 4 [e1; e2]) in
  Py.len [chunkA] <> Np.len (Array2 4 [e1; e2])
  /\ fst faiss = Ok ()
  /\ Faiss.ntotal (FAISSVectorStore.index (snd faiss)) = 2
  /\ FAISSVectorStore.documents (snd faiss) = ["chunkA"]
  /\ fst chroma = Ok ()
  /\ map (fun r => (Chroma.row_document r, Chroma.row_embedding r))
         (ChromaVectorStore.collection (snd chroma)) = [("chunkA", e1)].
Proof. cbv zeta. repeat split. discriminate. Qed.

(** Claim C1, amended: [add] does not compare the number of chunks with
    the number of vectors. On the FAISS store an [add] of [m] chunks and [n]
    vectors of the index dimension returns without error, having appended
    the [n] vectors to the index and the [m] texts and metadatas to the side
    tables, so a store whose side tables were paired with its index rows
    stays paired exactly when [m = n]. On the Chroma store the vectors past
    the number of chunks are dropped silently (the call does what it does
    with the first [m] vectors), and the call fails with a reported error
    when there are fewer vectors than chunks. *)
Theorem add_documents_unchecked (faiss_store : FAISSVectorStore.t)
    (chroma_store : ChromaVectorStore.t) (chunks : list Chunk.t) (ncols : Z)
    (rows : list (list Q)) :
  ncols = Faiss.d (FAISSVectorStore.index faiss_store) ->
  (FAISSVectorStore.add_documents faiss_store chunks (Array2 ncols rows)
   = (Ok (),
      FAISSVectorStore.mk (FAISSVectorStore.embedding_dim faiss_store)
        (Faiss.mk (Faiss.d (FAISSVectorStore.index faiss_store))
                  (Faiss.xb (FAISSVectorStore.index faiss_store) ++ rows))
        (FAISSVectorStore.documents faiss_store ++ map Chunk.text chunks)
        (FAISSVectorStore.metadatas faiss_store ++ map Chunk.metadata chunks)))
  /\ (paired faiss_store ->
      (paired (snd (FAISSVectorStore.add_documents faiss_store chunks
                      (Array2 ncols rows)))
       <-> Py.len chunks = Py.len rows))
  /\ (Py.len chunks <= Py.len rows ->
      ChromaVectorStore.add_documents chroma_store chunks (Array2 ncols rows)
      = ChromaVectorStore.add_documents chroma_store chunks
          (Array2 ncols (take (length chunks) rows)))
  /\ (Py.len rows < Py.len chunks ->
      exists e,
        fst (ChromaVectorStore.add_documents chroma_store chunks (Array2 ncols rows))
        = Raise e).
Proof.
  intros ->. split; [apply faiss_add_documents_appends |].
  split; [apply faiss_add_documents_paired |]. split.
  - intros Hlen. unfold ChromaVectorStore.add_documents.
    rewrite add_batches_truncate; [reflexivity | | unfold Py.len in Hlen; lia].
    apply range_from_nonneg; [lia | lia].
  - apply chroma_add_fewer_vectors.
Qed.

Lemma add_documents_unchecked_witness :
  FAISSVectorStore.add_documents (FAISSVectorStore.mk 4 (Faiss.new 4) [] [])
    [chunkA] (Array2 4 [e1; e2])
  = (Ok (),
     FAISSVectorStore.mk 4 (Faiss.mk 4 [e1; e2])
       ["chunkA"] [Chunk.metadata chunkA]).
Proof.
  exact (proj1 (add_documents_unchecked
                  (FAISSVectorStore.mk 4 (Faiss.new 4) [] [])
                  (ChromaVectorStore.mk "sap_documents" [])
                  [chunkA] 4 [e1; e2] eq_refl)).
Defined.

End AddClaims.

(** ** Further properties of the chunker *)

Section ChunkerTermination.

Import DocumentProcessor.

Lemma rfind_down_bounds (s sub : string) (lo : Z) (n : nat) :
  Py.rfind_down s sub lo n = -1
  \/ lo <= Py.rfind_down s sub lo n < lo + Z.of_nat n.
Proof.
  induction n as [|n IH]; cbn [Py.rfind_down]; [now left |].
  destruct (String.eqb _ sub).
  - right. lia.
  - destruct IH as [-> | IH]; [now left | right; lia].
Qed.

Lemma rfind_bounds (s sub : string) (start stop : Z) :
  0 <= start ->
  Py.rfind s sub start stop = -1 \/ start <= Py.rfind s sub start stop.
Proof.
  intros Hstart. unfold Py.rfind.
  assert ((start <? 0) = false) as -> by (apply Z.ltb_ge; lia).
  destruct (_ <? Py.str_len sub); [now left |].
  match goal with |- context [Py.rfind_down s sub start ?n] =>
    destruct (rfind_down_bounds s sub start n) as [-> | Hb] end;
    [now left | right; lia].
Qed.

Lemma find_break_advances (text : string) (start end_ : Z) (seps : list string) :
  0 <= start -> start < end_ ->
  Forall (fun sep => 1 <= Py.str_len sep) seps ->
  start < find_break text start end_ seps.
Proof.
  intros Hstart Hend. induction 1 as [|sep seps Hsep _ IH]; cbn; [exact Hend |].
  destruct (Py.rfind text sep start end_ =? -1) eqn:Hfound; [exact IH |].
  apply Z.eqb_neq in Hfound.
  destruct (rfind_bounds text sep start end_ Hstart) as [Hnone | Hpos];
    [contradiction | lia].
Qed.

Lemma separators_nonempty : Forall (fun sep => 1 <= Py.str_len sep) separators.
Proof.
  unfold separators.
  repeat (apply List.Forall_cons; [vm_compute; discriminate |]).
  apply List.Forall_nil.
Qed.

(** Without overlap the cursor moves forward on every iteration. *)
Lemma split_step_advances (self : t) (text : string) (start : Z)
    (chunks : list string) :
  0 < chunk_size self -> chunk_overlap self = 0 -> 0 <= start ->
  start < fst (split_step self text start chunks).
Proof.
  intros Hsize Hoverlap Hstart. unfold split_step. rewrite Hoverlap. cbn [fst].
  set (end_ := if _ <? _ then find_break _ _ _ _ else _).
  assert (start < end_) as Hend.
  { subst end_. destruct (_ <? _); [| lia].
    apply find_break_advances; [lia | lia | apply separators_nonempty]. }
  destruct (end_ <? Py.str_len text); lia.
Qed.

Lemma split_loop_terminates (self : t) (text : string) :
  0 < chunk_size self -> chunk_overlap self = 0 ->
  forall (fuel : nat) (start : Z) (chunks : list string),
    0 <= start ->
    (Z.to_nat (Py.str_len text - start) < fuel)%nat ->
    exists result, split_loop fuel self text start chunks = Some result.
Proof.
  intros Hsize Hoverlap. induction fuel as [|fuel IH]; intros start chunks Hstart Hfuel.
  - lia.
  - cbn [split_loop]. destruct (start <? Py.str_len text) eqn:Hin; [| eauto].
    apply Z.ltb_lt in Hin.
    pose proof (split_step_advances self text start chunks Hsize Hoverlap Hstart) as Hadv.
    destruct (split_step self text start chunks) as [start' chunks']. cbn in Hadv.
    apply IH; lia.
Qed.

(** With a positive chunk size and no overlap the split returns, within one
    iteration per character. *)
Theorem split_text_terminates_without_overlap (self : t) (text : string) :
  0 < chunk_size self -> chunk_overlap self = 0 ->
  exists chunks, _split_text (S (String.length text)) self text = Some chunks.
Proof.
  intros Hsize Hoverlap. unfold _split_text.
  apply split_loop_terminates; [assumption | assumption | lia |].
  unfold Py.str_len. lia.
Qed.

Lemma split_text_terminates_without_overlap_witness :
  exists chunks, _split_text 18 (mk 10 0) stuck_text = Some chunks.
Proof.
  apply (split_text_terminates_without_overlap (mk 10 0) stuck_text); reflexivity.
Defined.

(** A text no longer than [chunk_size] that is not blank gives exactly one
    chunk, the trimmed text; an empty or blank text gives no chunk. *)
Theorem split_text_short_document (self : t) (text : string) (fuel : nat) :
  Py.str_len text <= chunk_size self ->
  (2 <= fuel)%nat ->
  _split_text fuel self text =
    Some (if String.eqb (Py.strip text) "" then [] else [Py.strip text]).
Proof. apply split_text_fits. Qed.

Lemma split_text_short_document_witness :
  _split_text 2 (mk 1000 200) "  SAP HANA  " = Some ["SAP HANA"].
Proof.
  apply (split_text_short_document (mk 1000 200) "  SAP HANA  " 2);
    [vm_compute; discriminate | lia].
Defined.

(** The specification's example: [split("AAAA. BBBB. CCCC.", 10, 2)] ends
    every chunk just after a [". "] and never cuts ["BBBB"]. *)
Example split_text_sentences :
  _split_text 4 (mk 10 2) "AAAA. BBBB. CCCC." = Some ["AAAA."; ". BBBB."; ". CCCC."].
Proof. reflexivity. Qed.

End ChunkerTermination.

(** ** Further properties of the FAISS store *)

Section FaissInvariant.

Import FAISSVectorStore.

(** A new store is consistent, and so is a store after [reset]. *)
Lemma new_store_consistent (embedding_dim : Z) :
  consistent (mk embedding_dim (Faiss.new embedding_dim) [] []).
Proof. repeat split. constructor. Qed.

Lemma reset_consistent (self : t) : consistent (reset self).
Proof. apply new_store_consistent. Qed.

(** [add_documents] keeps the store consistent when it gets as many chunks
    as vectors, each vector of the index dimension. *)
Theorem add_documents_consistent (self : t) (chunks : list Chunk.t)
    (ncols : Z) (rows : list (list Q)) :
  consistent self ->
  ncols = Faiss.d (index self) ->
  Np.well_shaped (Array2 ncols rows) ->
  Py.len chunks = Py.len rows ->
  fst (add_documents self chunks (Array2 ncols rows)) = Ok ()
  /\ consistent (snd (add_documents self chunks (Array2 ncols rows))).
Proof.
  intros (Hdocs & Hmetas & Hrows) -> Hshape Hlen.
  rewrite faiss_add_documents_appends. split; [reflexivity |].
  unfold consistent, Faiss.ntotal, Py.len in *. cbn in *.
  rewrite !length_app, !length_map.
  split; [lia |]. split; [lia |].
  apply Forall_app. split; assumption.
Qed.

Lemma add_documents_consistent_witness :
  fst (add_documents (mk 4 (Faiss.new 4) [] []) [chunkA; chunkB] (Array2 4 [e1; e2]))
  = Ok ()
  /\ consistent sample_store.
Proof.
  apply (add_documents_consistent (mk 4 (Faiss.new 4) [] []) [chunkA; chunkB] 4 [e1; e2]).
  - apply new_store_consistent.
  - reflexivity.
  - repeat constructor.
  - reflexivity.
Defined.

(** A query never returns more than [k] results. *)
Theorem query_at_most_k (self : t) (query_embedding : ndarray) (top_k : Z)
    (rs : list QueryResult) :
  query self query_embedding top_k = Ok rs -> Py.len rs <= Z.max 0 top_k.
Proof.
  intros Hq. destruct (query_results _ _ _ _ Hq) as (hs & Hsub & Hall).
  apply sublist_length in Hsub. rewrite search_row_length in Hsub.
  apply Forall2_length in Hall. unfold Py.len. lia.
Qed.

Lemma query_at_most_k_witness :
  Py.len [mkResult "doc_0" "chunkA" (Chunk.metadata chunkA) 0 1] <= Z.max 0 1.
Proof.
  apply (query_at_most_k sample_store (Array1 e1) 1). reflexivity.
Defined.

End FaissInvariant.

(** On the FAISS store the same ingestion calls the embeddings generator
    with the empty list too, and the one-dimensional empty array it gets
    makes [index.add] raise. *)
Example ingest_single_document_faiss_raises :
  SAPRAGSystem.ingest_single_document
    (fun _ => Ok blank_doc) (fun _ => Raise ValueError) 5 sample_faiss_system "blank.pdf"
  = Some (Raise ValueError,
          SAPRAGSystem.mk (DocumentProcessor.mk 1000 200)
            (SAPRAGSystem.FaissStore (FAISSVectorStore.mk 4 (Faiss.new 4) [] []))
            "faiss" (FAISSVectorStore.mkDisk None None) [[]]).
Proof. reflexivity. Qed.

(** ** Shape of the chunks *)

Section ChunkShape.

Import DocumentProcessor.

Lemma lstrip_head (s : string) :
  Py.lstrip s = "" \/ exists c r, Py.lstrip s = String c r /\ Py.isspace c = false.
Proof.
  induction s as [|c s IH]; cbn; [now left |].
  destruct (Py.isspace c) eqn:Hc; [exact IH |]. right. now exists c, s.
Qed.

Lemma rstrip_cons_nonspace (c : ascii) (r : string) :
  Py.isspace c = false -> exists r', Py.rstrip (String c r) = String c r'.
Proof.
  intros Hc. cbn. destruct (Py.rstrip r); [rewrite Hc |]; eauto.
Qed.

Lemma rstrip_unfold (c : ascii) (r : string) :
  Py.rstrip (String c r)
  = match Py.rstrip r with
    | EmptyString => if Py.isspace c then EmptyString else String c EmptyString
    | r' => String c r'
    end.
Proof. reflexivity. Qed.

Lemma rstrip_idem (s : string) : Py.rstrip (Py.rstrip s) = Py.rstrip s.
Proof.
  induction s as [|c s IH]; [reflexivity |].
  rewrite (rstrip_unfold c s).
  destruct (Py.rstrip s) as [|c' r'] eqn:Hr.
  - destruct (Py.isspace c) eqn:Hc; [reflexivity |].
    rewrite rstrip_unfold. cbn. now rewrite Hc.
  - rewrite rstrip_unfold, IH. reflexivity.
Qed.

Lemma strip_idem (s : string) : Py.strip (Py.strip s) = Py.strip s.
Proof.
  unfold Py.strip.
  assert (Py.lstrip (Py.rstrip (Py.lstrip s)) = Py.rstrip (Py.lstrip s)) as ->.
  { destruct (lstrip_head s) as [-> | (c & r & -> & Hc)]; [reflexivity |].
    destruct (rstrip_cons_nonspace c r Hc) as [r' ->]. cbn. now rewrite Hc. }
  apply rstrip_idem.
Qed.

Lemma lstrip_length (s : string) :
  (String.length (Py.lstrip s) <= String.length s)%nat.
Proof.
  induction s as [|c s IH]; cbn; [lia |]. destruct (Py.isspace c); cbn; lia.
Qed.

Lemma rstrip_length (s : string) :
  (String.length (Py.rstrip s) <= String.length s)%nat.
Proof.
  induction s as [|c s IH]; cbn; [lia |].
  destruct (Py.rstrip s); [destruct (Py.isspace c) |]; cbn in *; lia.
Qed.

Lemma strip_len (s : string) : Py.str_len (Py.strip s) <= Py.str_len s.
Proof.
  unfold Py.str_len, Py.strip.
  pose proof (rstrip_length (Py.lstrip s)). pose proof (lstrip_length s). lia.
Qed.

Lemma substring_length_le (s : string) (n m : nat) :
  (String.length (substring n m s) <= m)%nat.
Proof.
  revert n m. induction s as [|c s IH]; intros [|n] [|m]; cbn; try lia.
  - specialize (IH 0%nat m). lia.
  - apply IH.
  - apply IH.
Qed.

Lemma rfind_range (s sub : string) (start stop : Z) :
  Py.rfind s sub start stop = -1
  \/ (0 <= Py.rfind s sub start stop
      /\ (0 <= stop -> Py.rfind s sub start stop + Py.str_len sub <= stop)).
Proof.
  unfold Py.rfind. pose proof (str_len_nonneg s) as Hn.
  set (stop' := if Py.str_len s <? stop then _ else _).
  set (start' := if start <? 0 then _ else _).
  assert (0 <= start') as Hs
    by (subst start'; destruct (start <? 0) eqn:H;
        [| apply Z.ltb_ge in H]; lia).
  assert (0 <= stop -> stop' <= stop) as Hstop.
  { intros H0. subst stop'. destruct (Py.str_len s <? stop) eqn:H1.
    - apply Z.ltb_lt in H1. lia.
    - assert ((stop <? 0) = false) as -> by (apply Z.ltb_ge; lia). lia. }
  destruct (stop' - start' <? Py.str_len sub) eqn:Hfit; [now left |].
  apply Z.ltb_ge in Hfit.
  match goal with |- context [Py.rfind_down s sub start' ?n] =>
    destruct (rfind_down_bounds s sub start' n) as [-> | Hb] end;
    [now left | right; split; [lia | intros H0; specialize (Hstop H0); lia]].
Qed.

Lemma find_break_range (text : string) (start end_ : Z) (seps : list string) :
  0 < end_ ->
  Forall (fun sep => 1 <= Py.str_len sep) seps ->
  0 < find_break text start end_ seps <= end_.
Proof.
  intros Hend. induction 1 as [|sep seps Hsep _ IH]; cbn; [lia |].
  destruct (Py.rfind text sep start end_ =? -1) eqn:Hfound; [exact IH |].
  apply Z.eqb_neq in Hfound.
  destruct (rfind_range text sep start end_) as [Hnone | [Hpos Hle]];
    [contradiction |]. specialize (Hle ltac:(lia)). lia.
Qed.

Lemma str_slice_len (text : string) (start end_ : Z) :
  Py.str_len (Py.str_slice text start end_)
  <= Z.max 0 (Py.adjust (Py.str_len text) end_ - Py.adjust (Py.str_len text) start).
Proof.
  unfold Py.str_slice. unfold Py.str_len at 1.
  pose proof (substring_length_le text
    (Z.to_nat (Py.adjust (Py.str_len text) start))
    (Z.to_nat (Py.adjust (Py.str_len text) end_ - Py.adjust (Py.str_len text) start))).
  lia.
Qed.

(** One iteration under a valid configuration: the cursor stays above
    [- overlap], and a chunk it adds is well formed. *)
Lemma split_step_shape (self : t) (text : string) (start : Z)
    (chunks : list string) :
  0 <= chunk_overlap self < chunk_size self ->
  - chunk_overlap self <= start ->
  Forall (well_formed_chunk (chunk_size self)) chunks ->
  - chunk_overlap self <= fst (split_step self text start chunks)
  /\ Forall (well_formed_chunk (chunk_size self)) (snd (split_step self text start chunks)).
Proof.
  intros Hconf Hstart Hchunks. unfold split_step.
  pose proof (str_len_nonneg text) as Hn.
  set (end_ := if _ <? _ then find_break _ _ _ _ else _).
  assert (0 < end_ <= start + chunk_size self) as Hend.
  { subst end_. destruct (_ <? _); [| lia].
    apply find_break_range; [lia | apply separators_nonempty]. }
  cbn [fst snd]. split; [destruct (end_ <? Py.str_len text); lia |].
  destruct (String.eqb (Py.strip (Py.str_slice text start end_)) "") eqn:Hempty;
    [exact Hchunks |].
  apply Forall_app. split; [exact Hchunks |]. constructor; [| constructor].
  split; [| split].
  - intros Heq. apply String.eqb_neq in Hempty. contradiction.
  - apply strip_idem.
  - pose proof (strip_len (Py.str_slice text start end_)) as Hstrip.
    pose proof (str_slice_len text start end_) as Hslice.
    unfold Py.adjust in Hslice.
    destruct (end_ <? 0) eqn:He; [apply Z.ltb_lt in He; lia |].
    destruct (start <? 0) eqn:Hs;
      [apply Z.ltb_lt in Hs | apply Z.ltb_ge in Hs]; lia.
Qed.

Lemma split_loop_shape (self : t) (text : string) :
  0 <= chunk_overlap self < chunk_size self ->
  forall (fuel : nat) (start : Z) (chunks result : list string),
    - chunk_overlap self <= start ->
    Forall (well_formed_chunk (chunk_size self)) chunks ->
    split_loop fuel self text start chunks = Some result ->
    Forall (well_formed_chunk (chunk_size self)) result.
Proof.
  intros Hconf. induction fuel as [|fuel IH]; intros start chunks result Hstart Hchunks Hrun.
  - discriminate.
  - cbn [split_loop] in Hrun. destruct (start <? Py.str_len text).
    + pose proof (split_step_shape self text start chunks Hconf Hstart Hchunks) as [Hs Hc].
      destruct (split_step self text start chunks) as [start' chunks'].
      eapply IH; eauto.
    + now injection Hrun as <-.
Qed.

(** Under [0 <= overlap < chunk_size], every chunk the split returns is not
    empty, has no white space at either end and has at most [chunk_size]
    characters. *)
Theorem split_text_chunks_well_formed (self : t) (text : string) (fuel : nat)
    (chunks : list string) :
  0 <= chunk_overlap self < chunk_size self ->
  _split_text fuel self text = Some chunks ->
  Forall (well_formed_chunk (chunk_size self)) chunks.
Proof.
  intros Hconf Hrun. unfold _split_text in Hrun.
  apply (split_loop_shape self text Hconf fuel 0 [] chunks);
    [lia | constructor | exact Hrun].
Qed.

Lemma split_text_chunks_well_formed_witness :
  Forall (well_formed_chunk 10) ["AAAA."; ". BBBB."; ". CCCC."].
Proof.
  apply (split_text_chunks_well_formed (mk 10 2) "AAAA. BBBB. CCCC." 4);
    [cbn; lia | reflexivity].
Defined.

Lemma lstrip_substring_blank (s : string) :
  Py.lstrip s = "" -> forall n m, Py.lstrip (substring n m s) = "".
Proof.
  induction s as [|c s IH]; intros Hblank n m.
  - destruct n, m; reflexivity.
  - cbn in Hblank. destruct (Py.isspace c) eqn:Hc; [| discriminate].
    destruct n as [|n]; destruct m as [|m]; cbn; try reflexivity.
    + rewrite Hc. now apply IH.
    + now apply IH.
    + now apply IH.
Qed.

Lemma strip_blank_iff (s : string) : Py.strip s = "" <-> Py.lstrip s = "".
Proof.
  unfold Py.strip. split; [| now intros ->].
  destruct (lstrip_head s) as [-> | (c & r & -> & Hc)]; [reflexivity |].
  destruct (rstrip_cons_nonspace c r Hc) as [r' ->]. discriminate.
Qed.

Lemma split_loop_blank (self : t) (text : string) :
  Py.strip text = "" ->
  forall (fuel : nat) (start : Z) (result : list string),
    split_loop fuel self text start [] = Some result -> result = [].
Proof.
  intros Hblank. apply strip_blank_iff in Hblank.
  induction fuel as [|fuel IH]; intros start result Hrun; [discriminate |].
  cbn [split_loop] in Hrun. destruct (start <? Py.str_len text).
  - unfold split_step in Hrun.
    set (end_ := if _ <? _ then find_break _ _ _ _ else _) in Hrun.
    assert (Py.strip (Py.str_slice text start end_) = "") as Hchunk
      by (apply strip_blank_iff; unfold Py.str_slice; now apply lstrip_substring_blank).
    rewrite Hchunk in Hrun. cbn in Hrun. now apply IH in Hrun.
  - now injection Hrun as <-.
Qed.

(** A text that is empty or holds white space only gives no chunk, under
    every configuration for which the split returns. *)
Theorem split_text_blank (self : t) (text : string) (fuel : nat)
    (chunks : list string) :
  Py.strip text = "" ->
  _split_text fuel self text = Some chunks ->
  chunks = [].
Proof. intros Hblank Hrun. eapply split_loop_blank; eauto. Qed.

Lemma split_text_blank_witness :
  _split_text 9 (mk 4 0) (" " +:+ NL +:+ "      ") = Some []
  /\ @nil string = [].
Proof.
  split; [reflexivity |].
  exact (split_text_blank (mk 4 0) (" " +:+ NL +:+ "      ") 9 [] eq_refl eq_refl).
Defined.

End ChunkShape.

(** ** Documents, directories and statistics *)

Section Documents.

Import DocumentProcessor.

Context (load : string -> result DocData) (glob : string -> string -> list string).

Lemma stamp_metadata_other (doc_data : DocData) (chunks : list string) (c : Chunk.t)
    (key : string) :
  c ∈ stamp doc_data chunks ->
  key <> "chunk_index" -> key <> "total_chunks" ->
  Chunk.metadata c !! key = doc_metadata doc_data !! key.
Proof.
  unfold stamp. intros Hc Hindex Htotal.
  apply list_elem_of_In, in_map_iff in Hc as ([i chunk] & <- & _). cbn.
  rewrite lookup_insert_ne by congruence. now rewrite lookup_insert_ne by congruence.
Qed.

(** Every chunk of a document carries the loader's metadata fields (source,
    filename, type, ...) unchanged; only ['chunk_index'] and
    ['total_chunks'] are set by the processor. *)
Theorem process_document_keeps_metadata (fuel : nat) (self : t) (file_path : string)
    (doc_data : DocData) (processed : list Chunk.t) :
  load file_path = Ok doc_data ->
  process_document load fuel self file_path = Some (Ok processed) ->
  forall (c : Chunk.t) (key : string),
    c ∈ processed ->
    key <> "chunk_index" -> key <> "total_chunks" ->
    Chunk.metadata c !! key = doc_metadata doc_data !! key.
Proof.
  intros Hload Hrun c key Hc Hindex Htotal.
  unfold process_document in Hrun. rewrite Hload in Hrun.
  destruct (_extract_full_text doc_data) as [full_text|]; [| discriminate].
  destruct (_split_text fuel self full_text) as [chunks|]; [| discriminate].
  injection Hrun as <-. now apply (stamp_metadata_other doc_data chunks).
Qed.

Lemma process_files_spec (fuel : nat) (self : t) (files : list string) :
  (forall f, f ∈ files -> process_document load fuel self f <> None) ->
  forall acc,
    process_files load fuel self files acc
    = Some (acc ++ concat (map (chunks_of_file load fuel self) files))%list.
Proof.
  induction files as [|f files IH]; intros Hret acc; cbn.
  - now rewrite app_nil_r.
  - assert (forall g, g ∈ files -> process_document load fuel self g <> None) as Hrest
      by (intros g Hg; apply Hret, elem_of_cons; now right).
    pose proof (Hret f ltac:(apply elem_of_cons; now left)) as Hf.
    unfold chunks_of_file at 1.
    destruct (process_document load fuel self f) as [[chunks|e]|]; [| | contradiction].
    + rewrite IH by exact Hrest. now rewrite app_assoc.
    + rewrite IH by exact Hrest. reflexivity.
Qed.

(** A directory run returns the chunks of the files that load and split,
    the PDF files first and the DOCX files after them, each group in the
    order the directory lists it; a file that raises contributes nothing
    and stops nothing. *)
Theorem process_directory_skips_failures (fuel : nat) (self : t)
    (directory_path : string) :
  (forall f, f ∈ (glob directory_path ".pdf" ++ glob directory_path ".docx")%list ->
             process_document load fuel self f <> None) ->
  process_directory load glob fuel self directory_path
  = Some (concat (map (chunks_of_file load fuel self)
                      (glob directory_path ".pdf" ++ glob directory_path ".docx"))).
Proof.
  intros Hret. unfold process_directory, supported_extensions. cbn.
  rewrite process_files_spec
    by (intros f Hf; apply Hret, elem_of_app; now left).
  cbn. rewrite process_files_spec
    by (intros f Hf; apply Hret, elem_of_app; now right).
  now rewrite map_app, concat_app.
Qed.

End Documents.

Section DocumentSamples.

Import DocumentProcessor.

Lemma process_document_keeps_metadata_witness :
  Chunk.metadata
    (hd chunkA (stamp (sourced_doc "docs/a.pdf") ["AAAA."; ". BBBB."; "CCCC."]))
  !! "source"
  = doc_metadata (sourced_doc "docs/a.pdf") !! "source".
Proof.
  apply (process_document_keeps_metadata sample_load 9 (mk 10 2) "docs/a.pdf"
           (sourced_doc "docs/a.pdf")
           (stamp (sourced_doc "docs/a.pdf") ["AAAA."; ". BBBB."; "CCCC."])).
  - reflexivity.
  - reflexivity.
  - unfold stamp. cbn [Py.enumerate map hd]. apply elem_of_cons. now left.
  - discriminate.
  - discriminate.
Defined.

Lemma process_directory_skips_failures_witness :
  process_directory sample_load sample_glob 9 (mk 10 2) "docs"
  = Some (concat (map (chunks_of_file sample_load 9 (mk 10 2))
                      (sample_glob "docs" ".pdf" ++ sample_glob "docs" ".docx"))).
Proof.
  apply (process_directory_skips_failures sample_load sample_glob 9 (mk 10 2) "docs").
  intros f Hf.
  apply elem_of_cons in Hf as [-> | Hf]; [vm_compute; discriminate |].
  apply elem_of_cons in Hf as [-> | Hf]; [vm_compute; discriminate |].
  apply elem_of_cons in Hf as [-> | Hf]; [vm_compute; discriminate |].
  now apply elem_of_nil in Hf.
Defined.

End DocumentSamples.

Section Statistics.

Import DocumentProcessor.

Lemma mapM_ok {A B : Type} (f : A -> result B) (l : list A) (k : list B) :
  Forall2 (fun x y => f x = Ok y) l k -> mapM f l = Ok k.
Proof.
  induction 1 as [|x y l k Hx _ IH]; cbn; [reflexivity |].
  rewrite Hx. cbn. rewrite IH. reflexivity.
Qed.

Lemma mapM_raise {A B : Type} (f : A -> result B) (l : list A) (e : exception) :
  (forall x e', f x = Raise e' -> e' = e) ->
  (exists x, x ∈ l /\ f x = Raise e) ->
  mapM f l = Raise e.
Proof.
  intros Honly. induction l as [|x l IH]; intros (y & Hy & Hfy).
  - now apply elem_of_nil in Hy.
  - cbn. destruct (f x) as [b|e'] eqn:Hfx.
    + cbn. apply elem_of_cons in Hy as [-> | Hy]; [congruence |].
      rewrite IH by eauto. reflexivity.
    + cbn. f_equal. eapply Honly; eauto.
Qed.

Lemma remove_dups_length_le {A : Type} `{EqDecision A} (l : list A) :
  (length (remove_dups l) <= length l)%nat.
Proof.
  induction l as [|x l IH]; cbn; [lia |]. destruct (decide_rel _ _ _); cbn; lia.
Qed.

Lemma remove_dups_nonempty {A : Type} `{EqDecision A} (l : list A) :
  l <> [] -> remove_dups l <> [].
Proof.
  intros Hl Hnil. destruct l as [|x l]; [contradiction |].
  assert (x ∈ remove_dups (x :: l)) as Hx
    by (apply elem_of_remove_dups, elem_of_cons; now left).
  rewrite Hnil in Hx. now apply elem_of_nil in Hx.
Qed.

Lemma remove_dups_constant {A : Type} `{EqDecision A} (l : list A) (v : A) :
  l <> [] -> Forall (fun x => x = v) l -> remove_dups l = [v].
Proof.
  intros Hne Hall. pose proof (NoDup_remove_dups l) as Hnd.
  pose proof (remove_dups_nonempty l Hne) as Hnonempty.
  assert (Forall (fun x => x = v) (remove_dups l)) as Hall'.
  { apply Forall_forall. intros x Hx.
    apply (proj1 (elem_of_remove_dups _ _)) in Hx.
    rewrite Forall_forall in Hall. now apply Hall. }
  destruct (remove_dups l) as [|a [|b r]]; [contradiction | |].
  - inversion Hall'; subst. reflexivity.
  - inversion Hall' as [|? ? Ha Hr]; subst. inversion Hr as [|? ? Hb _]; subst.
    inversion Hnd as [|? ? Hnotin _]; subst. exfalso. apply Hnotin.
    apply elem_of_cons. now left.
Qed.

(** The statistics of a list of chunks that all carry a ['source']: the
    number of chunks, the average as the floor of characters per chunk, and
    between one and as many distinct sources as chunks. *)
Theorem get_document_stats_counts (chunks : list Chunk.t) :
  chunks <> [] ->
  Forall (fun c => is_Some (Chunk.metadata c !! "source")) chunks ->
  exists stats,
    get_document_stats chunks = Ok stats
    /\ total_chunks stats = Py.len chunks
    /\ total_characters stats
       = foldr Z.add 0 (map (fun c => Py.str_len (Chunk.text c)) chunks)
    /\ avg_chunk_size stats * total_chunks stats <= total_characters stats
       < (avg_chunk_size stats + 1) * total_chunks stats
    /\ 1 <= unique_sources stats <= total_chunks stats.
Proof.
  intros Hne Hall.
  assert (exists sources,
    Forall2 (fun c v => match Chunk.metadata c !! "source" with
                        | Some v' => Ok v'
                        | None => Raise KeyError
                        end = Ok v) chunks sources) as [sources Hsources].
  { clear Hne. induction Hall as [|c chunks [v Hv] _ [sources IH]].
    - exists []. constructor.
    - exists (v :: sources). constructor; [now rewrite Hv | exact IH]. }
  pose proof (Forall2_length _ _ _ Hsources) as Hlen.
  destruct chunks as [|c chunks]; [contradiction |].
  remember (c :: chunks) as all eqn:Hall_eq.
  eexists. split.
  { unfold get_document_stats. rewrite Hall_eq. rewrite <- Hall_eq.
    rewrite (mapM_ok _ _ _ Hsources). reflexivity. }
  cbn [total_chunks total_characters avg_chunk_size unique_sources].
  assert (0 < Py.len all) as Hpos by (subst all; unfold Py.len; cbn; lia).
  set (total := foldr Z.add 0 _).
  split; [reflexivity |]. split; [reflexivity |]. split.
  - pose proof (Z.div_mod total (Py.len all) ltac:(lia)) as Hdm.
    pose proof (Z.mod_pos_bound total (Py.len all) Hpos) as Hmod. nia.
  - pose proof (remove_dups_length_le sources) as Hle.
    assert (sources <> []) as Hs by (intros ->; subst all; discriminate).
    pose proof (remove_dups_nonempty sources Hs) as Hnz.
    unfold Py.len in *. destruct (remove_dups sources); [contradiction |].
    cbn in *. lia.
Qed.

Lemma get_document_stats_counts_witness :
  exists stats,
    get_document_stats
      [Chunk.mk "abcd" (<["source" := VStr "a.pdf"]> ∅);
       Chunk.mk "efghi" (<["source" := VStr "b.pdf"]> ∅)] = Ok stats
    /\ total_chunks stats = 2
    /\ total_characters stats = 9
    /\ avg_chunk_size stats * total_chunks stats <= total_characters stats
       < (avg_chunk_size stats + 1) * total_chunks stats
    /\ 1 <= unique_sources stats <= total_chunks stats.
Proof.
  apply (get_document_stats_counts
           [Chunk.mk "abcd" (<["source" := VStr "a.pdf"]> ∅);
            Chunk.mk "efghi" (<["source" := VStr "b.pdf"]> ∅)]).
  - discriminate.
  - repeat constructor; eexists; reflexivity.
Defined.

(** A chunk without a ['source'] in its metadata makes the statistics fail
    with [KeyError]. *)
Theorem get_document_stats_missing_source (chunks : list Chunk.t) (c : Chunk.t) :
  c ∈ chunks ->
  Chunk.metadata c !! "source" = None ->
  get_document_stats chunks = Raise KeyError.
Proof.
  intros Hc Hnone. unfold get_document_stats.
  destruct chunks as [|c0 chunks]; [now apply elem_of_nil in Hc |].
  rewrite (mapM_raise _ _ KeyError); [reflexivity | |].
  - intros x e'. destruct (Chunk.metadata x !! "source"); [discriminate |].
    now intros [= <-].
  - exists c. split; [exact Hc | now rewrite Hnone].
Qed.

Lemma get_document_stats_missing_source_witness :
  get_document_stats [chunkA; chunkB] = Raise KeyError.
Proof.
  apply (get_document_stats_missing_source [chunkA; chunkB] chunkB).
  - apply elem_of_cons. right. apply elem_of_cons. now left.
  - reflexivity.
Defined.

Context (load : string -> result DocData).

(** The chunks of one document whose loader sets ['source'] count one
    source, whatever their number. *)
Theorem process_document_one_source (fuel : nat) (self : t) (file_path : string)
    (doc_data : DocData) (source : pyval) (processed : list Chunk.t) :
  load file_path = Ok doc_data ->
  doc_metadata doc_data !! "source" = Some source ->
  process_document load fuel self file_path = Some (Ok processed) ->
  processed <> [] ->
  exists stats,
    get_document_stats processed = Ok stats
    /\ total_chunks stats = Py.len processed
    /\ unique_sources stats = 1.
Proof.
  intros Hload Hsource Hrun Hne.
  assert (Forall (fun c => Chunk.metadata c !! "source" = Some source) processed) as Hall.
  { apply Forall_forall. intros c Hc.
    unfold process_document in Hrun. rewrite Hload in Hrun.
    destruct (_extract_full_text doc_data) as [full_text|]; [| discriminate].
    destruct (_split_text fuel self full_text) as [chunks|]; [| discriminate].
    injection Hrun as <-.
    rewrite (stamp_metadata_other doc_data chunks c "source" Hc) by discriminate.
    exact Hsource. }
  assert (Forall2 (fun c v => match Chunk.metadata c !! "source" with
                              | Some v' => Ok v'
                              | None => Raise KeyError
                              end = Ok v) processed (map (fun _ => source) processed))
    as Hsources.
  { clear Hne Hrun. induction Hall as [|c l Hc _ IH]; cbn; constructor;
      [now rewrite Hc | exact IH]. }
  destruct processed as [|c processed]; [contradiction |].
  remember (c :: processed) as all eqn:Hall_eq.
  eexists. split.
  { unfold get_document_stats. rewrite Hall_eq. rewrite <- Hall_eq.
    rewrite (mapM_ok _ _ _ Hsources). reflexivity. }
  cbn [total_chunks unique_sources]. split; [reflexivity |].
  rewrite (remove_dups_constant _ source); [reflexivity | subst all; discriminate |].
  apply Forall_forall. intros x Hx.
  apply list_elem_of_In, in_map_iff in Hx as (? & <- & _). reflexivity.
Qed.

End Statistics.

Section StatisticsSamples.

Import DocumentProcessor.

Lemma process_document_one_source_witness :
  exists stats,
    get_document_stats (stamp (sourced_doc "docs/a.pdf") ["AAAA."; ". BBBB."; "CCCC."])
    = Ok stats
    /\ total_chunks stats
       = Py.len (stamp (sourced_doc "docs/a.pdf") ["AAAA."; ". BBBB."; "CCCC."])
    /\ unique_sources stats = 1.
Proof.
  apply (process_document_one_source sample_load 9 (mk 10 2) "docs/a.pdf"
           (sourced_doc "docs/a.pdf") (VStr "docs/a.pdf")
           (stamp (sourced_doc "docs/a.pdf") ["AAAA."; ". BBBB."; "CCCC."]));
    [reflexivity | reflexivity | reflexivity | discriminate].
Defined.

End StatisticsSamples.

(** ** The nearest rows *)

Section FaissNearest.

Import FAISSVectorStore.

Lemma insert_hit_labels (h : Q * Z) (l : list (Q * Z)) :
  map snd (Faiss.insert_hit h l) ≡ₚ snd h :: map snd l.
Proof.
  induction l as [|h' l IH]; cbn; [reflexivity |].
  destruct (Qle_bool (fst h) (fst h')); cbn; [reflexivity |].
  rewrite IH. apply perm_swap.
Qed.

Lemma sort_hits_labels (l : list (Q * Z)) :
  map snd (Faiss.sort_hits l) ≡ₚ map snd l.
Proof.
  induction l as [|h l IH]; cbn; [reflexivity |].
  fold (Faiss.sort_hits l). now rewrite insert_hit_labels, IH.
Qed.

Lemma hits_labels_NoDup (index : Faiss.IndexFlatL2) (q : list Q) :
  NoDup (map snd (Faiss.hits index q)).
Proof.
  pose proof (hits_labels_increasing index q) as Hinc.
  induction Hinc as [|h l _ IH Hall]; cbn; constructor; [| exact IH].
  intros Hin. apply list_elem_of_In, in_map_iff in Hin as (h' & Heq & Hin).
  rewrite Forall_forall in Hall. apply list_elem_of_In, Hall in Hin. lia.
Qed.

Lemma filter_all {A : Type} (P : A -> Prop) `{forall x, Decision (P x)} (l : list A) :
  Forall P l -> filter P l = l.
Proof.
  induction 1 as [|x l Hx _ IH]; [reflexivity |].
  rewrite filter_cons_True by exact Hx. now rewrite IH.
Qed.

Lemma hits_length (index : Faiss.IndexFlatL2) (q : list Q) :
  length (Faiss.hits index q) = length (Faiss.xb index).
Proof. unfold Faiss.hits. now rewrite length_map, enumerate_length. Qed.

(** With [1 <= k <= ntotal] on a consistent store whose rows are all within
    [FLT_MAX] of the query, [query] returns exactly [k] results; each
    presents a stored row (its id, text, metadata and distance); no row
    appears twice; and no row left out is nearer than a row returned. *)
Theorem query_returns_nearest (self : t) (query_embedding : ndarray) (top_k : Z) :
  consistent self ->
  0 < top_k <= Faiss.ntotal (index self) ->
  Np.size query_embedding = Faiss.d (index self) ->
  Forall (fun v => (Faiss.fvec_L2sqr (flat query_embedding) v < Faiss.FLT_MAX)%Q)
         (Faiss.xb (index self)) ->
  exists rs,
    query self query_embedding top_k = Ok rs
    /\ Py.len rs = top_k
    /\ Forall (fun r => exists j, presents self (flat query_embedding) r j) rs
    /\ NoDup (map id rs)
    /\ forall (j : nat) (v : list Q),
         Faiss.xb (index self) !! j = Some v ->
         "doc_" +:+ Py.str (Z.of_nat j) ∉ map id rs ->
         forall r, r ∈ rs ->
           (distance r <= Faiss.fvec_L2sqr (flat query_embedding) v)%Q.
Proof.
  intros Hcons Hk Hdim Hnear.
  set (q := flat query_embedding) in *.
  assert (Faiss.ntotal (index self) <> 0) as Hne by lia.
  destruct (query_returns_every_hit self query_embedding top_k Hcons Hne ltac:(lia) Hdim)
    as (rs & Hq & Hall).
  fold q in Hall.
  set (sorted := Faiss.sort_hits (Faiss.hits (index self) q)).
  assert (Faiss.search_row (index self) top_k q = take (Z.to_nat top_k) sorted) as Hrow.
  { unfold Faiss.search_row. rewrite filter_all.
    - fold sorted.
      assert (length (take (Z.to_nat top_k) sorted) = Z.to_nat top_k) as ->.
      { rewrite length_take. subst sorted. rewrite sort_hits_length, hits_length.
        unfold Faiss.ntotal, Py.len in Hk. lia. }
      rewrite Nat.sub_diag. apply app_nil_r.
    - apply Forall_forall. intros h Hh.
      apply (proj1 (hits_elem_of _ _ _)) in Hh as (j & v & Hj & ->). cbn.
      rewrite Forall_forall in Hnear.
      apply list_elem_of_lookup_2, Hnear in Hj.
      unfold Faiss.Qltb. apply Is_true_true, negb_true_iff.
      destruct (Qle_bool Faiss.FLT_MAX (Faiss.fvec_L2sqr q v)) eqn:Hle; [| reflexivity].
      apply Qle_bool_iff in Hle. lra. }
  rewrite Hrow in Hall.
  assert (forall h, h ∈ take (Z.to_nat top_k) sorted -> h ∈ Faiss.hits (index self) q)
    as Htaken.
  { intros h Hh. apply sort_hits_elem_of.
    eapply elem_of_sublist; [exact Hh | apply sublist_take]. }
  assert (forall r h, describes self r h -> h ∈ Faiss.hits (index self) q ->
            exists j : nat, snd h = Z.of_nat j /\ presents self q r j) as Hpresents.
  { intros r h (Hid & Htext & Hmeta & Hd & _ & _) Hh.
    apply (proj1 (hits_elem_of _ _ _)) in Hh as (j & v & Hj & ->). cbn in *.
    exists j. split; [reflexivity |]. exists v.
    apply getitem_nonneg in Htext. apply getitem_nonneg in Hmeta.
    repeat split; assumption. }
  exists rs. split; [exact Hq |]. split.
  { unfold Py.len. rewrite (Forall2_length _ _ _ Hall), <- Hrow, search_row_length. lia. }
  split; [| split].
  - apply Forall_forall. intros r Hr.
    apply list_elem_of_lookup in Hr as [n Hn].
    destruct (Forall2_lookup_l _ _ _ _ _ Hall Hn) as (h & Hh & Hdesc).
    destruct (Hpresents r h Hdesc) as (j & _ & Hp); [| now exists j].
    apply Htaken. eapply list_elem_of_lookup_2; eauto.
  - assert (map id rs
            = map (fun h : Q * Z => "doc_" +:+ Py.str (snd h))
                  (take (Z.to_nat top_k) sorted)) as ->.
    { clear -Hall. induction Hall as [|r h rs hs (Hid & _) _ IH]; cbn;
        [reflexivity | now rewrite Hid, IH]. }
    rewrite <- (map_map snd (fun z => "doc_" +:+ Py.str z)).
    change (NoDup ((fun z => "doc_" +:+ Py.str z) <$> map snd (take (Z.to_nat top_k) sorted))).
    apply NoDup_fmap_2; [intros a b; apply doc_id_inj |].
    assert (NoDup (map snd sorted)) as Hnd
      by (subst sorted; rewrite sort_hits_labels; apply hits_labels_NoDup).
    rewrite <- (take_drop (Z.to_nat top_k) sorted), map_app in Hnd.
    now apply NoDup_app in Hnd as [Hnd _].
  - intros j v Hj Hout r Hr.
    apply list_elem_of_lookup in Hr as [n Hn].
    destruct (Forall2_lookup_l _ _ _ _ _ Hall Hn) as (h & Hh & Hdesc).
    destruct Hdesc as (_ & _ & _ & -> & _ & _).
    assert ((Faiss.fvec_L2sqr q v, Z.of_nat j) ∈ sorted) as Hin
      by (apply sort_hits_elem_of, hits_elem_of; now exists j, v).
    rewrite <- (take_drop (Z.to_nat top_k) sorted) in Hin.
    apply elem_of_app in Hin as [Hin | Hin].
    + exfalso. apply Hout.
      apply list_elem_of_lookup in Hin as [m Hm].
      destruct (Forall2_lookup_r _ _ _ _ _ Hall Hm) as (r' & Hr' & Hid & _).
      cbn in Hid. rewrite <- Hid. apply list_elem_of_In, in_map.
      apply list_elem_of_In. eapply list_elem_of_lookup_2; eauto.
    + pose proof (sort_hits_sorted (Faiss.hits (index self) q)) as Hsorted.
      fold sorted in Hsorted.
      rewrite <- (take_drop (Z.to_nat top_k) sorted) in Hsorted.
      apply (StronglySorted_app_1_elem_of _ _ _ h _ Hsorted) in Hin; [exact Hin |].
      eapply list_elem_of_lookup_2; eauto.
Qed.

End FaissNearest.

Lemma query_returns_nearest_witness :
  exists rs,
    FAISSVectorStore.query sample_store (Array1 e1) 1 = Ok rs
    /\ Py.len rs = 1
    /\ Forall (fun r => exists j, presents sample_store (flat (Array1 e1)) r j) rs
    /\ NoDup (map FAISSVectorStore.id rs)
    /\ forall (j : nat) (v : list Q),
         Faiss.xb (FAISSVectorStore.index sample_store) !! j = Some v ->
         "doc_" +:+ Py.str (Z.of_nat j) ∉ map FAISSVectorStore.id rs ->
         forall r, r ∈ rs ->
           (FAISSVectorStore.distance r <= Faiss.fvec_L2sqr (flat (Array1 e1)) v)%Q.
Proof.
  apply (query_returns_nearest sample_store (Array1 e1) 1).
  - exact sample_store_consistent.
  - vm_compute. split; [reflexivity | discriminate].
  - reflexivity.
  - repeat constructor.
Defined.

(** ** Failure, statistics, reset and reopening of the FAISS store *)

Section FaissLifecycle.

Import FAISSVectorStore.

(** [get_stats] counts index rows: a successful add raises
    ['document_count'] by the number of vectors, whatever the number of
    chunks, and leaves ['embedding_dimension'] as it was. *)
Theorem faiss_stats_count_rows (self self' : t) (chunks : list Chunk.t)
    (embeddings : ndarray) :
  add_documents self chunks embeddings = (Ok (), self') ->
  document_count (get_stats self')
  = document_count (get_stats self) + Np.len embeddings
  /\ embedding_dimension (get_stats self') = embedding_dimension (get_stats self).
Proof.
  unfold add_documents, Faiss.add. destruct embeddings as [v | ncols rows];
    [discriminate |].
  destruct (ncols =? Faiss.d (index self)); [| discriminate].
  intros [= <-]. unfold get_stats, Faiss.ntotal, Np.len, Py.len. cbn.
  rewrite length_app. split; [lia | reflexivity].
Qed.

Lemma faiss_stats_count_rows_witness :
  document_count (get_stats sample_store)
  = document_count (get_stats (mk 4 (Faiss.new 4) [] [])) + 2
  /\ embedding_dimension (get_stats sample_store) = 4.
Proof.
  apply (faiss_stats_count_rows (mk 4 (Faiss.new 4) [] []) sample_store
           [chunkA; chunkB] (Array2 4 [e1; e2])).
  reflexivity.
Defined.

(** After [reset] the store is consistent and empty, keeps its embedding
    dimension, and answers every query with the empty list. *)
Theorem faiss_reset_forgets (self : t) (query_embedding : ndarray) (top_k : Z) :
  consistent (reset self)
  /\ document_count (get_stats (reset self)) = 0
  /\ embedding_dimension (get_stats (reset self)) = embedding_dim self
  /\ Faiss.d (index (reset self)) = embedding_dim self
  /\ query (reset self) query_embedding top_k = Ok [].
Proof.
  split; [apply reset_consistent |]. repeat split.
Qed.

(** Opening a persist directory: without an index file the store starts
    empty, whatever metadata file lies there; with both files it holds what
    they hold; with an index file and no metadata file the constructor
    raises [FileNotFoundError]. *)
Lemma faiss_open_directory (embedding_dim : Z) (disk : Disk) :
  (index_path disk = None ->
   __init__ embedding_dim disk = Ok (mk embedding_dim (Faiss.new embedding_dim) [] []))
  /\ (forall index' documents' metadatas',
        index_path disk = Some index' ->
        metadata_path disk = Some (documents', metadatas') ->
        __init__ embedding_dim disk = Ok (mk embedding_dim index' documents' metadatas'))
  /\ (forall index',
        index_path disk = Some index' ->
        metadata_path disk = None ->
        __init__ embedding_dim disk = Raise FileNotFoundError).
Proof.
  unfold __init__, load_index. repeat split.
  - now intros ->.
  - intros index' documents' metadatas' -> ->. reflexivity.
  - intros index' -> ->. reflexivity.
Qed.

End FaissLifecycle.

(** ** Batches of the Chroma store *)

Section ChromaBatches.

Lemma slice_take_drop {A : Type} (l : list A) (i e : Z) :
  0 <= i <= e -> e <= Py.len l ->
  Py.slice l i e = take (Z.to_nat (e - i)) (drop (Z.to_nat i) l).
Proof.
  intros Hi He. unfold Py.slice, Py.adjust.
  assert ((i <? 0) = false) as -> by (apply Z.ltb_ge; lia).
  assert ((e <? 0) = false) as -> by (apply Z.ltb_ge; lia).
  rewrite (Z.min_l i) by lia. rewrite (Z.min_l e) by lia. reflexivity.
Qed.

Lemma zip_rows_drop (n : nat) :
  forall ids embeddings documents metadatas,
    Chroma.zip_rows (drop n ids) (drop n embeddings) (drop n documents)
      (drop n metadatas)
    = drop n (Chroma.zip_rows ids embeddings documents metadatas).
Proof.
  induction n as [|n IH]; intros ids embeddings documents metadatas;
    [reflexivity |].
  destruct ids as [|i ids]; [reflexivity |].
  destruct embeddings as [|e embeddings];
    [cbn; now destruct (drop n ids) |].
  destruct documents as [|d documents];
    [cbn; destruct (drop n ids); [reflexivity | now destruct (drop n embeddings)] |].
  destruct metadatas as [|m metadatas]; [| cbn; apply IH].
  cbn. destruct (drop n ids); [reflexivity |].
  destruct (drop n embeddings); [reflexivity |]. now destruct (drop n documents).
Qed.

Lemma zip_rows_take (n : nat) :
  forall ids embeddings documents metadatas,
    Chroma.zip_rows (take n ids) (take n embeddings) (take n documents)
      (take n metadatas)
    = take n (Chroma.zip_rows ids embeddings documents metadatas).
Proof.
  induction n as [|n IH]; intros ids embeddings documents metadatas;
    [reflexivity |].
  destruct ids as [|i ids]; [reflexivity |].
  destruct embeddings as [|e embeddings]; [reflexivity |].
  destruct documents as [|d documents]; [reflexivity |].
  destruct metadatas as [|m metadatas]; [reflexivity |].
  cbn. now rewrite IH.
Qed.

Lemma zip_rows_length_le ids embeddings documents metadatas :
  (length (Chroma.zip_rows ids embeddings documents metadatas) <= length ids)%nat.
Proof.
  revert embeddings documents metadatas.
  induction ids as [|i ids IH]; intros [|e es] [|d ds] [|m ms]; cbn; try lia.
  specialize (IH es ds ms). lia.
Qed.

Lemma zip_rows_ids ids embeddings documents metadatas :
  length embeddings = length ids -> length documents = length ids ->
  length metadatas = length ids ->
  map Chroma.row_id (Chroma.zip_rows ids embeddings documents metadatas) = ids.
Proof.
  revert embeddings documents metadatas.
  induction ids as [|i ids IH]; intros [|e es] [|d ds] [|m ms]; cbn;
    intros He Hd Hm; try discriminate; [reflexivity |].
  rewrite IH by lia. reflexivity.
Qed.

Lemma insert_rows_app (stored new1 new2 : list Chroma.Row) :
  Chroma.insert_rows stored (new1 ++ new2)
  = Chroma.insert_rows (Chroma.insert_rows stored new1) new2.
Proof.
  revert stored. induction new1 as [|r new1 IH]; intros stored; cbn;
    [reflexivity | apply IH].
Qed.

Lemma range_from_NoDup (start : Z) (m : nat) : NoDup (Py.range_from start 1 m).
Proof.
  revert start. induction m as [|m IH]; intros start; cbn; constructor; [| apply IH].
  intros Hin.
  assert (forall s k x, x ∈ Py.range_from s 1 k -> s <= x) as Hlow.
  { intros s k. revert s. induction k as [|k IHk]; intros s x Hx; cbn in Hx.
    - now apply elem_of_nil in Hx.
    - apply elem_of_cons in Hx as [-> | Hx]; [lia |]. apply IHk in Hx. lia. }
  apply Hlow in Hin. lia.
Qed.

Lemma new_ids_NoDup (chunks : list Chunk.t) : NoDup (ChromaVectorStore.new_ids chunks).
Proof.
  unfold ChromaVectorStore.new_ids. rewrite range_len.
  change (NoDup ((fun i => "doc_" +:+ Py.str i) <$> Py.range_from 0 1 (length chunks))).
  apply NoDup_fmap_2; [intros a b; apply doc_id_inj | apply range_from_NoDup].
Qed.

Lemma NoDup_take_drop {A : Type} (l : list A) (n k : nat) :
  NoDup l -> NoDup (take k (drop n l)).
Proof.
  intros Hl. rewrite <- (take_drop n l) in Hl. apply NoDup_app in Hl as (_ & _ & Hd).
  rewrite <- (take_drop k (drop n l)) in Hd. now apply NoDup_app in Hd as [Hd _].
Qed.

Lemma has_id_false (stored : list Chroma.Row) (i : string) :
  Chroma.has_id stored i = false -> i ∉ map Chroma.row_id stored.
Proof.
  unfold Chroma.has_id. induction stored as [|r stored IH]; cbn; intros Hid Hin.
  - now apply elem_of_nil in Hin.
  - apply orb_false_iff in Hid as [Hr Hrest].
    apply elem_of_cons in Hin as [-> | Hin]; [| now apply IH].
    now rewrite String.eqb_refl in Hr.
Qed.

Lemma insert_rows_prefix (new stored : list Chroma.Row) :
  exists extra, Chroma.insert_rows stored new = (stored ++ extra)%list.
Proof.
  revert stored. induction new as [|r new IH]; intros stored; cbn.
  - exists []. now rewrite app_nil_r.
  - destruct (Chroma.has_id stored (Chroma.row_id r)); [apply IH |].
    destruct (IH (stored ++ [r])%list) as [extra ->].
    exists (r :: extra). now rewrite <- app_assoc.
Qed.

Lemma insert_rows_NoDup (new stored : list Chroma.Row) :
  NoDup (map Chroma.row_id stored) ->
  NoDup (map Chroma.row_id (Chroma.insert_rows stored new)).
Proof.
  revert stored. induction new as [|r new IH]; intros stored Hnd; cbn; [exact Hnd |].
  destruct (Chroma.has_id stored (Chroma.row_id r)) eqn:Hid; [now apply IH |].
  apply IH. rewrite map_app. apply NoDup_app. split; [exact Hnd |].
  split; [| cbn; apply NoDup_singleton].
  intros x Hx Hx'. cbn in Hx'. apply list_elem_of_singleton in Hx'. subst x.
  now apply has_id_false in Hid.
Qed.

(** Inserting records of the collection's dimension keeps the dimension. *)
Lemma dimension_insert_rows (n : Z) (new stored : list Chroma.Row) :
  (forall dim, Chroma.dimension stored = Some dim -> dim = n) ->
  Forall (fun r => Py.len (Chroma.row_embedding r) = n) new ->
  forall dim, Chroma.dimension (Chroma.insert_rows stored new) = Some dim -> dim = n.
Proof.
  revert stored. induction new as [|r new IH]; intros stored Hs Hnew; cbn;
    [exact Hs |].
  inversion Hnew as [|? ? Hr Hrest]; subst.
  destruct (Chroma.has_id stored (Chroma.row_id r)); apply IH; try assumption.
  intros dim. destruct stored as [|x stored]; cbn.
  - now intros [= <-].
  - apply Hs.
Qed.

Lemma zip_rows_widths (n : Z) (ids : list string) (embeddings : list (list Q))
    (documents : list string) (metadatas : list (gmap string pyval)) :
  Forall (fun e => Py.len e = n) embeddings ->
  Forall (fun r => Py.len (Chroma.row_embedding r) = n)
         (Chroma.zip_rows ids embeddings documents metadatas).
Proof.
  intros Hwidth. revert ids documents metadatas.
  induction Hwidth as [|e es He _ IH]; intros [|i ids] [|d ds] [|m ms]; cbn;
    constructor; [exact He | apply IH].
Qed.

(** A batch that passes every validation of [add]. *)
Lemma chroma_add_ok (stored : list Chroma.Row) (ids : list string)
    (embeddings : list (list Q)) (documents : list string)
    (metadatas : list (gmap string pyval)) (ncols : Z) :
  ids <> [] -> NoDup ids ->
  length embeddings = length ids ->
  length documents = length ids ->
  length metadatas = length ids ->
  0 < ncols ->
  Forall (fun e => Py.len e = ncols) embeddings ->
  Forall (fun m => m <> ∅) metadatas ->
  (forall dim, Chroma.dimension stored = Some dim -> dim = ncols) ->
  Chroma.add stored ids embeddings documents metadatas
  = Ok (Chroma.insert_rows stored
          (Chroma.zip_rows ids embeddings documents metadatas)).
Proof.
  intros Hne Hnd He Hd Hm Hpos Hwidth Hmeta Hdim. unfold Chroma.add.
  assert (0 < length ids)%nat as Hlen by (destruct ids; [contradiction | cbn; lia]).
  assert ((Py.len ids =? 0) = false) as -> by (apply Z.eqb_neq; unfold Py.len; lia).
  rewrite bool_decide_eq_true_2 by exact Hnd. cbn [negb].
  assert ((Py.len embeddings =? 0) = false) as ->
    by (apply Z.eqb_neq; unfold Py.len; lia).
  assert (existsb (fun e => Py.len e =? 0) embeddings = false) as ->.
  { apply not_true_is_false. intros Hex.
    apply existsb_exists in Hex as (e & Hin & He0). apply Z.eqb_eq in He0.
    rewrite Forall_forall in Hwidth. apply list_elem_of_In in Hin.
    specialize (Hwidth e Hin). lia. }
  cbn [orb].
  assert (existsb (fun m => Z.of_nat (size m) =? 0) metadatas = false) as ->.
  { apply not_true_is_false. intros Hex.
    apply existsb_exists in Hex as (m & Hin & Hm0). apply Z.eqb_eq in Hm0.
    rewrite Forall_forall in Hmeta. apply list_elem_of_In in Hin.
    apply (Hmeta m Hin). apply map_size_empty_inv. lia. }
  unfold Py.len at 1 2 3 4 5 6. rewrite He, Hd, Hm, !Z.eqb_refl. cbn [andb negb].
  assert (forallb (fun e => Py.len e =? ncols) embeddings = true) as Hall.
  { apply forallb_forall. intros e Hin. apply Z.eqb_eq.
    rewrite Forall_forall in Hwidth. apply Hwidth. now apply list_elem_of_In. }
  destruct (Chroma.dimension stored) as [dim|] eqn:Hs.
  - rewrite (Hdim dim eq_refl), Hall. reflexivity.
  - destruct embeddings as [|e es]; [cbn in He; lia |].
    inversion Hwidth as [|? ? He0 _]; subst. rewrite Hall. reflexivity.
Qed.

(** The batch loop from the batch that starts at [i] on, when the batches
    left cover the chunks from [i]: the records from [i] on are inserted, as
    one insertion would. *)
Lemma add_batches_from (chunks : list Chunk.t) (ncols : Z) (rows : list (list Q)) :
  length rows = length chunks ->
  0 < ncols ->
  Forall (fun row => Py.len row = ncols) rows ->
  Forall (fun c => Chunk.metadata c <> ∅) chunks ->
  forall (m : nat) (i : Z) (stored : list Chroma.Row),
    0 <= i ->
    (m = 0%nat -> Py.len chunks <= i) ->
    Py.len chunks <= i + 100 * Z.of_nat m ->
    (m <> 0%nat -> i + 100 * (Z.of_nat m - 1) < Py.len chunks) ->
    (forall dim, Chroma.dimension stored = Some dim -> dim = ncols) ->
    ChromaVectorStore.add_batches stored chunks (Array2 ncols rows)
      (Py.range_from i 100 m)
    = (Ok (), Chroma.insert_rows stored
                (drop (Z.to_nat i) (chroma_rows chunks rows))).
Proof.
  intros Hrows Hpos Hshape Hmeta.
  assert (Forall (fun m => m <> ∅) (map Chunk.metadata chunks)) as Hmeta'
    by (now apply List.Forall_map).
  induction m as [|m IH]; intros i stored Hi Hzero Hcover Hlast Hdim.
  - cbn. rewrite drop_ge; [reflexivity |].
    pose proof (zip_rows_length_le (ChromaVectorStore.new_ids chunks) rows
                  (map Chunk.text chunks) (map Chunk.metadata chunks)) as Hle.
    pose proof (new_ids_len chunks) as Hids. specialize (Hzero eq_refl).
    unfold chroma_rows, Py.len in *. lia.
  - cbn [Py.range_from ChromaVectorStore.add_batches ChromaVectorStore.embeddings_slice].
    set (n := Py.len chunks) in *. set (e := Z.min (i + 100) n).
    assert (i < n) as Hin by (specialize (Hlast ltac:(lia)); lia).
    pose proof (new_ids_len chunks) as Hids. fold n in Hids.
    assert (Py.len rows = n) as Hrows' by (unfold n, Py.len; lia).
    assert (Py.len (map Chunk.text chunks) = n) as Htexts
      by (unfold n, Py.len; now rewrite length_map).
    assert (Py.len (map Chunk.metadata chunks) = n) as Hmetas
      by (unfold n, Py.len; now rewrite length_map).
    rewrite !slice_take_drop by lia.
    assert (Chroma.add stored
              (take (Z.to_nat (e - i)) (drop (Z.to_nat i) (ChromaVectorStore.new_ids chunks)))
              (take (Z.to_nat (e - i)) (drop (Z.to_nat i) rows))
              (take (Z.to_nat (e - i)) (drop (Z.to_nat i) (map Chunk.text chunks)))
              (take (Z.to_nat (e - i)) (drop (Z.to_nat i) (map Chunk.metadata chunks)))
            = Ok (Chroma.insert_rows stored
                    (take (Z.to_nat (e - i))
                       (drop (Z.to_nat i) (chroma_rows chunks rows))))) as ->.
    { unfold chroma_rows. rewrite <- zip_rows_drop, <- zip_rows_take.
      unfold Py.len in Hids, Hrows', Htexts, Hmetas, n.
      apply (chroma_add_ok stored _ _ _ _ ncols).
      - intros Hnil. apply (f_equal length) in Hnil.
        rewrite length_take, length_drop in Hnil. cbn in Hnil. lia.
      - apply NoDup_take_drop, new_ids_NoDup.
      - rewrite !length_take, !length_drop. lia.
      - rewrite !length_take, !length_drop. lia.
      - rewrite !length_take, !length_drop. lia.
      - exact Hpos.
      - now apply Forall_take, Forall_drop.
      - now apply Forall_take, Forall_drop.
      - exact Hdim. }
    rewrite IH; try lia.
    + f_equal. rewrite <- insert_rows_app. f_equal.
      destruct (Z_le_gt_dec (i + 100) n) as [Hfull | Hpart].
      * replace (Z.to_nat (e - i)) with 100%nat by lia.
        replace (Z.to_nat (i + 100)) with (Z.to_nat i + 100)%nat by lia.
        rewrite <- drop_drop. apply take_drop.
      * pose proof (zip_rows_length_le (ChromaVectorStore.new_ids chunks) rows
                      (map Chunk.text chunks) (map Chunk.metadata chunks)) as Hle.
        fold (chroma_rows chunks rows) in Hle. unfold Py.len in *.
        rewrite take_ge by (rewrite length_drop; lia).
        rewrite (drop_ge _ (Z.to_nat (i + 100))) by lia. apply app_nil_r.
    + apply dimension_insert_rows; [exact Hdim |].
      apply Forall_take, Forall_drop. now apply zip_rows_widths.
Qed.

Lemma add_documents_one_insertion (self : ChromaVectorStore.t)
    (chunks : list Chunk.t) (ncols : Z) (rows : list (list Q)) :
  length rows = length chunks ->
  0 < ncols ->
  Np.well_shaped (Array2 ncols rows) ->
  Forall (fun c => Chunk.metadata c <> ∅) chunks ->
  (forall dim, Chroma.dimension (ChromaVectorStore.collection self) = Some dim ->
               dim = ncols) ->
  ChromaVectorStore.add_documents self chunks (Array2 ncols rows)
  = (Ok (), ChromaVectorStore.mk (ChromaVectorStore.collection_name self)
              (Chroma.insert_rows (ChromaVectorStore.collection self)
                 (chroma_rows chunks rows))).
Proof.
  intros Hrows Hpos Hshape Hmeta Hdim.
  unfold ChromaVectorStore.add_documents, Py.range.
  set (n := Py.len chunks). assert (0 <= n) as Hn by (unfold n, Py.len; lia).
  replace (n - 0 + 100 - 1) with (n + 99) by lia.
  pose proof (Z.div_mod (n + 99) 100 ltac:(lia)) as Hdm.
  pose proof (Z.mod_pos_bound (n + 99) 100 ltac:(lia)) as Hmod.
  assert (0 <= (n + 99) / 100) as Hq by (apply Z.div_pos; lia).
  rewrite (add_batches_from chunks ncols rows Hrows Hpos Hshape Hmeta);
    fold n; try lia; [reflexivity | exact Hdim].
Qed.

(** With as many vectors as chunks, each chunk with some metadata and each
    vector of the collection's dimension, [add_documents] succeeds and
    leaves the collection as one insertion of all the records would: the
    batches of 100 do not show. The records held before stay as they were,
    at the front, and ids that were unique stay unique. *)
Theorem chroma_add_documents_batches (self : ChromaVectorStore.t)
    (chunks : list Chunk.t) (ncols : Z) (rows : list (list Q)) :
  length rows = length chunks ->
  0 < ncols ->
  Np.well_shaped (Array2 ncols rows) ->
  Forall (fun c => Chunk.metadata c <> ∅) chunks ->
  (forall dim, Chroma.dimension (ChromaVectorStore.collection self) = Some dim ->
               dim = ncols) ->
  exists self' extra,
    ChromaVectorStore.add_documents self chunks (Array2 ncols rows) = (Ok (), self')
    /\ ChromaVectorStore.collection_name self' = ChromaVectorStore.collection_name self
    /\ ChromaVectorStore.collection self'
       = Chroma.insert_rows (ChromaVectorStore.collection self) (chroma_rows chunks rows)
    /\ ChromaVectorStore.collection self'
       = (ChromaVectorStore.collection self ++ extra)%list
    /\ (NoDup (map Chroma.row_id (ChromaVectorStore.collection self)) ->
        NoDup (map Chroma.row_id (ChromaVectorStore.collection self'))).
Proof.
  intros Hrows Hpos Hshape Hmeta Hdim.
  destruct (insert_rows_prefix (chroma_rows chunks rows)
              (ChromaVectorStore.collection self)) as [extra Hextra].
  eexists _, extra. split; [now apply add_documents_one_insertion |].
  cbn [ChromaVectorStore.collection ChromaVectorStore.collection_name].
  split; [reflexivity |]. split; [reflexivity |]. split; [exact Hextra |].
  apply insert_rows_NoDup.
Qed.

Lemma chunkAB_metadata : Forall (fun c => Chunk.metadata c <> ∅) [chunkA; chunkB].
Proof.
  repeat constructor; intros Hempty;
    apply (f_equal (fun m : gmap string pyval => m !! "chunk_index")) in Hempty;
    discriminate.
Qed.

Lemma chroma_add_documents_batches_witness :
  exists self' extra,
    ChromaVectorStore.add_documents
      (ChromaVectorStore.mk "sap_documents"
         [Chroma.mkRow "doc_0" e2 "chunkB" (Chunk.metadata chunkB)])
      [chunkA; chunkB] (Array2 4 [e1; e2]) = (Ok (), self')
    /\ ChromaVectorStore.collection_name self' = "sap_documents"
    /\ ChromaVectorStore.collection self'
       = Chroma.insert_rows [Chroma.mkRow "doc_0" e2 "chunkB" (Chunk.metadata chunkB)]
           (chroma_rows [chunkA; chunkB] [e1; e2])
    /\ ChromaVectorStore.collection self'
       = ([Chroma.mkRow "doc_0" e2 "chunkB" (Chunk.metadata chunkB)] ++ extra)%list
    /\ (NoDup (map Chroma.row_id
                 [Chroma.mkRow "doc_0" e2 "chunkB" (Chunk.metadata chunkB)]) ->
        NoDup (map Chroma.row_id (ChromaVectorStore.collection self'))).
Proof.
  apply (chroma_add_documents_batches
           (ChromaVectorStore.mk "sap_documents"
              [Chroma.mkRow "doc_0" e2 "chunkB" (Chunk.metadata chunkB)])
           [chunkA; chunkB] 4 [e1; e2]).
  - reflexivity.
  - lia.
  - repeat constructor.
  - exact chunkAB_metadata.
  - now intros dim [= <-].
Defined.

Lemma insert_rows_fresh (new stored : list Chroma.Row) :
  NoDup (map Chroma.row_id new) ->
  (forall r, r ∈ new -> Chroma.has_id stored (Chroma.row_id r) = false) ->
  Chroma.insert_rows stored new = (stored ++ new)%list.
Proof.
  revert stored. induction new as [|r new IH]; intros stored Hnd Hfresh; cbn.
  - now rewrite app_nil_r.
  - inversion Hnd as [|? ? Hr Hnd']; subst.
    rewrite (Hfresh r) by (apply elem_of_cons; now left).
    rewrite IH; [now rewrite <- app_assoc | exact Hnd' |].
    intros r' Hr'.
    pose proof (Hfresh r' ltac:(apply elem_of_cons; now right)) as Hstored.
    unfold Chroma.has_id in *. rewrite existsb_app, Hstored. cbn.
    rewrite orb_false_r. apply String.eqb_neq. intros Heq. apply Hr.
    rewrite <- Heq. apply list_elem_of_In, in_map. now apply list_elem_of_In.
Qed.

(** On an empty collection an [add_documents] with as many vectors as
    chunks, each chunk with some metadata and the vectors of one positive
    width, stores every chunk, in order, chunk [i] under ["doc_i"] with
    vector [i], and the collection then counts as many records as chunks. *)
Theorem chroma_first_add_stores_all (name : string) (chunks : list Chunk.t)
    (ncols : Z) (rows : list (list Q)) :
  length rows = length chunks ->
  0 < ncols ->
  Np.well_shaped (Array2 ncols rows) ->
  Forall (fun c => Chunk.metadata c <> ∅) chunks ->
  exists self',
    ChromaVectorStore.add_documents (ChromaVectorStore.mk name []) chunks
      (Array2 ncols rows) = (Ok (), self')
    /\ ChromaVectorStore.collection self' = chroma_rows chunks rows
    /\ map Chroma.row_id (ChromaVectorStore.collection self')
       = ChromaVectorStore.new_ids chunks
    /\ map Chroma.row_document (ChromaVectorStore.collection self')
       = map Chunk.text chunks
    /\ map Chroma.row_embedding (ChromaVectorStore.collection self') = rows
    /\ ChromaVectorStore.get_stats self' = Py.len chunks.
Proof.
  intros Hrows Hpos Hshape Hmeta. eexists.
  split; [apply add_documents_one_insertion; try assumption; discriminate |].
  cbn [ChromaVectorStore.collection ChromaVectorStore.collection_name].
  pose proof (new_ids_len chunks) as Hids. unfold Py.len in Hids.
  assert (map Chroma.row_id (chroma_rows chunks rows) = ChromaVectorStore.new_ids chunks)
    as Hrow_ids
    by (apply zip_rows_ids; rewrite ?length_map; lia).
  rewrite insert_rows_fresh;
    [| rewrite Hrow_ids; apply new_ids_NoDup | reflexivity].
  cbn [app]. split; [reflexivity |]. split; [exact Hrow_ids |].
  assert (forall ids es ds ms,
            length es = length ids -> length ds = length ids ->
            length ms = length ids ->
            map Chroma.row_document (Chroma.zip_rows ids es ds ms) = ds
            /\ map Chroma.row_embedding (Chroma.zip_rows ids es ds ms) = es
            /\ length (Chroma.zip_rows ids es ds ms) = length ids) as Hcols.
  { induction ids as [|i ids IH]; intros [|e es] [|d ds] [|m ms] He Hd Hm;
      try discriminate; cbn; [repeat split |].
    destruct (IH es ds ms) as (-> & -> & ->); [cbn in *; lia.. |]. repeat split. }
  destruct (Hcols (ChromaVectorStore.new_ids chunks) rows (map Chunk.text chunks)
              (map Chunk.metadata chunks)) as (Hd & He & Hl);
    rewrite ?length_map; try lia.
  fold (chroma_rows chunks rows) in Hd, He, Hl.
  split; [exact Hd |]. split; [exact He |].
  unfold ChromaVectorStore.get_stats, Py.len. cbn. lia.
Qed.

Lemma chroma_first_add_stores_all_witness :
  exists self',
    ChromaVectorStore.add_documents (ChromaVectorStore.mk "sap_documents" [])
      [chunkA; chunkB] (Array2 4 [e1; e2]) = (Ok (), self')
    /\ ChromaVectorStore.collection self' = chroma_rows [chunkA; chunkB] [e1; e2]
    /\ map Chroma.row_id (ChromaVectorStore.collection self')
       = ChromaVectorStore.new_ids [chunkA; chunkB]
    /\ map Chroma.row_document (ChromaVectorStore.collection self')
       = map Chunk.text [chunkA; chunkB]
    /\ map Chroma.row_embedding (ChromaVectorStore.collection self') = [e1; e2]
    /\ ChromaVectorStore.get_stats self' = Py.len [chunkA; chunkB].
Proof.
  apply (chroma_first_add_stores_all "sap_documents" [chunkA; chunkB] 4 [e1; e2]).
  - reflexivity.
  - lia.
  - repeat constructor.
  - exact chunkAB_metadata.
Defined.

End ChromaBatches.

(** ** The documents of a Chroma query *)

Section ChromaAlignment.

Context (collection_query : list Chroma.Row -> list (list Q) -> Z
                            -> option (gmap string pyval)
                            -> result Chroma.QueryResult).

Lemma getitem_out_of_range {A : Type} (l : list A) (i : nat) :
  (length l <= i)%nat -> Py.getitem l (Z.of_nat i) = Raise IndexError.
Proof.
  intros Hi. destruct (Py.getitem l (Z.of_nat i)) as [x|e] eqn:Hget.
  - apply getitem_nonneg, lookup_lt_Some in Hget. lia.
  - unfold Py.getitem in Hget.
    destruct ((0 <=? _) && _); [destruct (l !! _) |]; congruence.
Qed.

Lemma getitem_cases {A : Type} (l : list A) (i : Z) :
  Py.getitem l i = Raise IndexError \/ exists x, Py.getitem l i = Ok x.
Proof.
  unfold Py.getitem. destruct ((0 <=? _) && _); [destruct (l !! _) |]; eauto.
Qed.

Lemma format_documents_aligned (results : Chroma.QueryResult)
    (ids0 texts0 : list string) (metadatas0 : list (gmap string pyval))
    (ds : list (list Q)) (ds0 : list Q) :
  Chroma.ids results !! 0%nat = Some ids0 ->
  Chroma.documents results !! 0%nat = Some texts0 ->
  Chroma.metadatas results !! 0%nat = Some metadatas0 ->
  Chroma.distances results = Some ds -> ds !! 0%nat = Some ds0 ->
  (length ids0 <= length texts0)%nat ->
  (length ids0 <= length metadatas0)%nat ->
  (length ids0 <= length ds0)%nat ->
  forall (m s : nat) (acc : list ChromaVectorStore.Document),
    (s + m)%nat = length ids0 ->
    ChromaVectorStore.format_documents results (Py.range_from (Z.of_nat s) 1 m) acc
    = Ok (acc ++ chroma_documents (drop s ids0) (drop s texts0)
                   (drop s metadatas0) (drop s ds0))%list.
Proof.
  intros Hids Htexts Hmetas Hds Hds0 Hlt Hlm Hld.
  induction m as [|m IH]; intros s acc Hlen.
  - cbn. rewrite (drop_ge ids0) by lia. cbn. now rewrite app_nil_r.
  - destruct (lookup_lt_is_Some_2 ids0 s ltac:(lia)) as [i Hi].
    destruct (lookup_lt_is_Some_2 texts0 s ltac:(lia)) as [t Ht].
    destruct (lookup_lt_is_Some_2 metadatas0 s ltac:(lia)) as [md Hmd].
    destruct (lookup_lt_is_Some_2 ds0 s ltac:(lia)) as [d Hd].
    cbn [Py.range_from ChromaVectorStore.format_documents].
    unfold ChromaVectorStore.distance_at. rewrite Hds.
    rewrite (proj2 (getitem_first _ _) Hids), (proj2 (getitem_first _ _) Htexts),
      (proj2 (getitem_first _ _) Hmetas), (proj2 (getitem_first _ _) Hds0).
    cbn.
    rewrite (proj2 (getitem_nonneg _ _ _) Hi), (proj2 (getitem_nonneg _ _ _) Ht),
      (proj2 (getitem_nonneg _ _ _) Hmd), (proj2 (getitem_nonneg _ _ _) Hd).
    cbn. replace (Z.of_nat s + 1) with (Z.of_nat (S s)) by lia.
    rewrite IH by lia. rewrite <- app_assoc.
    rewrite (drop_S _ _ _ Hi), (drop_S _ _ _ Ht), (drop_S _ _ _ Hmd), (drop_S _ _ _ Hd).
    reflexivity.
Qed.

(** When the collection answers with at least as many texts, metadatas and
    distances as ids, [query] returns one document per id, in the
    collection's order: document [i] has id, text, metadata and distance
    number [i] of the answer and the score [1 - distance]. *)
Theorem chroma_query_documents (self : ChromaVectorStore.t)
    (query_embedding : ndarray) (top_k : Z)
    (filter_metadata : option (gmap string pyval))
    (results : Chroma.QueryResult)
    (ids0 texts0 : list string) (metadatas0 : list (gmap string pyval))
    (ds : list (list Q)) (ds0 : list Q) :
  collection_query (ChromaVectorStore.collection self) (query_rows query_embedding)
    top_k filter_metadata = Ok results ->
  Chroma.ids results !! 0%nat = Some ids0 ->
  Chroma.documents results !! 0%nat = Some texts0 ->
  Chroma.metadatas results !! 0%nat = Some metadatas0 ->
  Chroma.distances results = Some ds -> ds !! 0%nat = Some ds0 ->
  (length ids0 <= length texts0)%nat ->
  (length ids0 <= length metadatas0)%nat ->
  (length ids0 <= length ds0)%nat ->
  ChromaVectorStore.query collection_query self query_embedding top_k filter_metadata
  = Ok (chroma_documents ids0 texts0 metadatas0 ds0)
  /\ Py.len (chroma_documents ids0 texts0 metadatas0 ds0) = Py.len ids0.
Proof.
  intros Hq Hids Htexts Hmetas Hds Hds0 Hlt Hlm Hld. split.
  - unfold ChromaVectorStore.query. fold (query_rows query_embedding). rewrite Hq.
    cbn. rewrite (proj2 (getitem_first _ _) Hids). cbn. rewrite range_len.
    change 0 with (Z.of_nat 0).
    now rewrite (format_documents_aligned results ids0 texts0 metadatas0 ds ds0).
  - unfold Py.len. f_equal. clear Hq Hids Htexts Hmetas Hds Hds0.
    revert texts0 metadatas0 ds0 Hlt Hlm Hld.
    induction ids0 as [|i ids0 IH]; intros [|t texts0] [|md metadatas0] [|d ds0];
      cbn; intros Hlt Hlm Hld; try lia.
    rewrite IH by lia. reflexivity.
Qed.

Lemma format_documents_index_error (results : Chroma.QueryResult)
    (ids0 texts0 : list string) :
  Chroma.ids results !! 0%nat = Some ids0 ->
  Chroma.documents results !! 0%nat = Some texts0 ->
  forall (m s : nat) (acc : list ChromaVectorStore.Document),
    (s <= length texts0 < s + m)%nat ->
    ChromaVectorStore.format_documents results (Py.range_from (Z.of_nat s) 1 m) acc
    = Raise IndexError.
Proof.
  intros Hids Htexts. induction m as [|m IH]; intros s acc Hs; [lia |].
  cbn [Py.range_from ChromaVectorStore.format_documents].
  rewrite (proj2 (getitem_first _ _) Hids), (proj2 (getitem_first _ _) Htexts). cbn.
  destruct (getitem_cases ids0 (Z.of_nat s)) as [-> | [i ->]]; [reflexivity |]. cbn.
  destruct (Nat.eq_dec s (length texts0)) as [-> | Hne].
  - rewrite getitem_out_of_range by lia. reflexivity.
  - destruct (getitem_cases texts0 (Z.of_nat s)) as [-> | [t ->]]; [reflexivity |]. cbn.
    destruct (getitem_cases (Chroma.metadatas results) 0) as [-> | [ms ->]];
      [reflexivity |]. cbn.
    destruct (getitem_cases ms (Z.of_nat s)) as [-> | [md ->]]; [reflexivity |]. cbn.
    unfold ChromaVectorStore.distance_at.
    replace (Z.of_nat s + 1) with (Z.of_nat (S s)) by lia.
    destruct (Chroma.distances results) as [ds|]; cbn; [| apply IH; lia].
    destruct (getitem_cases ds 0) as [-> | [d0 ->]]; [reflexivity |]. cbn.
    destruct (getitem_cases d0 (Z.of_nat s)) as [-> | [d ->]]; [reflexivity |]. cbn.
    apply IH. lia.
Qed.

(** When the collection answers with fewer texts than ids, [query] returns
    no documents at all: it raises [IndexError]. *)
Theorem chroma_query_short_answer (self : ChromaVectorStore.t)
    (query_embedding : ndarray) (top_k : Z)
    (filter_metadata : option (gmap string pyval))
    (results : Chroma.QueryResult) (ids0 texts0 : list string) :
  collection_query (ChromaVectorStore.collection self) (query_rows query_embedding)
    top_k filter_metadata = Ok results ->
  Chroma.ids results !! 0%nat = Some ids0 ->
  Chroma.documents results !! 0%nat = Some texts0 ->
  (length texts0 < length ids0)%nat ->
  ChromaVectorStore.query collection_query self query_embedding top_k filter_metadata
  = Raise IndexError.
Proof.
  intros Hq Hids Htexts Hshort.
  unfold ChromaVectorStore.query. fold (query_rows query_embedding). rewrite Hq.
  cbn. rewrite (proj2 (getitem_first _ _) Hids). cbn. rewrite range_len.
  change 0 with (Z.of_nat 0).
  apply (format_documents_index_error results ids0 texts0 Hids Htexts). lia.
Qed.

End ChromaAlignment.

Lemma chroma_query_documents_witness :
  ChromaVectorStore.query sample_collection_query
    (ChromaVectorStore.mk "sap_documents" []) (Array1 e1) 2 None
  = Ok (chroma_documents ["doc_0"; "doc_1"] ["chunkA"; "chunkB"]
          [Chunk.metadata chunkA; Chunk.metadata chunkB] [0; 1 # 2]%Q)
  /\ Py.len (chroma_documents ["doc_0"; "doc_1"] ["chunkA"; "chunkB"]
               [Chunk.metadata chunkA; Chunk.metadata chunkB] [0; 1 # 2]%Q)
     = Py.len ["doc_0"; "doc_1"].
Proof.
  apply (chroma_query_documents sample_collection_query
           (ChromaVectorStore.mk "sap_documents" []) (Array1 e1) 2 None
           (Chroma.mkQueryResult [["doc_0"; "doc_1"]] [["chunkA"; "chunkB"]]
              [[Chunk.metadata chunkA; Chunk.metadata chunkB]]
              (Some [[0; 1 # 2]%Q]))
           ["doc_0"; "doc_1"] ["chunkA"; "chunkB"]
           [Chunk.metadata chunkA; Chunk.metadata chunkB] [[0; 1 # 2]%Q] [0; 1 # 2]%Q);
    try reflexivity; cbn; lia.
Defined.

Lemma chroma_query_short_answer_witness :
  ChromaVectorStore.query short_collection_query
    (ChromaVectorStore.mk "sap_documents" []) (Array1 e1) 2 None
  = Raise IndexError.
Proof.
  apply (chroma_query_short_answer short_collection_query
           (ChromaVectorStore.mk "sap_documents" []) (Array1 e1) 2 None
           (Chroma.mkQueryResult [["doc_0"; "doc_1"]] [["chunkA"]]
              [[Chunk.metadata chunkA; Chunk.metadata chunkB]] None)
           ["doc_0"; "doc_1"] ["chunkA"]); try reflexivity.
  cbn. lia.
Defined.

(** ** Ingestion into the FAISS store *)

Section RagIngestion.

Import SAPRAGSystem.

Context (load : string -> result DocData) (glob : string -> string -> list string)
        (encode : list string -> result ndarray).


(** The run of a directory ingestion on the FAISS store, when the directory
    gives chunks and the generator answers with vectors of the index
    dimension. *)
Lemma ingest_documents_faiss_run (fuel : nat) (self : t) (directory_path : string)
    (chunks : list Chunk.t) (store : FAISSVectorStore.t) (rows : list (list Q)) :
  DocumentProcessor.process_directory load glob fuel (document_processor self)
    directory_path = Some chunks ->
  chunks <> [] ->
  vector_store self = FaissStore store ->
  encode (map Chunk.text chunks)
  = Ok (Array2 (Faiss.d (FAISSVectorStore.index store)) rows) ->
  ingest_documents load glob encode fuel self directory_path
  = Some
      (let store' :=
         FAISSVectorStore.mk (FAISSVectorStore.embedding_dim store)
           (Faiss.mk (Faiss.d (FAISSVectorStore.index store))
                     (Faiss.xb (FAISSVectorStore.index store) ++ rows))
           (FAISSVectorStore.documents store ++ map Chunk.text chunks)
           (FAISSVectorStore.metadatas store ++ map Chunk.metadata chunks) in
       (match DocumentProcessor.get_document_stats chunks with
        | Ok stats =>
            Ok (StatusSuccess stats (Some (FaissStats (FAISSVectorStore.get_stats store'))))
        | Raise e => Raise e
        end,
        mk (document_processor self) (FaissStore store') (vector_store_type self)
           (if String.eqb (vector_store_type self) "faiss"
            then FAISSVectorStore.mkDisk
                   (Some (FAISSVectorStore.index store'))
                   (Some (FAISSVectorStore.documents store',
                          FAISSVectorStore.metadatas store'))
            else disk self)
           (embeddings_calls self ++ [map Chunk.text chunks]))).
Proof.
  intros Hdir Hne Hstore Henc. unfold ingest_documents. rewrite Hdir.
  destruct chunks as [|c chunks]; [contradiction |].
  cbv beta iota zeta.
  unfold generate_embeddings, EmbeddingsGenerator.generate_embeddings.
  cbn [map] in Henc |- *. rewrite Henc.
  unfold add_documents. cbn [vector_store]. rewrite Hstore.
  cbn [store_add_documents]. rewrite faiss_add_documents_appends.
  cbn [vector_store_type map]. f_equal.
  destruct (String.eqb (vector_store_type self) "faiss");
    destruct (DocumentProcessor.get_document_stats (c :: chunks)); reflexivity.
Qed.

(** A directory ingestion on the FAISS store calls the embeddings generator
    once, with the chunk texts in chunk order, and appends the vectors it
    gets, the texts and the metadatas to the store in that order; it returns
    the statistics of the chunks, or raises what computing them raises, the
    store being extended in both cases. *)
Theorem ingest_documents_indexes_in_order (fuel : nat) (self : t)
    (directory_path : string) (chunks : list Chunk.t)
    (store : FAISSVectorStore.t) (rows : list (list Q)) :
  DocumentProcessor.process_directory load glob fuel (document_processor self)
    directory_path = Some chunks ->
  chunks <> [] ->
  vector_store self = FaissStore store ->
  encode (map Chunk.text chunks)
  = Ok (Array2 (Faiss.d (FAISSVectorStore.index store)) rows) ->
  exists r self' store',
    ingest_documents load glob encode fuel self directory_path = Some (r, self')
    /\ embeddings_calls self' = (embeddings_calls self ++ [map Chunk.text chunks])%list
    /\ vector_store self' = FaissStore store'
    /\ Faiss.xb (FAISSVectorStore.index store')
       = (Faiss.xb (FAISSVectorStore.index store) ++ rows)%list
    /\ FAISSVectorStore.documents store'
       = (FAISSVectorStore.documents store ++ map Chunk.text chunks)%list
    /\ FAISSVectorStore.metadatas store'
       = (FAISSVectorStore.metadatas store ++ map Chunk.metadata chunks)%list
    /\ r = match DocumentProcessor.get_document_stats chunks with
           | Ok stats =>
               Ok (StatusSuccess stats
                     (Some (FaissStats (FAISSVectorStore.get_stats store'))))
           | Raise e => Raise e
           end.
Proof.
  intros Hdir Hne Hstore Henc.
  rewrite (ingest_documents_faiss_run fuel self directory_path chunks store rows
             Hdir Hne Hstore Henc).
  cbv zeta. do 3 eexists. split; [reflexivity |]. repeat split.
Qed.

(** A successful directory ingestion of a system of type ['faiss'] leaves
    in the persist directory what the store holds: a store opened on it
    afterwards, with any embedding dimension, has the same index, texts and
    metadatas and answers every query as the ingesting store does. *)
Theorem ingest_documents_faiss_reopens (fuel : nat) (self : t)
    (directory_path : string) (store : FAISSVectorStore.t)
    (stats : DocumentProcessor.Stats) (vector_store_stats : option StoreStats)
    (self' : t) :
  vector_store self = FaissStore store ->
  vector_store_type self = "faiss" ->
  ingest_documents load glob encode fuel self directory_path
  = Some (Ok (StatusSuccess stats vector_store_stats), self') ->
  exists store',
    vector_store self' = FaissStore store'
    /\ vector_store_stats = Some (FaissStats (FAISSVectorStore.get_stats store'))
    /\ forall embedding_dim, exists reopened,
         FAISSVectorStore.__init__ embedding_dim (disk self') = Ok reopened
         /\ FAISSVectorStore.index reopened = FAISSVectorStore.index store'
         /\ FAISSVectorStore.documents reopened = FAISSVectorStore.documents store'
         /\ FAISSVectorStore.metadatas reopened = FAISSVectorStore.metadatas store'
         /\ forall query_embedding top_k,
              FAISSVectorStore.query reopened query_embedding top_k
              = FAISSVectorStore.query store' query_embedding top_k.
Proof.
  intros Hstore Htype Hrun. unfold ingest_documents in Hrun.
  destruct (DocumentProcessor.process_directory load glob fuel
              (document_processor self) directory_path) as [[|c chunks]|];
    [discriminate | | discriminate].
  remember (c :: chunks) as all eqn:Hall. clear Hall.
  unfold generate_embeddings in Hrun.
  destruct (EmbeddingsGenerator.generate_embeddings encode (map Chunk.text all))
    as [embeddings|e]; [| discriminate].
  unfold add_documents in Hrun. cbn [vector_store] in Hrun. rewrite Hstore in Hrun.
  cbn [store_add_documents] in Hrun.
  destruct (FAISSVectorStore.add_documents store all embeddings) as [[u|e] store'];
    [| discriminate].
  cbn [vector_store_type] in Hrun. rewrite Htype in Hrun. cbn in Hrun.
  destruct (DocumentProcessor.get_document_stats all) as [stats'|e]; [| discriminate].
  injection Hrun as <- <- <-.
  exists store'. split; [reflexivity |]. split; [reflexivity |].
  intros embedding_dim.
  exists (FAISSVectorStore.mk embedding_dim (FAISSVectorStore.index store')
            (FAISSVectorStore.documents store') (FAISSVectorStore.metadatas store')).
  split; [reflexivity |]. split; [reflexivity |]. split; [reflexivity |].
  split; [reflexivity |].
  intros query_embedding top_k. now apply query_ext.
Qed.

(** A system built with a store type that is neither ['chroma'] nor
    ['faiss'] (['FAISS'], say) works on a FAISS store, and no ingestion of
    it writes the persist directory, whatever the ingestion returns. *)
Theorem other_store_type_never_saves (vector_store_type : string)
    (chunk_size chunk_overlap embedding_dim : Z) (stored : list Chroma.Row)
    (disk0 : FAISSVectorStore.Disk) (self : t) (fuel : nat) :
  __init__ vector_store_type chunk_size chunk_overlap embedding_dim stored disk0
  = Ok self ->
  vector_store_type <> "chroma" ->
  vector_store_type <> "faiss" ->
  (exists store, vector_store self = FaissStore store)
  /\ (forall directory_path r self',
        ingest_documents load glob encode fuel self directory_path = Some (r, self') ->
        disk self' = disk0)
  /\ (forall file_path r self',
        ingest_single_document load encode fuel self file_path = Some (r, self') ->
        disk self' = disk0).
Proof.
  intros Hinit Hchroma Hfaiss. unfold __init__ in Hinit. cbn in Hinit.
  apply String.eqb_neq in Hchroma, Hfaiss. rewrite Hchroma in Hinit.
  destruct (FAISSVectorStore.__init__ embedding_dim disk0) as [store|e];
    [| discriminate].
  cbn in Hinit. injection Hinit as <-.
  split; [now exists store |].
  split.
  - intros directory_path r self' Hrun. unfold ingest_documents in Hrun.
    cbn [document_processor] in Hrun.
    destruct (DocumentProcessor.process_directory _ _ _ _ _) as [[|c chunks]|];
      [now injection Hrun as <- <- | | discriminate].
    remember (c :: chunks) as all eqn:Hall. clear Hall.
    unfold generate_embeddings in Hrun.
    destruct (EmbeddingsGenerator.generate_embeddings encode (map Chunk.text all))
      as [embeddings|e]; [| now injection Hrun as <- <-].
    unfold add_documents in Hrun. cbn [vector_store store_add_documents] in Hrun.
    destruct (FAISSVectorStore.add_documents store all embeddings) as [[u|e] store'];
      [| now injection Hrun as <- <-].
    cbn [SAPRAGSystem.vector_store_type] in Hrun. rewrite Hfaiss in Hrun.
    destruct (DocumentProcessor.get_document_stats all);
      now injection Hrun as <- <-.
  - intros file_path r self' Hrun. unfold ingest_single_document in Hrun.
    cbn [document_processor] in Hrun.
    destruct (DocumentProcessor.process_document _ _ _ _) as [[all|e]|];
      [| now injection Hrun as <- <- | discriminate].
    unfold generate_embeddings in Hrun.
    destruct (EmbeddingsGenerator.generate_embeddings encode (map Chunk.text all))
      as [embeddings|e]; [| now injection Hrun as <- <-].
    unfold add_documents in Hrun. cbn [vector_store store_add_documents] in Hrun.
    destruct (FAISSVectorStore.add_documents store all embeddings) as [[u|e] store'];
      [| now injection Hrun as <- <-].
    cbn [SAPRAGSystem.vector_store_type] in Hrun. rewrite Hfaiss in Hrun.
    destruct (DocumentProcessor.get_document_stats all);
      now injection Hrun as <- <-.
Qed.


End RagIngestion.

Lemma sample_directory_chunks :
  DocumentProcessor.process_directory sample_load sample_glob 9
    (DocumentProcessor.mk 10 2) "docs" = Some sample_chunks.
Proof. reflexivity. Qed.

Lemma ingest_documents_indexes_in_order_witness :
  exists r self' store',
    SAPRAGSystem.ingest_documents sample_load sample_glob sample_encode 9
      (small_faiss_system "faiss") "docs" = Some (r, self')
    /\ SAPRAGSystem.embeddings_calls self'
       = (SAPRAGSystem.embeddings_calls (small_faiss_system "faiss")
          ++ [map Chunk.text sample_chunks])%list
    /\ SAPRAGSystem.vector_store self' = SAPRAGSystem.FaissStore store'
    /\ Faiss.xb (FAISSVectorStore.index store')
       = (Faiss.xb (FAISSVectorStore.index (FAISSVectorStore.mk 4 (Faiss.new 4) [] []))
          ++ map (fun _ => e1) (map Chunk.text sample_chunks))%list
    /\ FAISSVectorStore.documents store'
       = (FAISSVectorStore.documents (FAISSVectorStore.mk 4 (Faiss.new 4) [] [])
          ++ map Chunk.text sample_chunks)%list
    /\ FAISSVectorStore.metadatas store'
       = (FAISSVectorStore.metadatas (FAISSVectorStore.mk 4 (Faiss.new 4) [] [])
          ++ map Chunk.metadata sample_chunks)%list
    /\ r = match DocumentProcessor.get_document_stats sample_chunks with
           | Ok stats =>
               Ok (SAPRAGSystem.StatusSuccess stats
                     (Some (SAPRAGSystem.FaissStats (FAISSVectorStore.get_stats store'))))
           | Raise e => Raise e
           end.
Proof.
  apply (ingest_documents_indexes_in_order sample_load sample_glob sample_encode 9
           (small_faiss_system "faiss") "docs" sample_chunks
           (FAISSVectorStore.mk 4 (Faiss.new 4) [] [])
           (map (fun _ => e1) (map Chunk.text sample_chunks)));
    [exact sample_directory_chunks | vm_compute; discriminate | reflexivity | reflexivity].
Defined.

Lemma ingest_documents_faiss_reopens_witness :
  exists store',
    SAPRAGSystem.vector_store sample_ingested = SAPRAGSystem.FaissStore store'
    /\ Some (SAPRAGSystem.FaissStats
               (FAISSVectorStore.mkStats (Py.len sample_chunks) 4))
       = Some (SAPRAGSystem.FaissStats (FAISSVectorStore.get_stats store'))
    /\ forall embedding_dim, exists reopened,
         FAISSVectorStore.__init__ embedding_dim (SAPRAGSystem.disk sample_ingested)
         = Ok reopened
         /\ FAISSVectorStore.index reopened = FAISSVectorStore.index store'
         /\ FAISSVectorStore.documents reopened = FAISSVectorStore.documents store'
         /\ FAISSVectorStore.metadatas reopened = FAISSVectorStore.metadatas store'
         /\ forall query_embedding top_k,
              FAISSVectorStore.query reopened query_embedding top_k
              = FAISSVectorStore.query store' query_embedding top_k.
Proof.
  apply (ingest_documents_faiss_reopens sample_load sample_glob sample_encode 9
           (small_faiss_system "faiss") "docs"
           (FAISSVectorStore.mk 4 (Faiss.new 4) [] []) sample_ingest_stats
           (Some (SAPRAGSystem.FaissStats
                    (FAISSVectorStore.mkStats (Py.len sample_chunks) 4)))
           sample_ingested);
    [reflexivity | reflexivity | vm_compute; reflexivity].
Defined.

Lemma other_store_type_never_saves_witness :
  (exists store,
     SAPRAGSystem.vector_store (small_faiss_system "FAISS")
     = SAPRAGSystem.FaissStore store)
  /\ (forall directory_path r self',
        SAPRAGSystem.ingest_documents sample_load sample_glob sample_encode 9
          (small_faiss_system "FAISS") directory_path = Some (r, self') ->
        SAPRAGSystem.disk self' = FAISSVectorStore.mkDisk None None)
  /\ (forall file_path r self',
        SAPRAGSystem.ingest_single_document sample_load sample_encode 9
          (small_faiss_system "FAISS") file_path = Some (r, self') ->
        SAPRAGSystem.disk self' = FAISSVectorStore.mkDisk None None).
Proof.
  apply (other_store_type_never_saves sample_load sample_glob sample_encode
           "FAISS" 10 2 4 [] (FAISSVectorStore.mkDisk None None)
           (small_faiss_system "FAISS") 9);
    [reflexivity | discriminate | discriminate].
Defined.


(** ** Reopening with another dimension *)

Section FaissReopen.

Import FAISSVectorStore.

(** A store opened on a saved persist directory with an embedding dimension
    other than the saved one reports the dimension it was given, yet its
    index keeps the saved one: vectors of the reported dimension are
    refused with an assertion error and leave the store as it is, vectors
    of the saved dimension are accepted; only [reset] brings the index to
    the reported dimension. *)
Theorem faiss_reopen_dimension (saved : t) (disk : Disk) (embedding_dim : Z)
    (chunks : list Chunk.t) (rows rows' : list (list Q)) :
  embedding_dim <> Faiss.d (index saved) ->
  exists reopened,
    __init__ embedding_dim (snd (save_index saved disk)) = Ok reopened
    /\ embedding_dimension (get_stats reopened) = embedding_dim
    /\ Faiss.d (index reopened) = Faiss.d (index saved)
    /\ add_documents reopened chunks (Array2 embedding_dim rows)
       = (Raise AssertionError, reopened)
    /\ fst (add_documents reopened chunks (Array2 (Faiss.d (index saved)) rows')) = Ok ()
    /\ Faiss.d (index (reset reopened)) = embedding_dim.
Proof.
  intros Hdim.
  exists (mk embedding_dim (index saved) (documents saved) (metadatas saved)).
  split; [reflexivity |]. split; [reflexivity |]. split; [reflexivity |].
  split.
  - unfold add_documents, Faiss.add. cbn [index].
    now rewrite (proj2 (Z.eqb_neq _ _) Hdim).
  - split; [| reflexivity].
    unfold add_documents, Faiss.add. cbn [index]. now rewrite Z.eqb_refl.
Qed.

Lemma faiss_reopen_dimension_witness :
  exists reopened,
    __init__ 8 (snd (save_index sample_store (mkDisk None None))) = Ok reopened
    /\ embedding_dimension (get_stats reopened) = 8
    /\ Faiss.d (index reopened) = Faiss.d (index sample_store)
    /\ add_documents reopened [chunkA] (Array2 8 [[1; 0; 0; 0; 0; 0; 0; 0]%Q])
       = (Raise AssertionError, reopened)
    /\ fst (add_documents reopened [chunkA] (Array2 (Faiss.d (index sample_store)) [e1]))
       = Ok ()
    /\ Faiss.d (index (reset reopened)) = 8.
Proof.
  apply (faiss_reopen_dimension sample_store (mkDisk None None) 8 [chunkA]
           [[1; 0; 0; 0; 0; 0; 0; 0]%Q] [e1]).
  vm_compute. discriminate.
Defined.

End FaissReopen.

(** ** Uniqueness of the record ids *)

Section UniqueIds.












End UniqueIds.
